(** * Windowed averaging of RTP statistics

    A shallow embedding of [modules/statistics/AvgRTPStatsReporter.js]:
    the three classes [AverageStatReport], [ConnectionAvgStats] and
    [AvgRTPStatsReporter], the JavaScript values they inspect, and the
    effects they have on the logger, the analytics sink and the listener
    registry of the conference. *)

From Stdlib Require Import ZArith List Ascii String Bool Lia DecimalString.
From Stdlib Require Import SpecFloat.
Import ListNotations.
Open Scope string_scope.
Open Scope Z_scope.

Set Warnings "-register-all".

(** ** JavaScript numbers

    A JavaScript number is an IEEE 754 binary64 value.  [spec_float] at
    precision 53 and maximal exponent 1024 is exactly that format, with a
    single not-a-number and round-to-nearest-even arithmetic. *)

Definition number : Type := spec_float.

Module Num.

Definition prec : Z := 53.
Definition emax : Z := 1024.

Definition NaN : number := S754_nan.
Definition zero : number := S754_zero false.

Definition add (x y : number) : number := SFadd prec emax x y.
Definition div (x y : number) : number := SFdiv prec emax x y.
Definition eqb (x y : number) : bool := SFeqb x y.

(** The number denoted by an integer literal or by an integer counter. *)
Definition of_Z (z : Z) : number := binary_normalize prec emax z 0 false.

(** The global [isNaN], on an argument that already is a number. *)
Definition isNaN (x : number) : bool :=
  match x with S754_nan => true | _ => false end.

Definition is_infinity (x : number) : bool :=
  match x with S754_infinity _ => true | _ => false end.

(** Left-to-right summation, as a [for] loop with [sum += v] does it. *)
Definition total (xs : list number) : number := fold_left add xs zero.

(** The arithmetic mean of a sequence in binary64 arithmetic: the
    left-to-right sum divided by the number of elements. *)
Definition mean (xs : list number) : number :=
  div (total xs) (of_Z (Z.of_nat (List.length xs))).

End Num.

(** ** JavaScript values

    The properties of an object are listed in the order in which
    [Object.keys] enumerates them. *)

Inductive value : Type :=
| VUndefined
| VNull
| VBool (b : bool)
| VNumber (x : number)
| VString (s : string)
| VArray (items : list value)
| VObject (props : list (string * value)).

Module JS.

Definition typeof (v : value) : string :=
  match v with
  | VUndefined => "undefined"
  | VNull => "object"
  | VBool _ => "boolean"
  | VNumber _ => "number"
  | VString _ => "string"
  | VArray _ => "object"
  | VObject _ => "object"
  end.

(** ToBoolean: what [if (v)] and [!v] test. *)
Definition truthy (v : value) : bool :=
  match v with
  | VUndefined | VNull => false
  | VBool b => b
  | VNumber (S754_zero _) | VNumber S754_nan => false
  | VNumber _ => true
  | VString s => negb (String.eqb s EmptyString)
  | VArray _ | VObject _ => true
  end.

Fixpoint lookup (k : string) (props : list (string * value)) : value :=
  match props with
  | [] => VUndefined
  | (k', v) :: rest => if String.eqb k k' then v else lookup k rest
  end.

Definition string_of_Z (z : Z) : string :=
  NilZero.string_of_int (Z.to_int z).

Fixpoint index_of_digits (acc : nat) (s : string) : option nat :=
  match s with
  | EmptyString => Some acc
  | String c rest =>
      let d := Ascii.nat_of_ascii c in
      if ((48 <=? d) && (d <=? 57))%nat
      then index_of_digits (10 * acc + (d - 48))%nat rest
      else None
  end.

(** The array index a property key denotes, if it is one. *)
Definition array_index (k : string) : option nat :=
  match k with
  | EmptyString => None
  | String c rest =>
      if (Ascii.eqb c "0"%char) && negb (String.eqb rest EmptyString) then None
      else index_of_digits 0 k
  end.

(** Reading property [k] of a value that is neither [undefined] nor
    [null]: own properties only, which is all the reporter relies on. *)
Definition prop (v : value) (k : string) : value :=
  match v with
  | VObject props => lookup k props
  | VArray items =>
      if String.eqb k "length" then VNumber (Num.of_Z (Z.of_nat (List.length items)))
      else match array_index k with
           | Some i => nth i items VUndefined
           | None => VUndefined
           end
  | VString s =>
      if String.eqb k "length" then VNumber (Num.of_Z (Z.of_nat (String.length s)))
      else match array_index k with
           | Some i => match String.get i s with
                       | Some c => VString (String c EmptyString)
                       | None => VUndefined
                       end
           | None => VUndefined
           end
  | _ => VUndefined
  end.

Definition nullish (v : value) : bool :=
  match v with VUndefined | VNull => true | _ => false end.

Definition show_nullish (v : value) : string :=
  match v with VNull => "null" | _ => "undefined" end.

Fixpoint indices (start n : nat) : list string :=
  match n with
  | O => []
  | S n' => string_of_Z (Z.of_nat start) :: indices (S start) n'
  end.

(** [Object.keys] of a value that is neither [undefined] nor [null]. *)
Definition keys (v : value) : list string :=
  match v with
  | VObject props => map fst props
  | VArray items => indices 0 (List.length items)
  | VString s => indices 0 (String.length s)
  | _ => []
  end.

(** [===] with a primitive on one side. *)
Definition strict_eq (a b : value) : bool :=
  match a, b with
  | VUndefined, VUndefined => true
  | VNull, VNull => true
  | VBool x, VBool y => Bool.eqb x y
  | VNumber x, VNumber y => Num.eqb x y
  | VString x, VString y => String.eqb x y
  | _, _ => false
  end.

End JS.

(** ** Effects

    What the code does to its collaborators: log lines, events sent to the
    analytics module, and listeners added to or removed from the
    conference. *)

Inductive payload : Type :=
| ValueField (x : number)      (* the object literal { value: x } *)
| Bare (x : number).           (* a number passed as it is *)

Inductive listener : Type :=
| OnLocalStatsUpdated
| OnP2PStatusChanged
| OnConnectionStats (isP2P : bool)
| OnUserLeft
| OnRemoteStatsUpdated.

Inductive effect : Type :=
| LogInfo (msg : string)
| LogDebug (msg : string)
| LogError (msg : string) (args : list value)
| SendEvent (name : string) (p : payload)
| Subscribe (l : listener)
| Unsubscribe (l : listener).

Inductive exn : Type :=
| TypeError (msg : string).

Inductive completion (A : Type) : Type :=
| Normal (a : A)
| Throw (e : exn).
Arguments Normal {A} a.
Arguments Throw {A} e.

(** A method call on an object of state [S]: the state it leaves behind
    (also when it throws: what was assigned before the throw stays
    assigned), the effects in order, and how it completed. *)
Record run (S A : Type) : Type := Run {
  final : S;
  trace : list effect;
  outcome : completion A
}.

Arguments Run {S A} final trace outcome.
Arguments final {S A} r.
Arguments trace {S A} r.
Arguments outcome {S A} r.

Definition M (S A : Type) : Type := S -> run S A.

Definition ret {S A} (a : A) : M S A :=
  fun s => Run s [] (Normal a).

Definition bind {S A B} (m : M S A) (k : A -> M S B) : M S B :=
  fun s =>
    let r := m s in
    match outcome r with
    | Normal a =>
        let r' := k a (final r) in
        Run (final r') (trace r ++ trace r') (outcome r')
    | Throw e => Run (final r) (trace r) (Throw e)
    end.

Definition this {S} : M S S := fun s => Run s [] (Normal s).
Definition assign {S} (s' : S) : M S unit := fun _ => Run s' [] (Normal tt).
Definition emit {S} (e : effect) : M S unit := fun s => Run s [e] (Normal tt).
Definition throw {S A} (e : exn) : M S A := fun s => Run s [] (Throw e).

(** Running a method of a member object: [this.field.method()]. *)
Definition member {S T A} (get : S -> T) (set : T -> S -> S) (m : M T A) : M S A :=
  fun s =>
    let r := m (get s) in
    Run (set (final r) s) (trace r) (outcome r).

Declare Scope js_scope.
Delimit Scope js_scope with js.
Notation "x <- m ;; k" := (bind m (fun x => k))
  (at level 61, m at next level, right associativity) : js_scope.
Notation "m ;; k" := (bind m (fun _ => k))
  (at level 61, right associativity) : js_scope.
Open Scope js_scope.

(** Property access that throws on [undefined] and [null]. *)
Definition get_member {S} (v : value) (k : string) : M S value :=
  if JS.nullish v
  then throw (TypeError ("Cannot read property '" ++ k ++ "' of " ++ JS.show_nullish v))
  else ret (JS.prop v k).

(** [logger.error], [logger.info], [logger.debug] and
    [Statistics.analytics.sendEvent]. *)
Definition logger_error {S} (msg : string) (args : list value) : M S unit :=
  emit (LogError msg args).
Definition logger_info {S} (msg : string) : M S unit := emit (LogInfo msg).
Definition logger_debug {S} (msg : string) : M S unit := emit (LogDebug msg).
Definition sendEvent {S} (name : string) (p : payload) : M S unit :=
  emit (SendEvent name p).

(** ** class AverageStatReport *)

Module AverageStatReport.

(** [count] only ever holds the integers that [0] and [+= 1] produce; it
    is kept as an integer and turned into a number where it is divided
    by. *)
Record t : Type := Make {
  name : string;
  count : Z;
  sum : number
}.

Definition constructor (name : string) : t :=
  {| name := name; count := 0; sum := Num.zero |}.

Definition addNext (nextValue : value) : M t unit :=
  self <- this ;;
  match nextValue with
  | VNumber x =>
      assign {| name := name self;
                sum := Num.add (sum self) x;
                count := count self + 1 |}
  | _ =>
      (* typeof nextValue !== 'number' *)
      logger_error
        (name self ++ " - invalid value for idx: " ++ JS.string_of_Z (count self))
        [nextValue]
  end.

Definition calculate (self : t) : number :=
  Num.div (sum self) (Num.of_Z (count self)).

Definition report (isP2P : bool) : M t unit :=
  self <- this ;;
  sendEvent ((if isP2P then "p2p." else EmptyString) ++ name self)
            (ValueField (calculate self)).

Definition reset : M t unit :=
  self <- this ;;
  assign {| name := name self; sum := Num.zero; count := 0 |}.

(** The instance after a sequence of [addNext] calls. *)
Definition feed (vs : list value) (self : t) : t :=
  fold_left (fun a v => final (addNext v a)) vs self.

(** Neither sum nor count holds anything. *)
Definition cleared (self : t) : Prop :=
  sum self = Num.zero /\ count self = 0.

End AverageStatReport.

Module ASR := AverageStatReport.

(** ** The collaborators queried while a handler runs

    [RTCBrowserType.supportsRTTStatistics()],
    [RTCBrowserType.supportsBandwidthStatistics()],
    [conference.isP2PActive()], [conference.getParticipants().length] and
    [conference.myUserId()], as they answer during one handler run. *)

Record Env : Type := {
  supportsRTTStatistics : bool;
  supportsBandwidthStatistics : bool;
  isP2PActive : bool;
  participantCount : nat;
  myUserId : value
}.

(** ** Map<string, V>

    Entries in insertion order, which is the order [values()] iterates
    in. *)

Module JSMap.

Definition t (V : Type) : Type := list (string * V).

Section Ops.
Context {V : Type}.

Definition empty : t V := [].

Fixpoint get (k : string) (m : t V) : option V :=
  match m with
  | [] => None
  | (k', v) :: rest => if String.eqb k k' then Some v else get k rest
  end.

Definition has (k : string) (m : t V) : bool :=
  match get k m with Some _ => true | None => false end.

(** An existing key keeps its place, a new key goes last. *)
Fixpoint set (k : string) (v : V) (m : t V) : t V :=
  match m with
  | [] => [(k, v)]
  | (k', v') :: rest =>
      if String.eqb k k' then (k', v) :: rest else (k', v') :: set k v rest
  end.

Definition delete (k : string) (m : t V) : t V :=
  filter (fun e => negb (String.eqb k (fst e))) m.

Definition clear (m : t V) : t V := [].

Definition values (m : t V) : list V := map snd m.

End Ops.

End JSMap.

(** ** class ConnectionAvgStats *)

Module ConnectionAvgStats.

Record t : Type := Make {
  isP2P : bool;
  _n : Z;
  _sampleIdx : Z;
  _avgRTT : ASR.t;
  _avgRemoteRTTMap : JSMap.t ASR.t
}.

Definition set_sampleIdx (i : Z) (self : t) : t :=
  {| isP2P := isP2P self; _n := _n self; _sampleIdx := i;
     _avgRTT := _avgRTT self; _avgRemoteRTTMap := _avgRemoteRTTMap self |}.

Definition set_avgRTT (a : ASR.t) (self : t) : t :=
  {| isP2P := isP2P self; _n := _n self; _sampleIdx := _sampleIdx self;
     _avgRTT := a; _avgRemoteRTTMap := _avgRemoteRTTMap self |}.

Definition set_avgRemoteRTTMap (m : JSMap.t ASR.t) (self : t) : t :=
  {| isP2P := isP2P self; _n := _n self; _sampleIdx := _sampleIdx self;
     _avgRTT := _avgRTT self; _avgRemoteRTTMap := m |}.

(** The object the constructor builds and the listeners it adds. *)
Definition constructor (isP2P : bool) (n : Z) : run t unit :=
  Run {| isP2P := isP2P; _n := n; _sampleIdx := 0;
         _avgRTT := ASR.constructor "stat.avg.rtt";
         _avgRemoteRTTMap := JSMap.empty |}
      (Subscribe (OnConnectionStats isP2P)
       :: (if negb isP2P then [Subscribe OnUserLeft; Subscribe OnRemoteStatsUpdated]
           else []))
      (Normal tt).

Definition _resetAvgStats : M t unit :=
  member _avgRTT set_avgRTT ASR.reset ;;
  (* a Map object is always truthy *)
  self <- this ;;
  assign (set_avgRemoteRTTMap (JSMap.clear (_avgRemoteRTTMap self)) self) ;;
  self <- this ;;
  assign (set_sampleIdx 0 self).

(** The [for ... of] loop of [_calculateAvgRemoteRTT]: the entries as the
    loop leaves them, and the final [count] and [sum]. *)
Fixpoint remoteRTT_loop (entries : list (string * ASR.t)) (count : Z) (sum : number)
  : list (string * ASR.t) * (Z * number) :=
  match entries with
  | [] => ([], (count, sum))
  | (id, remoteAvg) :: rest =>
      let avg := ASR.calculate remoteAvg in
      if negb (Num.isNaN avg) then
        let '(rest', r) := remoteRTT_loop rest (count + 1) (Num.add sum avg) in
        ((id, final (ASR.reset remoteAvg)) :: rest', r)
      else
        let '(rest', r) := remoteRTT_loop rest count sum in
        ((id, remoteAvg) :: rest', r)
  end.

Definition _calculateAvgRemoteRTT : M t number :=
  self <- this ;;
  let '(entries, (count, sum)) :=
    remoteRTT_loop (_avgRemoteRTTMap self) 0 Num.zero in
  assign (set_avgRemoteRTTMap entries self) ;;
  ret (Num.div sum (Num.of_Z count)).

Definition _calculateAvgStats (env : Env) (data : value) : M t unit :=
  if negb (JS.truthy data) then
    logger_error "No stats" []
  else
    (if supportsRTTStatistics env then
       let transport := JS.prop data "transport" in
       if JS.truthy transport && JS.truthy (JS.prop transport "length") then
         rtt <- get_member (JS.prop transport "0") "rtt" ;;
         member _avgRTT set_avgRTT (ASR.addNext rtt)
       else
         member _avgRTT set_avgRTT ASR.reset
     else ret tt) ;;
    self <- this ;;
    assign (set_sampleIdx (_sampleIdx self + 1) self) ;;
    self <- this ;;
    if _n self <=? _sampleIdx self then
      (if supportsRTTStatistics env then
         member _avgRTT set_avgRTT (ASR.report (isP2P self)) ;;
         (* Report end to end RTT only for JVB *)
         if negb (isP2P self) then
           avgRemoteRTT <- _calculateAvgRemoteRTT ;;
           self <- this ;;
           let avgLocalRTT := ASR.calculate (_avgRTT self) in
           if negb (Num.isNaN avgLocalRTT) && negb (Num.isNaN avgRemoteRTT) then
             sendEvent "stat.avg.end2endrtt"
                       (Bare (Num.add avgLocalRTT avgRemoteRTT))
           else ret tt
         else ret tt
       else ret tt) ;;
      _resetAvgStats
    else ret tt.

Definition _onConnectionStats (env : Env) (tpc stats : value) : M t unit :=
  self <- this ;;
  tpc_isP2P <- get_member tpc "isP2P" ;;
  if JS.strict_eq (VBool (isP2P self)) tpc_isP2P then
    _calculateAvgStats env stats
  else ret tt.

Definition _onUserLeft (id : string) : M t unit :=
  self <- this ;;
  assign (set_avgRemoteRTTMap (JSMap.delete id (_avgRemoteRTTMap self)) self).

(** [rttAvg.addNext(v)] on the entry that [rttAvg] refers to. *)
Definition on_entry (id : string) (m : M ASR.t unit) : M t unit :=
  self <- this ;;
  match JSMap.get id (_avgRemoteRTTMap self) with
  | Some rttAvg =>
      member (fun _ => rttAvg)
             (fun a s => set_avgRemoteRTTMap (JSMap.set id a (_avgRemoteRTTMap s)) s)
             m
  | None => throw (TypeError "Cannot read property 'addNext' of undefined")
  end.

Definition _processRemoteStats (id : string) (data : value) : M t unit :=
  jvbRTT <- get_member data "jvbRTT" ;;
  let validData := String.eqb (JS.typeof jvbRTT) "number" in
  self <- this ;;
  (* rttAvg = this._avgRemoteRTTMap.get(id) is undefined or an object *)
  (if negb (JSMap.has id (_avgRemoteRTTMap self)) && validData then
     assign (set_avgRemoteRTTMap
               (JSMap.set id (ASR.constructor (id ++ ".stat.rtt"))
                          (_avgRemoteRTTMap self))
               self)
   else ret tt) ;;
  if validData then
    on_entry id (ASR.addNext jvbRTT)
  else if JSMap.has id (_avgRemoteRTTMap self) then
    s <- this ;;
    assign (set_avgRemoteRTTMap (JSMap.delete id (_avgRemoteRTTMap s)) s)
  else ret tt.

Definition _onRemoteStatsUpdated (id : string) (data : value) : M t unit :=
  _processRemoteStats id data.

Definition dispose : M t unit :=
  self <- this ;;
  emit (Unsubscribe (OnConnectionStats (isP2P self))) ;;
  if negb (isP2P self) then
    emit (Unsubscribe OnRemoteStatsUpdated) ;;
    emit (Unsubscribe OnUserLeft)
  else ret tt.

(** The averages that take part in the cross-participant average: those
    of the entries whose average is defined (not NaN), in the order of the
    map. *)
Definition contributing (m : JSMap.t ASR.t) : list number :=
  filter (fun x => negb (Num.isNaN x)) (map ASR.calculate (JSMap.values m)).

(** The cross-participant average as the specification words it: the
    mean over the map entries with a defined average. *)
Definition cross_participant_average (m : JSMap.t ASR.t) : number :=
  Num.mean (contributing m).

End ConnectionAvgStats.

Module CAS := ConnectionAvgStats.

(** ** class AvgRTPStatsReporter *)

Module AvgRTPStatsReporter.

(** The members the constructor assigns after its [n > 0] test.  The
    collaborator behind [_conference] is answered for by [Env]. *)
Record fields : Type := Fields {
  _sampleIdx : Z;
  _avgBitrateUp : ASR.t;
  _avgBitrateDown : ASR.t;
  _avgBandwidthUp : ASR.t;
  _avgBandwidthDown : ASR.t;
  _avgPacketLossTotal : ASR.t;
  _avgPacketLossUp : ASR.t;
  _avgPacketLossDown : ASR.t;
  _avgRemoteFPS : ASR.t;
  _avgLocalFPS : ASR.t;
  _avgCQ : ASR.t;
  jvbStatsMonitor : CAS.t;
  p2pStatsMonitor : CAS.t
}.

Definition set_sampleIdx (x : Z) (o : fields) : fields :=
  {| _sampleIdx := x; _avgBitrateUp := _avgBitrateUp o; _avgBitrateDown :=
     _avgBitrateDown o; _avgBandwidthUp := _avgBandwidthUp o;
     _avgBandwidthDown := _avgBandwidthDown o; _avgPacketLossTotal :=
     _avgPacketLossTotal o; _avgPacketLossUp := _avgPacketLossUp o;
     _avgPacketLossDown := _avgPacketLossDown o; _avgRemoteFPS :=
     _avgRemoteFPS o; _avgLocalFPS := _avgLocalFPS o; _avgCQ := _avgCQ o;
     jvbStatsMonitor := jvbStatsMonitor o; p2pStatsMonitor :=
     p2pStatsMonitor o |}.

Definition set_avgBitrateUp (x : ASR.t) (o : fields) : fields :=
  {| _sampleIdx := _sampleIdx o; _avgBitrateUp := x; _avgBitrateDown :=
     _avgBitrateDown o; _avgBandwidthUp := _avgBandwidthUp o;
     _avgBandwidthDown := _avgBandwidthDown o; _avgPacketLossTotal :=
     _avgPacketLossTotal o; _avgPacketLossUp := _avgPacketLossUp o;
     _avgPacketLossDown := _avgPacketLossDown o; _avgRemoteFPS :=
     _avgRemoteFPS o; _avgLocalFPS := _avgLocalFPS o; _avgCQ := _avgCQ o;
     jvbStatsMonitor := jvbStatsMonitor o; p2pStatsMonitor :=
     p2pStatsMonitor o |}.

Definition set_avgBitrateDown (x : ASR.t) (o : fields) : fields :=
  {| _sampleIdx := _sampleIdx o; _avgBitrateUp := _avgBitrateUp o;
     _avgBitrateDown := x; _avgBandwidthUp := _avgBandwidthUp o;
     _avgBandwidthDown := _avgBandwidthDown o; _avgPacketLossTotal :=
     _avgPacketLossTotal o; _avgPacketLossUp := _avgPacketLossUp o;
     _avgPacketLossDown := _avgPacketLossDown o; _avgRemoteFPS :=
     _avgRemoteFPS o; _avgLocalFPS := _avgLocalFPS o; _avgCQ := _avgCQ o;
     jvbStatsMonitor := jvbStatsMonitor o; p2pStatsMonitor :=
     p2pStatsMonitor o |}.

Definition set_avgBandwidthUp (x : ASR.t) (o : fields) : fields :=
  {| _sampleIdx := _sampleIdx o; _avgBitrateUp := _avgBitrateUp o;
     _avgBitrateDown := _avgBitrateDown o; _avgBandwidthUp := x;
     _avgBandwidthDown := _avgBandwidthDown o; _avgPacketLossTotal :=
     _avgPacketLossTotal o; _avgPacketLossUp := _avgPacketLossUp o;
     _avgPacketLossDown := _avgPacketLossDown o; _avgRemoteFPS :=
     _avgRemoteFPS o; _avgLocalFPS := _avgLocalFPS o; _avgCQ := _avgCQ o;
     jvbStatsMonitor := jvbStatsMonitor o; p2pStatsMonitor :=
     p2pStatsMonitor o |}.

Definition set_avgBandwidthDown (x : ASR.t) (o : fields) : fields :=
  {| _sampleIdx := _sampleIdx o; _avgBitrateUp := _avgBitrateUp o;
     _avgBitrateDown := _avgBitrateDown o; _avgBandwidthUp :=
     _avgBandwidthUp o; _avgBandwidthDown := x; _avgPacketLossTotal :=
     _avgPacketLossTotal o; _avgPacketLossUp := _avgPacketLossUp o;
     _avgPacketLossDown := _avgPacketLossDown o; _avgRemoteFPS :=
     _avgRemoteFPS o; _avgLocalFPS := _avgLocalFPS o; _avgCQ := _avgCQ o;
     jvbStatsMonitor := jvbStatsMonitor o; p2pStatsMonitor :=
     p2pStatsMonitor o |}.

Definition set_avgPacketLossTotal (x : ASR.t) (o : fields) : fields :=
  {| _sampleIdx := _sampleIdx o; _avgBitrateUp := _avgBitrateUp o;
     _avgBitrateDown := _avgBitrateDown o; _avgBandwidthUp :=
     _avgBandwidthUp o; _avgBandwidthDown := _avgBandwidthDown o;
     _avgPacketLossTotal := x; _avgPacketLossUp := _avgPacketLossUp o;
     _avgPacketLossDown := _avgPacketLossDown o; _avgRemoteFPS :=
     _avgRemoteFPS o; _avgLocalFPS := _avgLocalFPS o; _avgCQ := _avgCQ o;
     jvbStatsMonitor := jvbStatsMonitor o; p2pStatsMonitor :=
     p2pStatsMonitor o |}.

Definition set_avgPacketLossUp (x : ASR.t) (o : fields) : fields :=
  {| _sampleIdx := _sampleIdx o; _avgBitrateUp := _avgBitrateUp o;
     _avgBitrateDown := _avgBitrateDown o; _avgBandwidthUp :=
     _avgBandwidthUp o; _avgBandwidthDown := _avgBandwidthDown o;
     _avgPacketLossTotal := _avgPacketLossTotal o; _avgPacketLossUp := x;
     _avgPacketLossDown := _avgPacketLossDown o; _avgRemoteFPS :=
     _avgRemoteFPS o; _avgLocalFPS := _avgLocalFPS o; _avgCQ := _avgCQ o;
     jvbStatsMonitor := jvbStatsMonitor o; p2pStatsMonitor :=
     p2pStatsMonitor o |}.

Definition set_avgPacketLossDown (x : ASR.t) (o : fields) : fields :=
  {| _sampleIdx := _sampleIdx o; _avgBitrateUp := _avgBitrateUp o;
     _avgBitrateDown := _avgBitrateDown o; _avgBandwidthUp :=
     _avgBandwidthUp o; _avgBandwidthDown := _avgBandwidthDown o;
     _avgPacketLossTotal := _avgPacketLossTotal o; _avgPacketLossUp :=
     _avgPacketLossUp o; _avgPacketLossDown := x; _avgRemoteFPS :=
     _avgRemoteFPS o; _avgLocalFPS := _avgLocalFPS o; _avgCQ := _avgCQ o;
     jvbStatsMonitor := jvbStatsMonitor o; p2pStatsMonitor :=
     p2pStatsMonitor o |}.

Definition set_avgRemoteFPS (x : ASR.t) (o : fields) : fields :=
  {| _sampleIdx := _sampleIdx o; _avgBitrateUp := _avgBitrateUp o;
     _avgBitrateDown := _avgBitrateDown o; _avgBandwidthUp :=
     _avgBandwidthUp o; _avgBandwidthDown := _avgBandwidthDown o;
     _avgPacketLossTotal := _avgPacketLossTotal o; _avgPacketLossUp :=
     _avgPacketLossUp o; _avgPacketLossDown := _avgPacketLossDown o;
     _avgRemoteFPS := x; _avgLocalFPS := _avgLocalFPS o; _avgCQ := _avgCQ
     o; jvbStatsMonitor := jvbStatsMonitor o; p2pStatsMonitor :=
     p2pStatsMonitor o |}.

Definition set_avgLocalFPS (x : ASR.t) (o : fields) : fields :=
  {| _sampleIdx := _sampleIdx o; _avgBitrateUp := _avgBitrateUp o;
     _avgBitrateDown := _avgBitrateDown o; _avgBandwidthUp :=
     _avgBandwidthUp o; _avgBandwidthDown := _avgBandwidthDown o;
     _avgPacketLossTotal := _avgPacketLossTotal o; _avgPacketLossUp :=
     _avgPacketLossUp o; _avgPacketLossDown := _avgPacketLossDown o;
     _avgRemoteFPS := _avgRemoteFPS o; _avgLocalFPS := x; _avgCQ := _avgCQ
     o; jvbStatsMonitor := jvbStatsMonitor o; p2pStatsMonitor :=
     p2pStatsMonitor o |}.

Definition set_avgCQ (x : ASR.t) (o : fields) : fields :=
  {| _sampleIdx := _sampleIdx o; _avgBitrateUp := _avgBitrateUp o;
     _avgBitrateDown := _avgBitrateDown o; _avgBandwidthUp :=
     _avgBandwidthUp o; _avgBandwidthDown := _avgBandwidthDown o;
     _avgPacketLossTotal := _avgPacketLossTotal o; _avgPacketLossUp :=
     _avgPacketLossUp o; _avgPacketLossDown := _avgPacketLossDown o;
     _avgRemoteFPS := _avgRemoteFPS o; _avgLocalFPS := _avgLocalFPS o;
     _avgCQ := x; jvbStatsMonitor := jvbStatsMonitor o; p2pStatsMonitor :=
     p2pStatsMonitor o |}.

Definition set_jvbStatsMonitor (x : CAS.t) (o : fields) : fields :=
  {| _sampleIdx := _sampleIdx o; _avgBitrateUp := _avgBitrateUp o;
     _avgBitrateDown := _avgBitrateDown o; _avgBandwidthUp :=
     _avgBandwidthUp o; _avgBandwidthDown := _avgBandwidthDown o;
     _avgPacketLossTotal := _avgPacketLossTotal o; _avgPacketLossUp :=
     _avgPacketLossUp o; _avgPacketLossDown := _avgPacketLossDown o;
     _avgRemoteFPS := _avgRemoteFPS o; _avgLocalFPS := _avgLocalFPS o;
     _avgCQ := _avgCQ o; jvbStatsMonitor := x; p2pStatsMonitor :=
     p2pStatsMonitor o |}.

Definition set_p2pStatsMonitor (x : CAS.t) (o : fields) : fields :=
  {| _sampleIdx := _sampleIdx o; _avgBitrateUp := _avgBitrateUp o;
     _avgBitrateDown := _avgBitrateDown o; _avgBandwidthUp :=
     _avgBandwidthUp o; _avgBandwidthDown := _avgBandwidthDown o;
     _avgPacketLossTotal := _avgPacketLossTotal o; _avgPacketLossUp :=
     _avgPacketLossUp o; _avgPacketLossDown := _avgPacketLossDown o;
     _avgRemoteFPS := _avgRemoteFPS o; _avgLocalFPS := _avgLocalFPS o;
     _avgCQ := _avgCQ o; jvbStatsMonitor := jvbStatsMonitor o;
     p2pStatsMonitor := x |}.

(** An instance: [_n] is always assigned; the other members are all
    assigned, or (after the early [return] of the constructor) all
    [undefined]. *)
Record t : Type := Make {
  _n : Z;
  members : option fields
}.

(** A method body that starts by reading through member [first]: on an
    instance whose members are [undefined] that read throws. *)
Definition initialized {A} (first : string) (body : M fields A) : M t A :=
  fun self =>
    match members self with
    | Some o =>
        let r := body o in
        Run {| _n := _n self; members := Some (final r) |} (trace r) (outcome r)
    | None =>
        Run self []
            (Throw (TypeError ("Cannot read property '" ++ first ++ "' of undefined")))
    end.

(** The members of a new instance with [n > 0]. *)
Definition new_members (n : Z) : fields :=
  {| _sampleIdx := 0;
     _avgBitrateUp := ASR.constructor "stat.avg.bitrate.upload";
     _avgBitrateDown := ASR.constructor "stat.avg.bitrate.download";
     _avgBandwidthUp := ASR.constructor "stat.avg.bandwidth.upload";
     _avgBandwidthDown := ASR.constructor "stat.avg.bandwidth.download";
     _avgPacketLossTotal := ASR.constructor "stat.avg.packetloss.total";
     _avgPacketLossUp := ASR.constructor "stat.avg.packetloss.upload";
     _avgPacketLossDown := ASR.constructor "stat.avg.packetloss.download";
     _avgRemoteFPS := ASR.constructor "stat.avg.framerate.remote";
     _avgLocalFPS := ASR.constructor "stat.avg.framerate.local";
     _avgCQ := ASR.constructor "stat.avg.cq";
     jvbStatsMonitor := final (CAS.constructor false (* JVB *) n);
     p2pStatsMonitor := final (CAS.constructor true (* P2P *) n) |}.

Definition constructor (n : Z) : run t unit :=
  if 0 <? n then
    Run {| _n := n; members := Some (new_members n) |}
        ([LogInfo ("Avg RTP stats will be calculated every "
                   ++ JS.string_of_Z n ++ " samples");
          Subscribe OnLocalStatsUpdated;
          Subscribe OnP2PStatusChanged]
         ++ trace (CAS.constructor false n)
         ++ trace (CAS.constructor true n))
        (Normal tt)
  else
    (* Do not initialize *)
    Run {| _n := n; members := None |}
        [LogInfo "Avg RTP stats reports are disabled."]
        (Normal tt).

(** The statements of [_resetAvgStats], on the assigned members. *)
Definition resetAvgStats_body : M fields unit :=
  member _avgBitrateUp set_avgBitrateUp ASR.reset ;;
  member _avgBitrateDown set_avgBitrateDown ASR.reset ;;
  member _avgBandwidthUp set_avgBandwidthUp ASR.reset ;;
  member _avgBandwidthDown set_avgBandwidthDown ASR.reset ;;
  member _avgPacketLossUp set_avgPacketLossUp ASR.reset ;;
  member _avgPacketLossDown set_avgPacketLossDown ASR.reset ;;
  member _avgRemoteFPS set_avgRemoteFPS ASR.reset ;;
  member _avgLocalFPS set_avgLocalFPS ASR.reset ;;
  member _avgCQ set_avgCQ ASR.reset ;;
  o <- this ;;
  assign (set_sampleIdx 0 o).

Definition _resetAvgStats : M t unit :=
  initialized "reset" resetAvgStats_body.

Section Host.

(** The global [parseInt(v, 10)]. *)
Variable parseInt10 : value -> number.

(** The inner loop of [_calculateAvgVideoFps]. *)
Fixpoint sum_ssrcs (videos : value) (ssrcs : list string) (peerAvg : number) : number :=
  match ssrcs with
  | [] => peerAvg
  | ssrc :: rest =>
      sum_ssrcs videos rest (Num.add peerAvg (parseInt10 (JS.prop videos ssrc)))
  end.

(** The outer loop of [_calculateAvgVideoFps]; [Object.keys(videos)]
    throws when [videos] is [undefined] or [null]. *)
Fixpoint fps_loop (frameRate myID : value) (isLocal : bool) (peerIDs : list string)
                  (peerCount : Z) (subFrameAvg : number) : completion (Z * number) :=
  match peerIDs with
  | [] => Normal (peerCount, subFrameAvg)
  | peerID :: rest =>
      if (if isLocal then JS.strict_eq (VString peerID) myID
          else negb (JS.strict_eq (VString peerID) myID))
      then
        let videos := JS.prop frameRate peerID in
        if JS.nullish videos then
          Throw (TypeError "Cannot convert undefined or null to object")
        else
          let ssrcs := JS.keys videos in
          match ssrcs with
          | [] => fps_loop frameRate myID isLocal rest peerCount subFrameAvg
          | _ :: _ =>
              let peerAvg := sum_ssrcs videos ssrcs Num.zero in
              let peerAvg := Num.div peerAvg (Num.of_Z (Z.of_nat (List.length ssrcs))) in
              fps_loop frameRate myID isLocal rest
                       (peerCount + 1) (Num.add subFrameAvg peerAvg)
          end
      else fps_loop frameRate myID isLocal rest peerCount subFrameAvg
  end.

(** [frameRate] is truthy where this is called, so [Object.keys(frameRate)]
    does not throw. *)
Definition _calculateAvgVideoFps (env : Env) (frameRate : value) (isLocal : bool)
  : M fields number :=
  let myID := myUserId env in
  match fps_loop frameRate myID isLocal (JS.keys frameRate) 0 Num.zero with
  | Normal (peerCount, subFrameAvg) => ret (Num.div subFrameAvg (Num.of_Z peerCount))
  | Throw e => throw e
  end.

Definition dquote : string := String (Ascii.ascii_of_nat 34) EmptyString.
Definition quoted (s : string) : string := dquote ++ s ++ dquote.

Definition _calculateAvgStats (env : Env) (data : value) : M t unit :=
  self <- this ;;
  initialized "isP2PActive" (
    let isP2P := isP2PActive env in
    let peerCount := participantCount env in
    if negb isP2P && (peerCount <? 1)%nat then
      (* There's no point in collecting stats for a JVB conference of 1. *)
      ret tt
    else if negb (JS.truthy data) then
      logger_error "No stats" []
    else
      let bitrate := JS.prop data "bitrate" in
      let bandwidth := JS.prop data "bandwidth" in
      let packetLoss := JS.prop data "packetLoss" in
      let frameRate := JS.prop data "framerate" in
      if negb (JS.truthy bitrate) then
        logger_error ("No " ++ quoted "bitrate") []
      else if negb (JS.truthy bandwidth) then
        logger_error ("No " ++ quoted "bandwidth") []
      else if negb (JS.truthy packetLoss) then
        logger_error ("No " ++ quoted "packetloss") []
      else if negb (JS.truthy frameRate) then
        logger_error ("No " ++ quoted "framerate") []
      else
        member _avgBitrateUp set_avgBitrateUp
               (ASR.addNext (JS.prop bitrate "upload")) ;;
        member _avgBitrateDown set_avgBitrateDown
               (ASR.addNext (JS.prop bitrate "download")) ;;
        (if supportsBandwidthStatistics env then
           member _avgBandwidthUp set_avgBandwidthUp
                  (ASR.addNext (JS.prop bandwidth "upload")) ;;
           member _avgBandwidthDown set_avgBandwidthDown
                  (ASR.addNext (JS.prop bandwidth "download"))
         else ret tt) ;;
        member _avgPacketLossUp set_avgPacketLossUp
               (ASR.addNext (JS.prop packetLoss "upload")) ;;
        member _avgPacketLossDown set_avgPacketLossDown
               (ASR.addNext (JS.prop packetLoss "download")) ;;
        member _avgPacketLossTotal set_avgPacketLossTotal
               (ASR.addNext (JS.prop packetLoss "total")) ;;
        member _avgCQ set_avgCQ
               (ASR.addNext (JS.prop data "connectionQuality")) ;;
        (* frameRate is truthy here *)
        remote <- _calculateAvgVideoFps env frameRate false (* remote *) ;;
        member _avgRemoteFPS set_avgRemoteFPS (ASR.addNext (VNumber remote)) ;;
        local <- _calculateAvgVideoFps env frameRate true (* local *) ;;
        member _avgLocalFPS set_avgLocalFPS (ASR.addNext (VNumber local)) ;;
        o <- this ;;
        assign (set_sampleIdx (_sampleIdx o + 1) o) ;;
        o <- this ;;
        if _n self <=? _sampleIdx o then
          member _avgBitrateUp set_avgBitrateUp (ASR.report isP2P) ;;
          member _avgBitrateDown set_avgBitrateDown (ASR.report isP2P) ;;
          (if supportsBandwidthStatistics env then
             member _avgBandwidthUp set_avgBandwidthUp (ASR.report isP2P) ;;
             member _avgBandwidthDown set_avgBandwidthDown (ASR.report isP2P)
           else ret tt) ;;
          member _avgPacketLossUp set_avgPacketLossUp (ASR.report isP2P) ;;
          member _avgPacketLossDown set_avgPacketLossDown (ASR.report isP2P) ;;
          member _avgPacketLossTotal set_avgPacketLossTotal (ASR.report isP2P) ;;
          member _avgRemoteFPS set_avgRemoteFPS (ASR.report isP2P) ;;
          member _avgLocalFPS set_avgLocalFPS (ASR.report isP2P) ;;
          member _avgCQ set_avgCQ (ASR.report isP2P) ;;
          resetAvgStats_body
        else ret tt).

Definition _onLocalStatsUpdated (env : Env) (data : value) : M t unit :=
  _calculateAvgStats env data.

End Host.

(** The top-level fields a local stats payload has to carry. *)
Definition required : list string :=
  ["bitrate"; "bandwidth"; "packetLoss"; "framerate"].

Definition missing_field (data : value) : Prop :=
  exists k, In k required /\ JS.prop data k = VUndefined.

(** Reading a member of an instance, if it was assigned. *)
Definition read {A} (f : fields -> A) (self : t) : option A :=
  option_map f (members self).

Definition _onP2PStatusChanged : M t unit :=
  logger_debug "Resetting average stats calculation" ;;
  _resetAvgStats ;;
  initialized "_resetAvgStats" (
    member jvbStatsMonitor set_jvbStatsMonitor CAS._resetAvgStats ;;
    member p2pStatsMonitor set_p2pStatsMonitor CAS._resetAvgStats).

Definition dispose : M t unit :=
  initialized "off" (
    emit (Unsubscribe OnP2PStatusChanged) ;;
    emit (Unsubscribe OnLocalStatsUpdated) ;;
    member jvbStatsMonitor set_jvbStatsMonitor CAS.dispose ;;
    member p2pStatsMonitor set_p2pStatsMonitor CAS.dispose).

End AvgRTPStatsReporter.

Module Reporter := AvgRTPStatsReporter.

(** ** The reporter inside its conference

    The conference keeps the listeners that were added to it and calls
    them when its events fire.  One [delivery] is one call of one
    listener. *)

Module Conference.

Definition listener_eqb (a b : listener) : bool :=
  match a, b with
  | OnLocalStatsUpdated, OnLocalStatsUpdated => true
  | OnP2PStatusChanged, OnP2PStatusChanged => true
  | OnConnectionStats x, OnConnectionStats y => Bool.eqb x y
  | OnUserLeft, OnUserLeft => true
  | OnRemoteStatsUpdated, OnRemoteStatsUpdated => true
  | _, _ => false
  end.

Definition registered (l : listener) (ls : list listener) : bool :=
  existsb (listener_eqb l) ls.

(** [on] / [addConnectionStatsListener] and [off] /
    [removeConnectionStatsListener]. *)
Definition register (ls : list listener) (e : effect) : list listener :=
  match e with
  | Subscribe l => ls ++ [l]
  | Unsubscribe l => filter (fun l' => negb (listener_eqb l l')) ls
  | _ => ls
  end.

Record t : Type := Make {
  reporter : Reporter.t;
  listeners : list listener
}.

(** [new AvgRTPStatsReporter(conference, n)] on a conference that has no
    listeners of the reporter yet. *)
Definition create (n : Z) : run t unit :=
  let r := Reporter.constructor n in
  Run {| reporter := final r; listeners := fold_left register (trace r) [] |}
      (trace r) (outcome r).

(** A method of the reporter called from outside, its [on] and [off]
    calls taking effect on the conference. *)
Definition call {A} (m : M Reporter.t A) : M t A :=
  fun c =>
    let r := m (reporter c) in
    Run {| reporter := final r;
           listeners := fold_left register (trace r) (listeners c) |}
        (trace r) (outcome r).

Inductive delivery : Type :=
| LocalStatsUpdated (data : value)
| P2PStatus
| ConnectionStats (monitorIsP2P : bool) (tpc stats : value)
| UserLeft (id : string)
| RemoteStatsUpdated (id : string) (data : value).

Definition target (d : delivery) : listener :=
  match d with
  | LocalStatsUpdated _ => OnLocalStatsUpdated
  | P2PStatus => OnP2PStatusChanged
  | ConnectionStats b _ _ => OnConnectionStats b
  | UserLeft _ => OnUserLeft
  | RemoteStatsUpdated _ _ => OnRemoteStatsUpdated
  end.

Section Host.

Variable parseInt10 : value -> number.

(** The listener a delivery calls.  The listeners of the two monitors are
    closures over the monitor they belong to; only the JVB monitor has
    [_onUserLeft] and [_onRemoteStatsUpdated]. *)
Definition handler (env : Env) (d : delivery) : M Reporter.t unit :=
  match d with
  | LocalStatsUpdated data => Reporter._onLocalStatsUpdated parseInt10 env data
  | P2PStatus => Reporter._onP2PStatusChanged
  | ConnectionStats false tpc stats =>
      Reporter.initialized "_onConnectionStats"
        (member Reporter.jvbStatsMonitor Reporter.set_jvbStatsMonitor
                (CAS._onConnectionStats env tpc stats))
  | ConnectionStats true tpc stats =>
      Reporter.initialized "_onConnectionStats"
        (member Reporter.p2pStatsMonitor Reporter.set_p2pStatsMonitor
                (CAS._onConnectionStats env tpc stats))
  | UserLeft id =>
      Reporter.initialized "_onUserLeft"
        (member Reporter.jvbStatsMonitor Reporter.set_jvbStatsMonitor
                (CAS._onUserLeft id))
  | RemoteStatsUpdated id data =>
      Reporter.initialized "_onRemoteStatsUpdated"
        (member Reporter.jvbStatsMonitor Reporter.set_jvbStatsMonitor
                (CAS._onRemoteStatsUpdated id data))
  end.

(** The conference fires an event: a listener that was added and not
    removed is called, and nothing happens otherwise. *)
Definition deliver (env : Env) (d : delivery) : M t unit :=
  fun c =>
    if registered (target d) (listeners c) then call (handler env d) c
    else ret tt c.

(** The conference after a sequence of deliveries, whether the listeners
    returned or threw. *)
Definition deliver_all (ds : list (Env * delivery)) (c : t) : t :=
  fold_left (fun c ed => final (deliver (fst ed) (snd ed) c)) ds c.

End Host.

Definition dispose : M t unit := call Reporter.dispose.

End Conference.

(** ** Specifications of method calls

    [hoare P m Q E]: from a state in [P], the call [m] leaves a state in
    [Q] when it returns and a state in [E] when it throws. *)

Definition hoare {S A} (P : S -> Prop) (m : M S A)
                 (Q : A -> S -> Prop) (E : S -> Prop) : Prop :=
  forall s, P s ->
    match outcome (m s) with
    | Normal a => Q a (final (m s))
    | Throw _ => E (final (m s))
    end.

(** [m] keeps [I]: from a state in [I] it ends in [I], whether it
    returns or throws. *)
Definition keeps {S A} (I : S -> Prop) (m : M S A) : Prop :=
  hoare I m (fun _ => I) I.

(** [m] returns, and keeps [I]. *)
Definition steady {S A} (I : S -> Prop) (m : M S A) : Prop :=
  forall E, hoare I m (fun _ => I) E.

(** ** The invariant of an enabled reporter with window [n] *)

Module Invariant.

Definition counted (a : ASR.t) : Prop := 0 <= ASR.count a.

Definition monitor_ok (n : Z) (m : CAS.t) : Prop :=
  CAS._n m = n
  /\ 0 <= CAS._sampleIdx m < n
  /\ counted (CAS._avgRTT m)
  /\ Forall (fun e => counted (snd e)) (CAS._avgRemoteRTTMap m).

(** Everything but the sample index of the reporter itself. *)
Definition parts_ok (n : Z) (o : Reporter.fields) : Prop :=
  counted (Reporter._avgBitrateUp o)
  /\ counted (Reporter._avgBitrateDown o)
  /\ counted (Reporter._avgBandwidthUp o)
  /\ counted (Reporter._avgBandwidthDown o)
  /\ counted (Reporter._avgPacketLossTotal o)
  /\ counted (Reporter._avgPacketLossUp o)
  /\ counted (Reporter._avgPacketLossDown o)
  /\ counted (Reporter._avgRemoteFPS o)
  /\ counted (Reporter._avgLocalFPS o)
  /\ counted (Reporter._avgCQ o)
  /\ monitor_ok n (Reporter.jvbStatsMonitor o)
  /\ monitor_ok n (Reporter.p2pStatsMonitor o).

(** The parts, with the sample index of the reporter in [J]. *)
Definition indexed (J : Z -> Prop) (n : Z) (o : Reporter.fields) : Prop :=
  J (Reporter._sampleIdx o) /\ parts_ok n o.

Definition members_ok (n : Z) : Reporter.fields -> Prop :=
  indexed (fun i => 0 <= i < n) n.

(** Between [_sampleIdx += 1] and the test that follows it. *)
Definition bumped (n : Z) : Reporter.fields -> Prop :=
  indexed (fun i => 0 < i <= n) n.

(** A member average: reading it gives a counted average, and assigning
    a counted average to it keeps the invariant. *)
Definition average_member (n : Z) (J : Z -> Prop)
           (get : Reporter.fields -> ASR.t)
           (set : ASR.t -> Reporter.fields -> Reporter.fields) : Prop :=
  (forall o, indexed J n o -> counted (get o))
  /\ (forall o a, indexed J n o -> counted a -> indexed J n (set a o)).

Definition reporter_ok (n : Z) (r : Reporter.t) : Prop :=
  Reporter._n r = n
  /\ exists o, Reporter.members r = Some o /\ members_ok n o.

Definition conference_ok (n : Z) (c : Conference.t) : Prop :=
  reporter_ok n (Conference.reporter c).

(** Every average an enabled reporter holds: its own ten, the round trip
    average of each monitor, and the entries of both round trip maps. *)
Definition all_averages (o : Reporter.fields) : list ASR.t :=
  [Reporter._avgBitrateUp o; Reporter._avgBitrateDown o;
   Reporter._avgBandwidthUp o; Reporter._avgBandwidthDown o;
   Reporter._avgPacketLossTotal o; Reporter._avgPacketLossUp o;
   Reporter._avgPacketLossDown o; Reporter._avgRemoteFPS o;
   Reporter._avgLocalFPS o; Reporter._avgCQ o;
   CAS._avgRTT (Reporter.jvbStatsMonitor o);
   CAS._avgRTT (Reporter.p2pStatsMonitor o)]
  ++ JSMap.values (CAS._avgRemoteRTTMap (Reporter.jvbStatsMonitor o))
  ++ JSMap.values (CAS._avgRemoteRTTMap (Reporter.p2pStatsMonitor o)).

End Invariant.

(** [m] neither adds nor removes a listener. *)
Definition keeps_listeners {S A} (m : M S A) : Prop :=
  forall s e, In e (trace (m s)) ->
    match e with Subscribe _ | Unsubscribe _ => False | _ => True end.

(** The listeners of an enabled reporter, in the order the constructors
    add them. *)
Definition all_listeners : list listener :=
  [OnLocalStatsUpdated; OnP2PStatusChanged;
   OnConnectionStats false; OnUserLeft; OnRemoteStatsUpdated;
   OnConnectionStats true].

Definition only_log_errors (es : list effect) : Prop :=
  forall e, In e es -> exists msg args, e = LogError msg args.

(** ** Inputs used in the examples *)

Module Fixtures.

Definition num (z : Z) : value := VNumber (Num.of_Z z).

(** A local stats payload with every field present and nobody sending
    video. *)
Definition sample (bitrateUp packetLossTotal : Z) : value :=
  VObject
    [("bitrate", VObject [("upload", num bitrateUp); ("download", num 400)]);
     ("bandwidth", VObject [("upload", num 1000); ("download", num 2000)]);
     ("packetLoss", VObject [("total", num packetLossTotal);
                             ("download", num 0); ("upload", num 0)]);
     ("framerate", VObject []);
     ("connectionQuality", num 100)].

(** The same payload without its [bitrate] field. *)
Definition sample_without_bitrate : value :=
  VObject
    [("bandwidth", VObject [("upload", num 1000); ("download", num 2000)]);
     ("packetLoss", VObject [("total", num 5);
                             ("download", num 0); ("upload", num 0)]);
     ("framerate", VObject []);
     ("connectionQuality", num 100)].

Definition env (p2p : bool) (peers : nat) : Env :=
  {| supportsRTTStatistics := true;
     supportsBandwidthStatistics := true;
     isP2PActive := p2p;
     participantCount := peers;
     myUserId := VString "me" |}.

(** A stand-in for [parseInt] where no frame rate is parsed. *)
Definition no_parse (v : value) : number := Num.NaN.

(** Connection stats whose first transport has round trip time [rtt]. *)
Definition stats (rtt : Z) : value :=
  VObject [("transport", VArray [VObject [("rtt", num rtt)]])].

Definition tpc (p2p : bool) : value := VObject [("isP2P", VBool p2p)].

(** Remote stats in which a participant reports its round trip time to
    the bridge. *)
Definition remote (jvbRTT : Z) : value := VObject [("jvbRTT", num jvbRTT)].

(** A window of two samples in JVB mode: participants [a] and [b] have
    reported 40 and 60, and the first of the two local round trip times
    was 40. *)
Definition before_boundary : list (Env * Conference.delivery) :=
  [(env false 2, Conference.RemoteStatsUpdated "a" (remote 40));
   (env false 2, Conference.RemoteStatsUpdated "b" (remote 60));
   (env false 2, Conference.ConnectionStats false (tpc false) (stats 40))].

End Fixtures.

(** ** Descriptions used by the further properties *)

Definition is_send (e : effect) : bool :=
  match e with SendEvent _ _ => true | _ => false end.

(** The events a run sent to the analytics module, in order. *)
Definition sent (tr : list effect) : list effect := filter is_send tr.

Module Monitor.

(** [data.transport && data.transport.length] *)
Definition has_transport (data : value) : bool :=
  JS.truthy (JS.prop data "transport")
  && JS.truthy (JS.prop (JS.prop data "transport") "length").

(** [data.transport[0].rtt], where [data.transport[0]] can be read. *)
Definition rtt_of (data : value) : value :=
  JS.prop (JS.prop (JS.prop data "transport") "0") "rtt".

(** Reading [data.transport[0].rtt], where the handler reads it, does not
    throw. *)
Definition readable (env : Env) (data : value) : bool :=
  negb (supportsRTTStatistics env
        && has_transport data
        && JS.nullish (JS.prop (JS.prop data "transport") "0")).

(** What a readable sample does to [_avgRTT] before it is counted. *)
Definition fed (env : Env) (data : value) (a : ASR.t) : run ASR.t unit :=
  if supportsRTTStatistics env then
    if has_transport data then ASR.addNext (rtt_of data) a else ASR.reset a
  else Run a [] (Normal tt).

(** The events of a window boundary, [a] being [_avgRTT] at that time. *)
Definition boundary_events (env : Env) (st : CAS.t) (a : ASR.t) : list effect :=
  if supportsRTTStatistics env then
    SendEvent ((if CAS.isP2P st then "p2p." else EmptyString) ++ ASR.name a)
              (ValueField (ASR.calculate a))
    :: (if negb (CAS.isP2P st)
           && (negb (Num.isNaN (ASR.calculate a))
               && negb (Num.isNaN (CAS.cross_participant_average
                                     (CAS._avgRemoteRTTMap st))))
        then [SendEvent "stat.avg.end2endrtt"
                (Bare (Num.add (ASR.calculate a)
                         (CAS.cross_participant_average
                            (CAS._avgRemoteRTTMap st))))]
        else [])
  else [].

(** The average a remote report of participant [id] is added to: the one
    the map holds, or a new one. *)
Definition entry_for (id : string) (m : JSMap.t ASR.t) : ASR.t :=
  match JSMap.get id m with
  | Some a => a
  | None => ASR.constructor (id ++ ".stat.rtt")
  end.

(** The monitor after a sequence of remote stats of participant [id]. *)
Definition reported (id : string) (ds : list value) (st : CAS.t) : CAS.t :=
  fold_left (fun s d => final (CAS._processRemoteStats id d s)) ds st.

(** The monitor after a sequence of connection stats. *)
Definition after (ds : list (Env * value)) (st : CAS.t) : CAS.t :=
  fold_left (fun s d => final (CAS._calculateAvgStats (fst d) (snd d) s)) ds st.

End Monitor.

(** The average frame rate as an average of averages. *)

Module Frames.

Section Host.

Variable parseInt10 : value -> number.

(** [isLocal ? peerID === myID : peerID !== myID] *)
Definition selected (myID : value) (isLocal : bool) (peerID : string) : bool :=
  if isLocal then JS.strict_eq (VString peerID) myID
  else negb (JS.strict_eq (VString peerID) myID).

(** The participants of [frameRate] an average is made of. *)
Definition peers (frameRate myID : value) (isLocal : bool) : list string :=
  filter (selected myID isLocal) (JS.keys frameRate).

Definition has_streams (videos : value) : bool :=
  match JS.keys videos with [] => false | _ :: _ => true end.

(** The average over the streams of one participant. *)
Definition peer_average (videos : value) : number :=
  Num.mean (map (fun ssrc => parseInt10 (JS.prop videos ssrc)) (JS.keys videos)).

(** The average, over the selected participants that have a stream, of
    their averages. *)
Definition average_fps (frameRate myID : value) (isLocal : bool) : number :=
  Num.mean
    (map (fun peerID => peer_average (JS.prop frameRate peerID))
         (filter (fun peerID => has_streams (JS.prop frameRate peerID))
                 (peers frameRate myID isLocal))).

End Host.

End Frames.


(** What an accepted local sample does, average by average. *)

Module Session.

(** The handler does not return at its first test and finds the four
    fields it looks for. *)
Definition accepted (env : Env) (data : value) : bool :=
  negb (negb (isP2PActive env) && (participantCount env <? 1)%nat)
  && JS.truthy data
  && JS.truthy (JS.prop data "bitrate")
  && JS.truthy (JS.prop data "bandwidth")
  && JS.truthy (JS.prop data "packetLoss")
  && JS.truthy (JS.prop data "framerate").

(** [addNext] where the environment supports the statistic, nothing
    otherwise. *)
Definition when_supported (supported : bool) (v : value) (a : ASR.t) : run ASR.t unit :=
  if supported then ASR.addNext v a else Run a [] (Normal tt).

Definition fedBitrateUp (data : value) (o : Reporter.fields) : run ASR.t unit :=
  ASR.addNext (JS.prop (JS.prop data "bitrate") "upload") (Reporter._avgBitrateUp o).

Definition fedBitrateDown (data : value) (o : Reporter.fields) : run ASR.t unit :=
  ASR.addNext (JS.prop (JS.prop data "bitrate") "download") (Reporter._avgBitrateDown o).

Definition fedBandwidthUp (env : Env) (data : value) (o : Reporter.fields) : run ASR.t unit :=
  when_supported (supportsBandwidthStatistics env) (JS.prop (JS.prop data "bandwidth") "upload")
                 (Reporter._avgBandwidthUp o).

Definition fedBandwidthDown (env : Env) (data : value) (o : Reporter.fields) : run ASR.t unit :=
  when_supported (supportsBandwidthStatistics env) (JS.prop (JS.prop data "bandwidth") "download")
                 (Reporter._avgBandwidthDown o).

Definition fedPacketLossUp (data : value) (o : Reporter.fields) : run ASR.t unit :=
  ASR.addNext (JS.prop (JS.prop data "packetLoss") "upload") (Reporter._avgPacketLossUp o).

Definition fedPacketLossDown (data : value) (o : Reporter.fields) : run ASR.t unit :=
  ASR.addNext (JS.prop (JS.prop data "packetLoss") "download") (Reporter._avgPacketLossDown o).

Definition fedPacketLossTotal (data : value) (o : Reporter.fields) : run ASR.t unit :=
  ASR.addNext (JS.prop (JS.prop data "packetLoss") "total") (Reporter._avgPacketLossTotal o).

Definition fedCQ (data : value) (o : Reporter.fields) : run ASR.t unit :=
  ASR.addNext (JS.prop data "connectionQuality") (Reporter._avgCQ o).

Definition fedRemoteFPS (remote : number) (o : Reporter.fields) : run ASR.t unit :=
  ASR.addNext (VNumber remote) (Reporter._avgRemoteFPS o).

Definition fedLocalFPS (local : number) (o : Reporter.fields) : run ASR.t unit :=
  ASR.addNext (VNumber local) (Reporter._avgLocalFPS o).

(** What the averages log while an accepted sample is fed to them, up to
    [_avgCQ]. *)
Definition logged (env : Env) (data : value) (o : Reporter.fields) : list effect :=
  trace (fedBitrateUp data o) ++ trace (fedBitrateDown data o)
  ++ trace (fedBandwidthUp env data o) ++ trace (fedBandwidthDown env data o)
  ++ trace (fedPacketLossUp data o) ++ trace (fedPacketLossDown data o)
  ++ trace (fedPacketLossTotal data o) ++ trace (fedCQ data o).

(** The members once the payload fields of an accepted sample are fed,
    before the frame rates are. *)
Definition fed_fields (env : Env) (data : value) (o : Reporter.fields)
  : Reporter.fields :=
  {| Reporter._sampleIdx := Reporter._sampleIdx o;
     Reporter._avgBitrateUp := final (fedBitrateUp data o);
     Reporter._avgBitrateDown := final (fedBitrateDown data o);
     Reporter._avgBandwidthUp := final (fedBandwidthUp env data o);
     Reporter._avgBandwidthDown := final (fedBandwidthDown env data o);
     Reporter._avgPacketLossTotal := final (fedPacketLossTotal data o);
     Reporter._avgPacketLossUp := final (fedPacketLossUp data o);
     Reporter._avgPacketLossDown := final (fedPacketLossDown data o);
     Reporter._avgRemoteFPS := Reporter._avgRemoteFPS o;
     Reporter._avgLocalFPS := Reporter._avgLocalFPS o;
     Reporter._avgCQ := final (fedCQ data o);
     Reporter.jvbStatsMonitor := Reporter.jvbStatsMonitor o;
     Reporter.p2pStatsMonitor := Reporter.p2pStatsMonitor o |}.

(** The members once an accepted sample is fed and before it is counted. *)
Definition fed (env : Env) (data : value) (remote local : number)
           (o : Reporter.fields) : Reporter.fields :=
  {| Reporter._sampleIdx := Reporter._sampleIdx o;
     Reporter._avgBitrateUp := final (fedBitrateUp data o);
     Reporter._avgBitrateDown := final (fedBitrateDown data o);
     Reporter._avgBandwidthUp := final (fedBandwidthUp env data o);
     Reporter._avgBandwidthDown := final (fedBandwidthDown env data o);
     Reporter._avgPacketLossTotal := final (fedPacketLossTotal data o);
     Reporter._avgPacketLossUp := final (fedPacketLossUp data o);
     Reporter._avgPacketLossDown := final (fedPacketLossDown data o);
     Reporter._avgRemoteFPS := final (fedRemoteFPS remote o);
     Reporter._avgLocalFPS := final (fedLocalFPS local o);
     Reporter._avgCQ := final (fedCQ data o);
     Reporter.jvbStatsMonitor := Reporter.jvbStatsMonitor o;
     Reporter.p2pStatsMonitor := Reporter.p2pStatsMonitor o |}.

Definition report_of (isP2P : bool) (a : ASR.t) : effect :=
  SendEvent ((if isP2P then "p2p." else EmptyString) ++ ASR.name a)
            (ValueField (ASR.calculate a)).

(** The reports of a window boundary, [o] being the members at that
    time. *)
Definition boundary_events (env : Env) (o : Reporter.fields) : list effect :=
  let isP2P := isP2PActive env in
  [report_of isP2P (Reporter._avgBitrateUp o);
   report_of isP2P (Reporter._avgBitrateDown o)]
  ++ (if supportsBandwidthStatistics env
      then [report_of isP2P (Reporter._avgBandwidthUp o);
            report_of isP2P (Reporter._avgBandwidthDown o)]
      else [])
  ++ [report_of isP2P (Reporter._avgPacketLossUp o);
      report_of isP2P (Reporter._avgPacketLossDown o);
      report_of isP2P (Reporter._avgPacketLossTotal o);
      report_of isP2P (Reporter._avgRemoteFPS o);
      report_of isP2P (Reporter._avgLocalFPS o);
      report_of isP2P (Reporter._avgCQ o)].

(** The reporter after a sequence of local stats. *)
Definition after (parseInt10 : value -> number) (ds : list (Env * value))
           (r : Reporter.t) : Reporter.t :=
  fold_left (fun s d => final (Reporter._calculateAvgStats parseInt10 (fst d) (snd d) s))
            ds r.

End Session.


(** ** Properties of every state an enabled reporter goes through *)

(** [P] holds of the members of an enabled reporter with window [n]. *)
Definition on_members (n : Z) (P : Reporter.fields -> Prop) (r : Reporter.t) : Prop :=
  Reporter._n r = n /\ exists o, Reporter.members r = Some o /\ P o.

(** Each monitor is the one for its mode. *)
Definition monitors_in_place (o : Reporter.fields) : Prop :=
  CAS.isP2P (Reporter.jvbStatsMonitor o) = false
  /\ CAS.isP2P (Reporter.p2pStatsMonitor o) = true.


(** ** Further inputs used in the examples *)

Module Inputs.

(** [parseInt] on the numbers the examples hold, which are integers. *)
Definition parse (v : value) : number :=
  match v with VNumber x => x | _ => Num.NaN end.

(** The frame rates of two participants: [me] with one stream at 30, [x]
    with streams at 15 and 25. *)
Definition video : value :=
  VObject [("me", VObject [("1001", Fixtures.num 30)]);
           ("x", VObject [("2001", Fixtures.num 15);
                          ("2002", Fixtures.num 25)])].

Definition local_stats (bitrateUp : Z) (framerate : value) : value :=
  VObject
    [("bitrate", VObject [("upload", Fixtures.num bitrateUp);
                          ("download", Fixtures.num 400)]);
     ("bandwidth", VObject [("upload", Fixtures.num 1000);
                            ("download", Fixtures.num 2000)]);
     ("packetLoss", VObject [("total", Fixtures.num 5);
                             ("download", Fixtures.num 3);
                             ("upload", Fixtures.num 2)]);
     ("framerate", framerate);
     ("connectionQuality", Fixtures.num 100)].

Definition sample_with_video (bitrateUp : Z) : value :=
  local_stats bitrateUp video.

(** A payload in which the frame rates of participant [x] are [null]. *)
Definition sample_with_broken_video : value :=
  local_stats 100 (VObject [("me", VObject [("1001", Fixtures.num 30)]);
                            ("x", VNull)]).

End Inputs.

(** * Properties *)

(** ** Numbers *)

Lemma add_NaN_r (x : number) : Num.add x Num.NaN = Num.NaN.
Proof. destruct x; reflexivity. Qed.

Lemma add_NaN_l (x : number) : Num.add Num.NaN x = Num.NaN.
Proof. reflexivity. Qed.

Lemma div_NaN_l (x : number) : Num.div Num.NaN x = Num.NaN.
Proof. reflexivity. Qed.


Lemma typeof_number (v : value) :
  JS.typeof v = "number" <-> exists x, v = VNumber x.
Proof.
  split.
  - destruct v; simpl; intro H; try discriminate. eauto.
  - intros [x ->]. reflexivity.
Qed.

(** ** AverageStatReport *)

Lemma addNext_number (x : number) (a : ASR.t) :
  ASR.addNext (VNumber x) a
  = Run (ASR.Make (ASR.name a) (ASR.count a + 1) (Num.add (ASR.sum a) x))
        [] (Normal tt).
Proof. reflexivity. Qed.

Lemma addNext_other (v : value) (a : ASR.t) :
  JS.typeof v <> "number" ->
  ASR.addNext v a
  = Run a [LogError (ASR.name a ++ " - invalid value for idx: "
                     ++ JS.string_of_Z (ASR.count a)) [v]]
        (Normal tt).
Proof.
  intro H. destruct v; try reflexivity. exfalso. apply H. reflexivity.
Qed.

Lemma addNext_returns (v : value) (a : ASR.t) :
  outcome (ASR.addNext v a) = Normal tt.
Proof. destruct v; reflexivity. Qed.

Lemma addNext_name (v : value) (a : ASR.t) :
  ASR.name (final (ASR.addNext v a)) = ASR.name a.
Proof. destruct v, a; reflexivity. Qed.

Lemma addNext_count (v : value) (a : ASR.t) :
  ASR.count a <= ASR.count (final (ASR.addNext v a)) <= ASR.count a + 1.
Proof. destruct v; simpl; lia. Qed.

Lemma feed_cons (v : value) (vs : list value) (a : ASR.t) :
  ASR.feed (v :: vs) a = ASR.feed vs (final (ASR.addNext v a)).
Proof. reflexivity. Qed.

Lemma feed_numbers (xs : list number) (a : ASR.t) :
  ASR.feed (map VNumber xs) a
  = ASR.Make (ASR.name a)
             (ASR.count a + Z.of_nat (List.length xs))
             (fold_left Num.add xs (ASR.sum a)).
Proof.
  revert a. induction xs as [|x xs IH]; intro a.
  - destruct a as [n c s]. unfold ASR.feed. simpl. rewrite Z.add_0_r. reflexivity.
  - change (ASR.feed (map VNumber (x :: xs)) a)
      with (ASR.feed (map VNumber xs) (final (ASR.addNext (VNumber x) a))).
    rewrite IH. simpl ASR.name. simpl ASR.count. simpl ASR.sum.
    simpl fold_left. f_equal.
    change (List.length (x :: xs)) with (S (List.length xs)). lia.
Qed.

Lemma feed_count_mono (vs : list value) (a : ASR.t) :
  ASR.count a <= ASR.count (ASR.feed vs a).
Proof.
  revert a. induction vs as [|v vs IH]; intro a.
  - unfold ASR.feed. simpl. lia.
  - rewrite feed_cons.
    specialize (IH (final (ASR.addNext v a))).
    pose proof (addNext_count v a). lia.
Qed.

Lemma feed_keeps_NaN (vs : list value) (a : ASR.t) :
  ASR.sum a = Num.NaN -> ASR.sum (ASR.feed vs a) = Num.NaN.
Proof.
  revert a. induction vs as [|v vs IH]; intros a H.
  - exact H.
  - rewrite feed_cons. apply IH.
    destruct v; simpl; try exact H. rewrite H. reflexivity.
Qed.

(** C4: feeding a sequence of numbers to a new or a reset average makes
    [calculate()] the arithmetic mean of the sequence (the left-to-right
    binary64 sum divided by the length); with nothing fed it is NaN. *)
Theorem calculate_is_mean (name : string) (old : ASR.t) (xs : list number) :
  ASR.calculate (ASR.feed (map VNumber xs) (ASR.constructor name)) = Num.mean xs
  /\ ASR.calculate (ASR.feed (map VNumber xs) (final (ASR.reset old))) = Num.mean xs
  /\ ASR.calculate (ASR.feed [] (ASR.constructor name)) = Num.NaN
  /\ ASR.calculate (ASR.feed [] (final (ASR.reset old))) = Num.NaN.
Proof.
  repeat split; try reflexivity.
  - rewrite feed_numbers. reflexivity.
  - rewrite feed_numbers. reflexivity.
Qed.

(** C7: [addNext] of a value that is not a number logs it and changes
    neither [count] nor [sum] (nor anything else of the instance). *)
Theorem addNext_non_number_ignored (a : ASR.t) (v : value) :
  JS.typeof v <> "number" ->
  final (ASR.addNext v a) = a
  /\ ASR.count (final (ASR.addNext v a)) = ASR.count a
  /\ ASR.sum (final (ASR.addNext v a)) = ASR.sum a
  /\ trace (ASR.addNext v a)
     = [LogError (ASR.name a ++ " - invalid value for idx: "
                  ++ JS.string_of_Z (ASR.count a)) [v]]
  /\ outcome (ASR.addNext v a) = Normal tt.
Proof.
  intro H. rewrite (addNext_other v a H). simpl. repeat split.
Qed.

Lemma addNext_non_number_ignored_witness :
  final (ASR.addNext (VString "12") (ASR.Make "stat.avg.cq" 2 (Num.of_Z 7)))
  = ASR.Make "stat.avg.cq" 2 (Num.of_Z 7).
Proof.
  apply (addNext_non_number_ignored (ASR.Make "stat.avg.cq" 2 (Num.of_Z 7))
                                    (VString "12")).
  simpl. discriminate.
Defined.

(** C9: NaN and the infinities pass the check of [addNext]: nothing is
    logged, [count] grows by one and the value is added to [sum]; once NaN
    was fed, [calculate()] is NaN after any further [addNext] calls, while
    the samples keep being counted. *)
Theorem addNext_accepts_non_finite (a : ASR.t) :
  (forall x : number,
      Num.isNaN x = true \/ Num.is_infinity x = true ->
      trace (ASR.addNext (VNumber x) a) = []
      /\ outcome (ASR.addNext (VNumber x) a) = Normal tt
      /\ ASR.count (final (ASR.addNext (VNumber x) a)) = ASR.count a + 1
      /\ ASR.sum (final (ASR.addNext (VNumber x) a)) = Num.add (ASR.sum a) x)
  /\ (forall vs : list value,
         let later := ASR.feed vs (final (ASR.addNext (VNumber Num.NaN) a)) in
         ASR.calculate later = Num.NaN
         /\ ASR.count a + 1 <= ASR.count later).
Proof.
  split.
  - intros x _. repeat split.
  - intros vs later. split.
    + unfold ASR.calculate, later. rewrite feed_keeps_NaN.
      * reflexivity.
      * simpl. apply add_NaN_r.
    + unfold later.
      pose proof (feed_count_mono vs (final (ASR.addNext (VNumber Num.NaN) a))) as H.
      simpl in H. exact H.
Qed.

Lemma addNext_accepts_non_finite_witness :
  ASR.count (final (ASR.addNext (VNumber (S754_infinity false))
                                (ASR.constructor "stat.avg.rtt"))) = 1
  /\ ASR.sum (final (ASR.addNext (VNumber (S754_infinity false))
                                 (ASR.constructor "stat.avg.rtt")))
     = S754_infinity false.
Proof.
  destruct (addNext_accepts_non_finite (ASR.constructor "stat.avg.rtt")) as [H _].
  destruct (H (S754_infinity false) (or_intror eq_refl)) as (_ & _ & Hc & Hs).
  split; [exact Hc | exact Hs].
Defined.

(** ** AvgRTPStatsReporter: the mode switch *)

Lemma reset_cleared (a : ASR.t) : ASR.cleared (final (ASR.reset a)).
Proof. split; reflexivity. Qed.

Lemma constructor_cleared (name : string) : ASR.cleared (ASR.constructor name).
Proof. split; reflexivity. Qed.

Lemma monitor_reset (m : CAS.t) :
  CAS._resetAvgStats m
  = Run (CAS.Make (CAS.isP2P m) (CAS._n m) 0
                  (ASR.Make (ASR.name (CAS._avgRTT m)) 0 Num.zero) [])
        [] (Normal tt).
Proof. reflexivity. Qed.

(** What [_onP2PStatusChanged] does to an instance with assigned
    members. *)
Lemma onP2PStatusChanged_run (n : Z) (o : Reporter.fields) :
  let cleared_like a := ASR.Make (ASR.name a) 0 Num.zero in
  Reporter._onP2PStatusChanged (Reporter.Make n (Some o))
  = Run (Reporter.Make n (Some
          {| Reporter._sampleIdx := 0;
             Reporter._avgBitrateUp := cleared_like (Reporter._avgBitrateUp o);
             Reporter._avgBitrateDown := cleared_like (Reporter._avgBitrateDown o);
             Reporter._avgBandwidthUp := cleared_like (Reporter._avgBandwidthUp o);
             Reporter._avgBandwidthDown := cleared_like (Reporter._avgBandwidthDown o);
             Reporter._avgPacketLossTotal := Reporter._avgPacketLossTotal o;
             Reporter._avgPacketLossUp := cleared_like (Reporter._avgPacketLossUp o);
             Reporter._avgPacketLossDown := cleared_like (Reporter._avgPacketLossDown o);
             Reporter._avgRemoteFPS := cleared_like (Reporter._avgRemoteFPS o);
             Reporter._avgLocalFPS := cleared_like (Reporter._avgLocalFPS o);
             Reporter._avgCQ := cleared_like (Reporter._avgCQ o);
             Reporter.jvbStatsMonitor :=
               final (CAS._resetAvgStats (Reporter.jvbStatsMonitor o));
             Reporter.p2pStatsMonitor :=
               final (CAS._resetAvgStats (Reporter.p2pStatsMonitor o)) |}))
        [LogDebug "Resetting average stats calculation"]
        (Normal tt).
Proof. reflexivity. Qed.

(** C1: on a mode switch the listener returns without sending anything,
    both monitors and nine of the ten averages of the reporter are left
    cleared with every sample index at 0, and [_avgPacketLossTotal] keeps
    the sum and count it had: after one sample with a total packet loss of
    5 and a switch it still holds sum 5 and count 1. *)
Theorem p2p_status_keeps_packet_loss_total :
  (forall (n : Z) (o : Reporter.fields),
      let r := Reporter._onP2PStatusChanged (Reporter.Make n (Some o)) in
      exists o',
        final r = Reporter.Make n (Some o')
        /\ outcome r = Normal tt
        /\ (forall name p, ~ In (SendEvent name p) (trace r))
        /\ Reporter._sampleIdx o' = 0
        /\ CAS._sampleIdx (Reporter.jvbStatsMonitor o') = 0
        /\ CAS._sampleIdx (Reporter.p2pStatsMonitor o') = 0
        /\ Forall ASR.cleared
             [Reporter._avgBitrateUp o'; Reporter._avgBitrateDown o';
              Reporter._avgBandwidthUp o'; Reporter._avgBandwidthDown o';
              Reporter._avgPacketLossUp o'; Reporter._avgPacketLossDown o';
              Reporter._avgRemoteFPS o'; Reporter._avgLocalFPS o';
              Reporter._avgCQ o';
              CAS._avgRTT (Reporter.jvbStatsMonitor o');
              CAS._avgRTT (Reporter.p2pStatsMonitor o')]
        /\ CAS._avgRemoteRTTMap (Reporter.jvbStatsMonitor o') = []
        /\ CAS._avgRemoteRTTMap (Reporter.p2pStatsMonitor o') = []
        /\ Reporter._avgPacketLossTotal o' = Reporter._avgPacketLossTotal o)
  /\ Reporter.read Reporter._avgPacketLossTotal
       (Conference.reporter
          (Conference.deliver_all Fixtures.no_parse
             [(Fixtures.env false 1,
               Conference.LocalStatsUpdated (Fixtures.sample 100 5));
              (Fixtures.env true 1, Conference.P2PStatus)]
             (final (Conference.create 3))))
     = Some (ASR.Make "stat.avg.packetloss.total" 1 (Num.of_Z 5)).
Proof.
  split.
  - intros n o r. subst r. rewrite onP2PStatusChanged_run.
    eexists. split; [reflexivity|].
    split; [reflexivity|].
    split.
    { intros name p [H|[]]. discriminate H. }
    cbn. repeat split.
    repeat (constructor; [split; reflexivity|]). constructor.
  - vm_compute. reflexivity.
Qed.

(** ** AvgRTPStatsReporter: local stats that are not accumulated *)

(** The early return of [_calculateAvgStats]. *)
Lemma early_return_run
      (parseInt10 : value -> number) (env : Env) (data : value)
      (n : Z) (o : Reporter.fields) :
  negb (isP2PActive env) && (participantCount env <? 1)%nat = true ->
  Reporter._calculateAvgStats parseInt10 env data (Reporter.Make n (Some o))
  = Run (Reporter.Make n (Some o)) [] (Normal tt).
Proof.
  intros H. unfold Reporter._calculateAvgStats. rewrite H. reflexivity.
Qed.

(** In P2P mode the number of participants plays no part in what
    [_calculateAvgStats] does. *)
Lemma p2p_run_ignores_participants
      (parseInt10 : value -> number) (env : Env) (data : value) (r : Reporter.t)
      (k : nat) :
  isP2PActive env = true ->
  Reporter._calculateAvgStats parseInt10 env data r
  = Reporter._calculateAvgStats parseInt10
      {| supportsRTTStatistics := supportsRTTStatistics env;
         supportsBandwidthStatistics := supportsBandwidthStatistics env;
         isP2PActive := isP2PActive env;
         participantCount := k;
         myUserId := myUserId env |}
      data r.
Proof.
  intro H. destruct env as [rtt bw p2p count me]. simpl in H. subst p2p.
  reflexivity.
Qed.

(** C2, as the code has it: with the conference in JVB mode (not P2P) and
    no other participant, [_calculateAvgStats] returns at once: nothing is
    accumulated, [_sampleIdx] stays, nothing is logged or thrown.  In P2P
    mode the sample is processed as usual: what the handler does is what
    it does with any other number of participants. *)
Theorem jvb_alone_short_circuits
        (parseInt10 : value -> number) (env : Env) (data : value) :
  (forall (n : Z) (o : Reporter.fields),
      isP2PActive env = false ->
      participantCount env = 0%nat ->
      Reporter._calculateAvgStats parseInt10 env data (Reporter.Make n (Some o))
      = Run (Reporter.Make n (Some o)) [] (Normal tt))
  /\ (forall (r : Reporter.t) (k : nat),
         isP2PActive env = true ->
         Reporter._calculateAvgStats parseInt10 env data r
         = Reporter._calculateAvgStats parseInt10
             {| supportsRTTStatistics := supportsRTTStatistics env;
                supportsBandwidthStatistics := supportsBandwidthStatistics env;
                isP2PActive := isP2PActive env;
                participantCount := k;
                myUserId := myUserId env |}
             data r).
Proof.
  split.
  - intros n o H1 H2. apply early_return_run. rewrite H1, H2. reflexivity.
  - intros r k H. apply p2p_run_ignores_participants. exact H.
Qed.

Lemma jvb_alone_short_circuits_witness :
  Reporter._calculateAvgStats Fixtures.no_parse (Fixtures.env false 0)
    (Fixtures.sample 100 5) (final (Reporter.constructor 3))
  = Run (final (Reporter.constructor 3)) [] (Normal tt)
  /\ Reporter._calculateAvgStats Fixtures.no_parse (Fixtures.env true 0)
       (Fixtures.sample 100 5) (final (Reporter.constructor 3))
     = Reporter._calculateAvgStats Fixtures.no_parse (Fixtures.env true 1)
         (Fixtures.sample 100 5) (final (Reporter.constructor 3)).
Proof.
  destruct (jvb_alone_short_circuits Fixtures.no_parse (Fixtures.env false 0)
              (Fixtures.sample 100 5)) as [H _].
  destruct (jvb_alone_short_circuits Fixtures.no_parse (Fixtures.env true 0)
              (Fixtures.sample 100 5)) as [_ H'].
  split.
  - apply (H 3 (Reporter.new_members 3)); reflexivity.
  - apply (H' (final (Reporter.constructor 3)) 1%nat). reflexivity.
Defined.

(** In P2P mode with no other participant a local sample is accumulated
    and counted. *)
Lemma p2p_alone_accumulates :
  let env := Fixtures.env true 0 in
  let r0 := final (Reporter.constructor 3) in
  let r := Reporter._calculateAvgStats Fixtures.no_parse env
             (Fixtures.sample 100 5) r0 in
  isP2PActive env = true
  /\ participantCount env = 0%nat
  /\ Reporter.read Reporter._sampleIdx r0 = Some 0
  /\ Reporter.read Reporter._sampleIdx (final r) = Some 1
  /\ Reporter.read Reporter._avgBitrateUp (final r)
     = Some (ASR.Make "stat.avg.bitrate.upload" 1 (Num.of_Z 100))
  /\ final r <> r0.
Proof.
  cbv zeta. repeat split; try (vm_compute; reflexivity).
  vm_compute. discriminate.
Qed.

Lemma truthy_undefined (v : value) : v = VUndefined -> JS.truthy v = false.
Proof. intros ->. reflexivity. Qed.

Lemma missing_field_falsy (data : value) :
  Reporter.missing_field data ->
  JS.truthy (JS.prop data "bitrate") = false
  \/ JS.truthy (JS.prop data "bandwidth") = false
  \/ JS.truthy (JS.prop data "packetLoss") = false
  \/ JS.truthy (JS.prop data "framerate") = false.
Proof.
  intros (k & Hk & Hu). apply truthy_undefined in Hu.
  simpl in Hk. destruct Hk as [<-|[<-|[<-|[<-|[]]]]]; tauto.
Qed.

(** A payload with a falsy required field: what the handler does when it
    does not return at its first test. *)
Lemma falsy_field_logged
      (parseInt10 : value -> number) (env : Env) (data : value)
      (n : Z) (o : Reporter.fields) :
  negb (isP2PActive env) && (participantCount env <? 1)%nat = false ->
  JS.truthy (JS.prop data "bitrate") = false
  \/ JS.truthy (JS.prop data "bandwidth") = false
  \/ JS.truthy (JS.prop data "packetLoss") = false
  \/ JS.truthy (JS.prop data "framerate") = false ->
  exists msg,
    Reporter._calculateAvgStats parseInt10 env data (Reporter.Make n (Some o))
    = Run (Reporter.Make n (Some o)) [LogError msg []] (Normal tt).
Proof.
  intros Hgo Hfalsy. unfold Reporter._calculateAvgStats.
  rewrite Hgo.
  destruct (JS.truthy data) eqn:Hdata; [|eexists; reflexivity].
  destruct (JS.truthy (JS.prop data "bitrate")) eqn:H1; [|eexists; reflexivity].
  destruct (JS.truthy (JS.prop data "bandwidth")) eqn:H2; [|eexists; reflexivity].
  destruct (JS.truthy (JS.prop data "packetLoss")) eqn:H3; [|eexists; reflexivity].
  destruct (JS.truthy (JS.prop data "framerate")) eqn:H4; [|eexists; reflexivity].
  exfalso. destruct Hfalsy as [H|[H|[H|H]]]; discriminate H.
Qed.

(** C6, as the code has it: a local stats payload that lacks one of
    [bitrate], [bandwidth], [packetLoss], [framerate] is dropped whole: no
    average and no [_sampleIdx] changes, nothing is sent, the handler
    returns; and unless the handler returned at its first test (JVB mode
    with no other participant), exactly one error is logged. *)
Theorem sample_missing_field_dropped
        (parseInt10 : value -> number) (env : Env) (data : value)
        (n : Z) (o : Reporter.fields) :
  Reporter.missing_field data ->
  let r := Reporter._calculateAvgStats parseInt10 env data
             (Reporter.Make n (Some o)) in
  final r = Reporter.Make n (Some o)
  /\ outcome r = Normal tt
  /\ (forall name p, ~ In (SendEvent name p) (trace r))
  /\ (isP2PActive env = true \/ (1 <= participantCount env)%nat ->
      exists msg, trace r = [LogError msg []]).
Proof.
  intros Hmiss r. subst r. apply missing_field_falsy in Hmiss.
  destruct (negb (isP2PActive env) && (participantCount env <? 1)%nat) eqn:Hgo.
  - rewrite early_return_run by exact Hgo.
    apply andb_prop in Hgo. destruct Hgo as [Hp Hc].
    apply negb_true_iff in Hp. apply Nat.ltb_lt in Hc.
    cbn. repeat split; [tauto|].
    intros [H|H]; [congruence|lia].
  - destruct (falsy_field_logged parseInt10 env data n o Hgo Hmiss) as [msg ->].
    cbn. repeat split.
    + intros name p [H|[]]. discriminate H.
    + intros _. eexists. reflexivity.
Qed.

Lemma sample_missing_field_dropped_witness :
  Reporter.missing_field Fixtures.sample_without_bitrate
  /\ exists msg,
      trace (Reporter._calculateAvgStats Fixtures.no_parse (Fixtures.env true 1)
               Fixtures.sample_without_bitrate
               (Reporter.Make 3 (Some (Reporter.new_members 3))))
      = [LogError msg []].
Proof.
  assert (Hm : Reporter.missing_field Fixtures.sample_without_bitrate).
  { exists "bitrate". split; [left|]; reflexivity. }
  split; [exact Hm|].
  apply (sample_missing_field_dropped Fixtures.no_parse (Fixtures.env true 1)
           Fixtures.sample_without_bitrate 3 (Reporter.new_members 3) Hm).
  left. reflexivity.
Defined.

(** In JVB mode with no other participant a payload without [bitrate] is
    dropped without anything being logged. *)
Lemma missing_field_unlogged_when_alone :
  Reporter.missing_field Fixtures.sample_without_bitrate
  /\ trace (Reporter._calculateAvgStats Fixtures.no_parse (Fixtures.env false 0)
              Fixtures.sample_without_bitrate (final (Reporter.constructor 3)))
     = [].
Proof.
  split; [|reflexivity].
  exists "bitrate". split; [left|]; reflexivity.
Qed.

(** ** AvgRTPStatsReporter: a disabled instance *)

(** C3: with [n <= 0] the constructor only logs: no listener is added, no
    monitor is created, and no delivery reaches the instance; but
    [dispose()] on it throws a TypeError instead of doing nothing. *)
Theorem disabled_reporter_dispose_throws (n : Z) :
  n <= 0 ->
  let c := Conference.create n in
  final c = Conference.Make (Reporter.Make n None) []
  /\ trace c = [LogInfo "Avg RTP stats reports are disabled."]
  /\ outcome c = Normal tt
  /\ (forall parseInt10 env d,
         Conference.deliver parseInt10 env d (final c)
         = Run (final c) [] (Normal tt))
  /\ Conference.dispose (final c)
     = Run (final c) []
           (Throw (TypeError "Cannot read property 'off' of undefined"))
  /\ Reporter.dispose (Conference.reporter (final c))
     = Run (Conference.reporter (final c)) []
           (Throw (TypeError "Cannot read property 'off' of undefined")).
Proof.
  intros Hn c. subst c.
  unfold Conference.create, Reporter.constructor.
  replace (0 <? n) with false by (symmetry; apply Z.ltb_ge; exact Hn).
  cbn. repeat split.
Qed.

Lemma disabled_reporter_dispose_throws_witness :
  outcome (Conference.dispose (final (Conference.create 0)))
  = Throw (TypeError "Cannot read property 'off' of undefined").
Proof.
  destruct (disabled_reporter_dispose_throws 0 (Z.le_refl 0))
    as (_ & _ & _ & _ & H & _).
  rewrite H. reflexivity.
Defined.

(** ** ConnectionAvgStats: the remote round trip times *)

Lemma get_delete_same {V} (k : string) (m : JSMap.t V) :
  JSMap.get k (JSMap.delete k m) = None.
Proof.
  induction m as [|[k' v] m IH]; simpl; [reflexivity|].
  destruct (String.eqb k k') eqn:E; simpl; [exact IH|].
  rewrite E. exact IH.
Qed.

Lemma get_delete_other {V} (k q : string) (m : JSMap.t V) :
  q <> k -> JSMap.get q (JSMap.delete k m) = JSMap.get q m.
Proof.
  intro Hq. induction m as [|[k' v] m IH]; simpl; [reflexivity|].
  destruct (String.eqb k k') eqn:E; simpl.
  - apply String.eqb_eq in E. subst k'.
    destruct (String.eqb q k) eqn:E'; [|exact IH].
    apply String.eqb_eq in E'. contradiction.
  - rewrite IH. reflexivity.
Qed.

Lemma delete_set_same {V} (k : string) (v : V) (m : JSMap.t V) :
  JSMap.delete k (JSMap.set k v m) = JSMap.delete k m.
Proof.
  induction m as [|[k' v'] m IH]; simpl.
  - rewrite String.eqb_refl. reflexivity.
  - destruct (String.eqb k k') eqn:E; simpl; rewrite E; simpl.
    + reflexivity.
    + rewrite IH. reflexivity.
Qed.

Lemma in_delete {V} (k q : string) (v : V) (m : JSMap.t V) :
  In (q, v) (JSMap.delete k m) <-> In (q, v) m /\ q <> k.
Proof.
  unfold JSMap.delete. rewrite filter_In. simpl.
  rewrite negb_true_iff, String.eqb_neq. intuition congruence.
Qed.

Lemma in_contributing (x : number) (m : JSMap.t ASR.t) :
  In x (CAS.contributing m)
  <-> exists q a, In (q, a) m /\ x = ASR.calculate a /\ Num.isNaN x = false.
Proof.
  unfold CAS.contributing, JSMap.values.
  rewrite filter_In, map_map, in_map_iff, negb_true_iff. split.
  - intros [[[q a] [Hx Hin]] Hn]. simpl in Hx. exists q, a. auto.
  - intros (q & a & Hin & Hx & Hn). split; [|exact Hn].
    exists (q, a). simpl. auto.
Qed.

(** The loop folds in exactly the contributing averages. *)
Lemma contributing_cons (id : string) (a : ASR.t) (rest : JSMap.t ASR.t) :
  CAS.contributing ((id, a) :: rest)
  = if negb (Num.isNaN (ASR.calculate a))
    then ASR.calculate a :: CAS.contributing rest
    else CAS.contributing rest.
Proof. reflexivity. Qed.

Lemma remoteRTT_loop_result (entries : list (string * ASR.t)) (count : Z) (sum : number) :
  snd (CAS.remoteRTT_loop entries count sum)
  = (count + Z.of_nat (List.length (CAS.contributing entries)),
     fold_left Num.add (CAS.contributing entries) sum).
Proof.
  revert count sum.
  induction entries as [|[id a] rest IH]; intros count sum.
  - simpl. rewrite Z.add_0_r. reflexivity.
  - rewrite contributing_cons. simpl CAS.remoteRTT_loop.
    destruct (negb (Num.isNaN (ASR.calculate a))) eqn:E.
    + specialize (IH (count + 1) (Num.add sum (ASR.calculate a))).
      destruct (CAS.remoteRTT_loop rest (count + 1) (Num.add sum (ASR.calculate a)))
        as [rest' r].
      simpl snd in *. rewrite IH. simpl fold_left. f_equal.
      change (List.length (ASR.calculate a :: CAS.contributing rest))
        with (S (List.length (CAS.contributing rest))).
      lia.
    + specialize (IH count sum).
      destruct (CAS.remoteRTT_loop rest count sum) as [rest' r].
      simpl snd in *. exact IH.
Qed.

(** [_calculateAvgRemoteRTT] returns the cross-participant average. *)
Lemma calculateAvgRemoteRTT_run (st : CAS.t) :
  CAS._calculateAvgRemoteRTT st
  = Run (CAS.set_avgRemoteRTTMap
           (fst (CAS.remoteRTT_loop (CAS._avgRemoteRTTMap st) 0 Num.zero)) st)
        []
        (Normal (CAS.cross_participant_average (CAS._avgRemoteRTTMap st))).
Proof.
  unfold CAS._calculateAvgRemoteRTT, bind, this. cbn.
  pose proof (remoteRTT_loop_result (CAS._avgRemoteRTTMap st) 0 Num.zero) as H.
  destruct (CAS.remoteRTT_loop (CAS._avgRemoteRTTMap st) 0 Num.zero)
    as [entries [count sum]].
  simpl in H. injection H as Hc Hs. subst count sum. reflexivity.
Qed.

(** ** ConnectionAvgStats: the window boundary *)

Lemma addNext_only_logs (v : value) (a : ASR.t) :
  only_log_errors (trace (ASR.addNext v a)).
Proof.
  intros e He. destruct v; simpl in He; try contradiction;
    destruct He as [<-|[]]; eauto.
Qed.

(** The effects of a JVB monitor whose sample completes a window, with
    round trip times supported: what [addNext] may have logged, the
    report of the local average, and the end to end event when both
    averages are numbers. *)
Lemma jvb_boundary_trace (st : CAS.t) (env : Env) (data : value) :
  CAS.isP2P st = false ->
  supportsRTTStatistics env = true ->
  JS.truthy data = true ->
  CAS._n st <= CAS._sampleIdx st + 1 ->
  outcome (CAS._calculateAvgStats env data st) = Normal tt ->
  exists (pre : list effect) (a : ASR.t),
    only_log_errors pre
    /\ ((exists v, a = final (ASR.addNext v (CAS._avgRTT st)))
        \/ a = final (ASR.reset (CAS._avgRTT st)))
    /\ trace (CAS._calculateAvgStats env data st)
       = (pre
          ++ [SendEvent (ASR.name (CAS._avgRTT st)) (ValueField (ASR.calculate a))]
          ++ (if negb (Num.isNaN (ASR.calculate a))
                 && negb (Num.isNaN (CAS.cross_participant_average
                                       (CAS._avgRemoteRTTMap st)))
              then [SendEvent "stat.avg.end2endrtt"
                      (Bare (Num.add (ASR.calculate a)
                               (CAS.cross_participant_average
                                  (CAS._avgRemoteRTTMap st))))]
              else []))%list.
Proof.
  intros Hjvb Hrtt Hdata Hn.
  apply Z.leb_le in Hn.
  unfold CAS._calculateAvgStats. rewrite Hdata, Hrtt. cbn [negb].
  destruct (JS.truthy (JS.prop data "transport")
            && JS.truthy (JS.prop (JS.prop data "transport") "length")).
  - unfold get_member.
    destruct (JS.nullish (JS.prop (JS.prop data "transport") "0")).
    + cbn. discriminate.
    + intros _.
      exists (trace (ASR.addNext
                       (JS.prop (JS.prop (JS.prop data "transport") "0") "rtt")
                       (CAS._avgRTT st))),
             (final (ASR.addNext
                       (JS.prop (JS.prop (JS.prop data "transport") "0") "rtt")
                       (CAS._avgRTT st))).
      split; [apply addNext_only_logs|].
      split; [left; eexists; reflexivity|].
      generalize (JS.prop (JS.prop (JS.prop data "transport") "0") "rtt").
      intro v.
      destruct v; cbn; rewrite Hn, Hjvb; cbn;
        unfold bind; rewrite calculateAvgRemoteRTT_run; cbn;
        match goal with
        | |- context [if ?c then _ else _] => destruct c
        end; reflexivity.
  - intros _. exists [], (final (ASR.reset (CAS._avgRTT st))).
    split; [intros e []|].
    split; [right; reflexivity|].
    cbn. rewrite Hn, Hjvb. cbn.
    unfold bind. rewrite calculateAvgRemoteRTT_run. cbn.
    reflexivity.
Qed.

(** A P2P monitor sends no event under the end to end name. *)
Lemma p2p_monitor_no_end2end (st : CAS.t) (env : Env) (data : value) (p : payload) :
  CAS.isP2P st = true ->
  ~ In (SendEvent "stat.avg.end2endrtt" p)
       (trace (CAS._calculateAvgStats env data st)).
Proof.
  intros Hp2p.
  assert (Hname : forall s x,
             SendEvent ("p2p." ++ s) x <> SendEvent "stat.avg.end2endrtt" p).
  { intros s x H. injection H as H _. discriminate H. }
  unfold CAS._calculateAvgStats.
  destruct (JS.truthy data); cbn [negb].
  2: { cbn. intros [H|[]]. discriminate H. }
  destruct (supportsRTTStatistics env).
  - destruct (JS.truthy (JS.prop data "transport")
              && JS.truthy (JS.prop (JS.prop data "transport") "length")).
    + unfold get_member.
      destruct (JS.nullish (JS.prop (JS.prop data "transport") "0")).
      * cbn. tauto.
      * generalize (JS.prop (JS.prop (JS.prop data "transport") "0") "rtt").
        intro v.
        destruct v; cbn;
          destruct (CAS._n st <=? CAS._sampleIdx st + 1); cbn;
          rewrite ?Hp2p; cbn;
          intros H; repeat (destruct H as [H|H]; [try discriminate H|]);
          try contradiction; try (eapply Hname; exact H).
    + cbn. destruct (CAS._n st <=? CAS._sampleIdx st + 1); cbn;
        rewrite ?Hp2p; cbn;
        intros H; repeat (destruct H as [H|H]; [try discriminate H|]);
        try contradiction; try (eapply Hname; exact H).
  - cbn. destruct (CAS._n st <=? CAS._sampleIdx st + 1); cbn; tauto.
Qed.

(** C5: when a sample completes the window of the JVB monitor and round
    trip times are supported, the local average [local] is reported, and
    the end to end event is sent if and only if [local] and the
    cross-participant average (the mean over the map entries whose average
    is not NaN) are both numbers other than NaN, with their sum as its
    value; a local average of 50 with participants at 40 and 60 gives 100;
    the P2P monitor never sends the event. *)
Theorem end2end_rtt_at_boundary :
  (forall (st : CAS.t) (env : Env) (data : value),
      CAS.isP2P st = false ->
      supportsRTTStatistics env = true ->
      JS.truthy data = true ->
      CAS._n st <= CAS._sampleIdx st + 1 ->
      outcome (CAS._calculateAvgStats env data st) = Normal tt ->
      let tr := trace (CAS._calculateAvgStats env data st) in
      let remote := CAS.cross_participant_average (CAS._avgRemoteRTTMap st) in
      exists a : ASR.t,
        let local := ASR.calculate a in
        ((exists v, a = final (ASR.addNext v (CAS._avgRTT st)))
         \/ a = final (ASR.reset (CAS._avgRTT st)))
        /\ In (SendEvent (ASR.name (CAS._avgRTT st)) (ValueField local)) tr
        /\ forall x,
            In (SendEvent "stat.avg.end2endrtt" (Bare x)) tr
            <-> Num.isNaN local = false /\ Num.isNaN remote = false
                /\ x = Num.add local remote)
  /\ trace (Conference.deliver Fixtures.no_parse (Fixtures.env false 2)
              (Conference.ConnectionStats false (Fixtures.tpc false)
                                          (Fixtures.stats 60))
              (Conference.deliver_all Fixtures.no_parse Fixtures.before_boundary
                 (final (Conference.create 2))))
     = [SendEvent "stat.avg.rtt" (ValueField (Num.of_Z 50));
        SendEvent "stat.avg.end2endrtt" (Bare (Num.of_Z 100))]
  /\ (forall (st : CAS.t) (env : Env) (tpc data : value) (p : payload),
         CAS.isP2P st = true ->
         ~ In (SendEvent "stat.avg.end2endrtt" p)
              (trace (CAS._calculateAvgStats env data st))
         /\ ~ In (SendEvent "stat.avg.end2endrtt" p)
                (trace (CAS._onConnectionStats env tpc data st))).
Proof.
  split; [|split].
  - intros st env data Hjvb Hrtt Hdata Hn Hout tr remote.
    destruct (jvb_boundary_trace st env data Hjvb Hrtt Hdata Hn Hout)
      as (pre & a & Hpre & Ha & Htr).
    exists a. cbn zeta. split; [exact Ha|].
    subst tr remote. rewrite Htr. clear Htr. split.
    + apply in_or_app. right. left. reflexivity.
    + intro x. rewrite in_app_iff. split.
      * intros [H|[H|H]].
        -- apply Hpre in H. destruct H as (msg & args & H). discriminate H.
        -- discriminate H.
        -- destruct (Num.isNaN (ASR.calculate a)); [destruct H|].
           destruct (Num.isNaN (CAS.cross_participant_average
                                  (CAS._avgRemoteRTTMap st))); [destruct H|].
           destruct H as [H|[]]. injection H as <-. auto.
      * intros (H1 & H2 & ->). right. right. rewrite H1, H2. left. reflexivity.
  - vm_compute. reflexivity.
  - intros st env tpc data p Hp2p. split.
    + apply p2p_monitor_no_end2end. exact Hp2p.
    + unfold CAS._onConnectionStats, get_member.
      destruct (JS.nullish tpc); [cbn; tauto|].
      unfold bind, this, ret. cbn [outcome final trace app].
      destruct (JS.strict_eq (VBool (CAS.isP2P st)) (JS.prop tpc "isP2P")).
      * apply p2p_monitor_no_end2end. exact Hp2p.
      * cbn. tauto.
Qed.

Lemma end2end_rtt_at_boundary_witness :
  let st := CAS.Make false 2 1 (ASR.Make "stat.avg.rtt" 1 (Num.of_Z 40))
              [("a", ASR.Make "a.stat.rtt" 1 (Num.of_Z 40));
               ("b", ASR.Make "b.stat.rtt" 2 (Num.of_Z 120))] in
  exists a : ASR.t,
    In (SendEvent "stat.avg.rtt" (ValueField (ASR.calculate a)))
       (trace (CAS._calculateAvgStats (Fixtures.env false 2) (Fixtures.stats 60) st)).
Proof.
  intro st.
  destruct end2end_rtt_at_boundary as (H & _ & _).
  assert (Hn : CAS._n st <= CAS._sampleIdx st + 1) by (simpl; lia).
  destruct (H st (Fixtures.env false 2) (Fixtures.stats 60)
              eq_refl eq_refl eq_refl Hn eq_refl) as (a & _ & Hin & _).
  exists a. exact Hin.
Defined.

(** ** Rules for [hoare] *)

Section HoareRules.

Context {S : Type}.

Lemma hoare_ret {A} (a : A) (P : S -> Prop) (Q : A -> S -> Prop) (E : S -> Prop) :
  (forall s, P s -> Q a s) -> hoare P (ret a) Q E.
Proof. intros H s Hs. apply H. exact Hs. Qed.

Lemma hoare_bind {A B} (m : M S A) (k : A -> M S B)
      (P : S -> Prop) (R : A -> S -> Prop) (Q : B -> S -> Prop) (E : S -> Prop) :
  hoare P m R E ->
  (forall a, hoare (R a) (k a) Q E) ->
  hoare P (bind m k) Q E.
Proof.
  intros Hm Hk s Hs. specialize (Hm s Hs). unfold bind.
  destruct (outcome (m s)) as [a|e]; simpl.
  - apply (Hk a). exact Hm.
  - exact Hm.
Qed.

Lemma hoare_this (P : S -> Prop) (Q : S -> S -> Prop) (E : S -> Prop) :
  (forall s, P s -> Q s s) -> hoare P this Q E.
Proof. intros H s Hs. apply H. exact Hs. Qed.

Lemma hoare_assign (s' : S) (P : S -> Prop) (Q : unit -> S -> Prop) (E : S -> Prop) :
  (forall s, P s -> Q tt s') -> hoare P (assign s') Q E.
Proof. intros H s Hs. exact (H s Hs). Qed.

Lemma hoare_emit (e : effect) (P : S -> Prop) (Q : unit -> S -> Prop) (E : S -> Prop) :
  (forall s, P s -> Q tt s) -> hoare P (emit e) Q E.
Proof. intros H s Hs. exact (H s Hs). Qed.

Lemma hoare_throw {A} (e : exn) (P : S -> Prop) (Q : A -> S -> Prop) (E : S -> Prop) :
  (forall s, P s -> E s) -> hoare P (throw e) Q E.
Proof. intros H s Hs. exact (H s Hs). Qed.

Lemma hoare_if {A} (b : bool) (m1 m2 : M S A)
      (P : S -> Prop) (Q : A -> S -> Prop) (E : S -> Prop) :
  (b = true -> hoare P m1 Q E) ->
  (b = false -> hoare P m2 Q E) ->
  hoare P (if b then m1 else m2) Q E.
Proof. destruct b; auto. Qed.

Lemma hoare_conseq {A} (m : M S A) (P P' : S -> Prop)
      (Q Q' : A -> S -> Prop) (E E' : S -> Prop) :
  hoare P' m Q' E' ->
  (forall s, P s -> P' s) ->
  (forall a s, Q' a s -> Q a s) ->
  (forall s, E' s -> E s) ->
  hoare P m Q E.
Proof.
  intros H HP HQ HE s Hs. specialize (H s (HP s Hs)).
  destruct (outcome (m s)); auto.
Qed.

Lemma hoare_member {T A} (get : S -> T) (set : T -> S -> S) (m : M T A)
      (P' : T -> Prop) (Q' : A -> T -> Prop) (E' : T -> Prop)
      (P : S -> Prop) (Q : A -> S -> Prop) (E : S -> Prop) :
  hoare P' m Q' E' ->
  (forall s, P s -> P' (get s)) ->
  (forall s t a, P s -> Q' a t -> Q a (set t s)) ->
  (forall s t, P s -> E' t -> E (set t s)) ->
  hoare P (member get set m) Q E.
Proof.
  intros Hm HP HQ HE s Hs. specialize (Hm (get s) (HP s Hs)).
  unfold member. simpl.
  destruct (outcome (m (get s))); eauto.
Qed.

(** With the current state at hand. *)
Lemma hoare_pre {A} (m : M S A) (P : S -> Prop) (Q : A -> S -> Prop) (E : S -> Prop) :
  (forall s0, P s0 -> hoare (fun s => s = s0) m Q E) -> hoare P m Q E.
Proof. intros H s Hs. exact (H s Hs s eq_refl). Qed.

Lemma keeps_ret {A} (a : A) (I : S -> Prop) : keeps I (ret a).
Proof. apply hoare_ret. auto. Qed.

Lemma keeps_bind {A B} (m : M S A) (k : A -> M S B) (I : S -> Prop) :
  keeps I m -> (forall a, keeps I (k a)) -> keeps I (bind m k).
Proof. intros Hm Hk. eapply hoare_bind; [exact Hm|exact Hk]. Qed.

Lemma keeps_emit (e : effect) (I : S -> Prop) : keeps I (emit e).
Proof. apply hoare_emit. auto. Qed.

Lemma keeps_throw {A} (e : exn) (I : S -> Prop) : keeps I (@throw S A e).
Proof. apply hoare_throw. auto. Qed.

Lemma keeps_if {A} (b : bool) (m1 m2 : M S A) (I : S -> Prop) :
  keeps I m1 -> keeps I m2 -> keeps I (if b then m1 else m2).
Proof. destruct b; auto. Qed.

Lemma keeps_final {A} (m : M S A) (I : S -> Prop) (s : S) :
  keeps I m -> I s -> I (final (m s)).
Proof.
  intros H Hs. specialize (H s Hs). destruct (outcome (m s)); exact H.
Qed.

End HoareRules.

(** ** The averages under [hoare] *)

Lemma addNext_counted (v : value) :
  hoare Invariant.counted (ASR.addNext v)
        (fun _ => Invariant.counted) (fun _ => False).
Proof.
  intros a Ha. rewrite addNext_returns.
  pose proof (addNext_count v a). unfold Invariant.counted in *. lia.
Qed.

Lemma report_unchanged (isP2P : bool) (a0 : ASR.t) :
  hoare (fun a => a = a0) (ASR.report isP2P) (fun _ a => a = a0) (fun _ => False).
Proof. intros a ->. reflexivity. Qed.

Lemma reset_counted (P : ASR.t -> Prop) :
  hoare P ASR.reset (fun _ => Invariant.counted) (fun _ => False).
Proof. intros a _. simpl. unfold Invariant.counted. simpl. lia. Qed.

Section MoreRules.

Context {S : Type}.

Lemma hoare_bind_this {B} (k : S -> M S B)
      (P : S -> Prop) (Q : B -> S -> Prop) (E : S -> Prop) :
  (forall s0, P s0 -> hoare (fun s => s = s0) (k s0) Q E) ->
  hoare P (bind this k) Q E.
Proof.
  intros H s Hs. specialize (H s Hs s eq_refl). unfold bind, this. simpl.
  destruct (outcome (k s s)); exact H.
Qed.

Lemma hoare_bind_assign {B} (s1 : S) (k : unit -> M S B)
      (P : S -> Prop) (Q : B -> S -> Prop) (E : S -> Prop) :
  hoare (fun s => s = s1) (k tt) Q E ->
  hoare P (bind (assign s1) k) Q E.
Proof.
  intros H s _. specialize (H s1 eq_refl). unfold bind, assign. simpl.
  destruct (outcome (k tt s1)); exact H.
Qed.

Lemma keeps_intro {A} (m : M S A) (I : S -> Prop) :
  (forall s, I s -> I (final (m s))) -> keeps I m.
Proof.
  intros H s Hs. specialize (H s Hs). destruct (outcome (m s)); exact H.
Qed.

Lemma keeps_get_member (v : value) (k : string) (I : S -> Prop) :
  keeps I (@get_member S v k).
Proof.
  unfold get_member. apply keeps_if; [apply keeps_throw|apply keeps_ret].
Qed.

Lemma keeps_logger_error (msg : string) (args : list value) (I : S -> Prop) :
  keeps I (@logger_error S msg args).
Proof. apply keeps_emit. Qed.

Lemma keeps_sendEvent (name : string) (p : payload) (I : S -> Prop) :
  keeps I (@sendEvent S name p).
Proof. apply keeps_emit. Qed.

Lemma steady_intro {A} (m : M S A) (I : S -> Prop) :
  (forall s, I s -> exists a, outcome (m s) = Normal a) ->
  (forall s, I s -> I (final (m s))) ->
  steady I m.
Proof.
  intros Hr Hk E s Hs. destruct (Hr s Hs) as [a ->]. apply Hk. exact Hs.
Qed.

Lemma steady_ret {A} (a : A) (I : S -> Prop) : steady I (ret a).
Proof. intro E. apply hoare_ret. auto. Qed.

Lemma steady_bind {A B} (m : M S A) (k : A -> M S B) (I : S -> Prop) :
  steady I m -> (forall a, steady I (k a)) -> steady I (bind m k).
Proof. intros Hm Hk E. eapply hoare_bind; [apply Hm|intro a; apply Hk]. Qed.

Lemma steady_emit (e : effect) (I : S -> Prop) : steady I (emit e).
Proof. intro E. apply hoare_emit. auto. Qed.

Lemma steady_if {A} (b : bool) (m1 m2 : M S A) (I : S -> Prop) :
  steady I m1 -> steady I m2 -> steady I (if b then m1 else m2).
Proof. destruct b; auto. Qed.

Lemma steady_keeps {A} (m : M S A) (I : S -> Prop) : steady I m -> keeps I m.
Proof. intro H. apply H. Qed.

Lemma steady_hoare {A} (m : M S A) (I E : S -> Prop) :
  steady I m -> hoare I m (fun _ => I) E.
Proof. intro H. apply H. Qed.

(** A call that returns and keeps [I], run from a known state in [I]. *)
Lemma steady_from {A} (m : M S A) (I : S -> Prop) (s0 : S) (E : S -> Prop) :
  steady I m -> I s0 -> hoare (fun s => s = s0) m (fun _ => I) E.
Proof. intros H H0 s ->. apply H. exact H0. Qed.

Lemma keeps_from {A} (m : M S A) (I : S -> Prop) (s0 : S) :
  keeps I m -> I s0 -> hoare (fun s => s = s0) m (fun _ => I) I.
Proof. intros H H0 s ->. apply H. exact H0. Qed.

Lemma keeps_bind_this {B} (k : S -> M S B) (I : S -> Prop) :
  (forall s0, I s0 -> hoare (fun s => s = s0) (k s0) (fun _ => I) I) ->
  keeps I (bind this k).
Proof. apply hoare_bind_this. Qed.

Lemma assign_from (s0 s1 : S) (I E : S -> Prop) :
  I s1 -> hoare (fun s => s = s0) (assign s1) (fun _ => I) E.
Proof. intros H s _. exact H. Qed.

End MoreRules.

(** ** ConnectionAvgStats keeps its invariant *)

Section MonitorInvariant.

Variable n : Z.

Local Abbreviation Ok := (Invariant.monitor_ok n).

Lemma monitor_addNext_keeps (v : value) :
  keeps Ok (member CAS._avgRTT CAS.set_avgRTT (ASR.addNext v)).
Proof.
  eapply hoare_member; [apply addNext_counted| | |].
  - intros s Hs. apply Hs.
  - intros s t a Hs Ht. unfold Ok, Invariant.monitor_ok in *. simpl. tauto.
  - intros s t _ [].
Qed.

Lemma monitor_reset_avg_keeps :
  keeps Ok (member CAS._avgRTT CAS.set_avgRTT ASR.reset).
Proof.
  eapply hoare_member; [apply (reset_counted (fun _ => True))| | |].
  - intros s _. exact Logic.I.
  - intros s t a Hs Ht. unfold Ok, Invariant.monitor_ok in *. simpl. tauto.
  - intros s t _ [].
Qed.

Lemma monitor_report_steady_n (b : bool) :
  steady (fun m => CAS._n m = n)
         (member CAS._avgRTT CAS.set_avgRTT (ASR.report b)).
Proof. apply steady_intro; intros s Hs; [exists tt; reflexivity|exact Hs]. Qed.

Lemma monitor_remoteRTT_steady_n :
  steady (fun m => CAS._n m = n) CAS._calculateAvgRemoteRTT.
Proof.
  apply steady_intro; intros s Hs; rewrite calculateAvgRemoteRTT_run.
  - eexists. reflexivity.
  - exact Hs.
Qed.

Lemma monitor_resetAvgStats_ok (E : CAS.t -> Prop) :
  0 < n -> hoare (fun m => CAS._n m = n) CAS._resetAvgStats (fun _ => Ok) E.
Proof.
  intros Hn m Hm. rewrite monitor_reset. unfold Ok, Invariant.monitor_ok.
  simpl. unfold Invariant.counted. simpl. repeat split; try lia. constructor.
Qed.

Lemma monitor_calculateAvgStats_keeps (env : Env) (data : value) :
  keeps Ok (CAS._calculateAvgStats env data).
Proof.
  unfold CAS._calculateAvgStats.
  apply keeps_if; [apply keeps_logger_error|].
  apply keeps_bind.
  { apply keeps_if; [|apply keeps_ret].
    apply keeps_if; [|apply monitor_reset_avg_keeps].
    apply keeps_bind; [apply keeps_get_member|].
    intro rtt. apply monitor_addNext_keeps. }
  intros _. apply hoare_bind_this. intros s0 Hs0.
  apply hoare_bind_assign. apply hoare_bind_this. intros s1 ->.
  destruct Hs0 as (Hn & Hidx & Hrtt & Hmap).
  destruct (Z.leb_spec (CAS._n (CAS.set_sampleIdx (CAS._sampleIdx s0 + 1) s0))
                       (CAS._sampleIdx (CAS.set_sampleIdx (CAS._sampleIdx s0 + 1) s0)))
    as [Hle|Hlt]; simpl in *.
  - eapply hoare_bind with (R := fun _ m => CAS._n m = n).
    + apply steady_from; [|exact Hn].
      apply steady_if; [|apply steady_ret].
      apply steady_bind; [apply monitor_report_steady_n|]. intros _.
      apply steady_if; [|apply steady_ret].
      apply steady_bind; [apply monitor_remoteRTT_steady_n|]. intros avgRemoteRTT.
      intro E. apply hoare_bind_this. intros s2 Hs2.
      eapply hoare_conseq with (E' := E);
        [apply (steady_if _ _ _ (fun m => CAS._n m = n)
                  (steady_emit _ _) (steady_ret tt _))
        |intros s ->; exact Hs2|auto|auto].
    + intros _. apply monitor_resetAvgStats_ok. lia.
  - apply hoare_ret. intros s ->.
    unfold Ok, Invariant.monitor_ok. simpl. repeat split; try assumption; lia.
Qed.

Lemma forall_delete {V} (P : string * V -> Prop) (k : string) (m : JSMap.t V) :
  Forall P m -> Forall P (JSMap.delete k m).
Proof.
  intro H. apply Forall_forall. intros e He.
  apply filter_In in He. destruct He as [He _].
  revert e He. apply Forall_forall. exact H.
Qed.

Lemma forall_set {V} (P : string * V -> Prop) (k : string) (v : V) (m : JSMap.t V) :
  (forall k', P (k', v)) -> Forall P m -> Forall P (JSMap.set k v m).
Proof.
  intros Hv H. induction H as [|[k' v'] m Hx Hm IH]; simpl.
  - constructor; [apply Hv|constructor].
  - destruct (String.eqb k k'); constructor; auto.
Qed.

Lemma forall_get {V} (P : string * V -> Prop) (k : string) (v : V) (m : JSMap.t V) :
  Forall P m -> JSMap.get k m = Some v -> exists k', P (k', v).
Proof.
  intros H. induction H as [|[k' v'] m Hx Hm IH]; simpl; [discriminate|].
  destruct (String.eqb k k').
  - intros [= ->]. eauto.
  - exact IH.
Qed.

Lemma monitor_set_map_ok (m : CAS.t) (entries : JSMap.t ASR.t) :
  Ok m ->
  Forall (fun e => Invariant.counted (snd e)) entries ->
  Ok (CAS.set_avgRemoteRTTMap entries m).
Proof.
  intros (Hn & Hidx & Hrtt & _) H. unfold Ok, Invariant.monitor_ok. simpl. tauto.
Qed.

Lemma monitor_onUserLeft_keeps (id : string) : keeps Ok (CAS._onUserLeft id).
Proof.
  apply keeps_intro. intros s Hs. simpl.
  apply monitor_set_map_ok; [exact Hs|].
  apply forall_delete. apply Hs.
Qed.

Lemma monitor_on_entry_keeps (id : string) (v : value) :
  keeps Ok (CAS.on_entry id (ASR.addNext v)).
Proof.
  unfold CAS.on_entry. apply keeps_bind_this. intros s0 Hs0.
  destruct (JSMap.get id (CAS._avgRemoteRTTMap s0)) as [rttAvg|] eqn:Hget.
  - eapply hoare_member; [apply addNext_counted| | |].
    + intros s ->. destruct Hs0 as (_ & _ & _ & Hmap).
      destruct (forall_get _ _ _ _ Hmap Hget) as [k' Hk]. exact Hk.
    + intros s t a -> Ht. apply monitor_set_map_ok; [exact Hs0|].
      apply forall_set; [intros; exact Ht|apply Hs0].
    + intros s t _ [].
  - apply keeps_from; [apply keeps_throw|exact Hs0].
Qed.

Lemma monitor_processRemoteStats_keeps (id : string) (data : value) :
  keeps Ok (CAS._processRemoteStats id data).
Proof.
  unfold CAS._processRemoteStats.
  apply keeps_bind; [apply keeps_get_member|]. intro jvbRTT.
  apply keeps_bind_this. intros s0 Hs0.
  eapply hoare_bind with (R := fun _ => Ok).
  - destruct (negb (JSMap.has id (CAS._avgRemoteRTTMap s0))
              && (JS.typeof jvbRTT =? "number")%string).
    + apply assign_from. apply monitor_set_map_ok; [exact Hs0|].
      apply forall_set; [|apply Hs0].
      intros k'. unfold Invariant.counted. simpl. lia.
    + apply keeps_from; [apply keeps_ret|exact Hs0].
  - intros _. apply keeps_if; [apply monitor_on_entry_keeps|].
    apply keeps_if; [|apply keeps_ret].
    apply keeps_bind_this. intros s1 Hs1.
    apply assign_from. apply monitor_set_map_ok; [exact Hs1|].
    apply forall_delete. apply Hs1.
Qed.

Lemma monitor_onConnectionStats_keeps (env : Env) (tpc stats : value) :
  keeps Ok (CAS._onConnectionStats env tpc stats).
Proof.
  unfold CAS._onConnectionStats.
  apply keeps_bind_this. intros s0 Hs0. apply keeps_from; [|exact Hs0].
  apply keeps_bind; [apply keeps_get_member|]. intro tpc_isP2P.
  apply keeps_if; [apply monitor_calculateAvgStats_keeps|apply keeps_ret].
Qed.

Lemma monitor_resetAvgStats_keeps : keeps Ok CAS._resetAvgStats.
Proof.
  apply keeps_intro. intros s Hs.
  assert (Hr := monitor_resetAvgStats_ok Ok).
  destruct Hs as (Hn & Hidx & _).
  specialize (Hr ltac:(lia) s Hn). rewrite monitor_reset in *. exact Hr.
Qed.

Lemma monitor_constructor_ok (isP2P : bool) :
  0 < n -> Ok (final (CAS.constructor isP2P n)).
Proof.
  intro Hn. unfold Ok, Invariant.monitor_ok, Invariant.counted. simpl.
  repeat split; try lia. constructor.
Qed.

End MonitorInvariant.

(** ** AvgRTPStatsReporter keeps its invariant *)

Section ReporterInvariant.

Variable n : Z.
Variable J : Z -> Prop.

Local Abbreviation Ok := (Invariant.indexed J n).

Ltac average_member :=
  split;
  [ intros o Ho; unfold Ok, Invariant.indexed, Invariant.parts_ok in Ho; tauto
  | intros o a Ho Ha; unfold Ok, Invariant.indexed, Invariant.parts_ok in *;
    simpl; tauto ].

Lemma member_BitrateUp :
  Invariant.average_member n J Reporter._avgBitrateUp Reporter.set_avgBitrateUp.
Proof. average_member. Qed.
Lemma member_BitrateDown :
  Invariant.average_member n J Reporter._avgBitrateDown Reporter.set_avgBitrateDown.
Proof. average_member. Qed.
Lemma member_BandwidthUp :
  Invariant.average_member n J Reporter._avgBandwidthUp Reporter.set_avgBandwidthUp.
Proof. average_member. Qed.
Lemma member_BandwidthDown :
  Invariant.average_member n J Reporter._avgBandwidthDown Reporter.set_avgBandwidthDown.
Proof. average_member. Qed.
Lemma member_PacketLossTotal :
  Invariant.average_member n J Reporter._avgPacketLossTotal Reporter.set_avgPacketLossTotal.
Proof. average_member. Qed.
Lemma member_PacketLossUp :
  Invariant.average_member n J Reporter._avgPacketLossUp Reporter.set_avgPacketLossUp.
Proof. average_member. Qed.
Lemma member_PacketLossDown :
  Invariant.average_member n J Reporter._avgPacketLossDown Reporter.set_avgPacketLossDown.
Proof. average_member. Qed.
Lemma member_RemoteFPS :
  Invariant.average_member n J Reporter._avgRemoteFPS Reporter.set_avgRemoteFPS.
Proof. average_member. Qed.
Lemma member_LocalFPS :
  Invariant.average_member n J Reporter._avgLocalFPS Reporter.set_avgLocalFPS.
Proof. average_member. Qed.
Lemma member_CQ :
  Invariant.average_member n J Reporter._avgCQ Reporter.set_avgCQ.
Proof. average_member. Qed.

Lemma addNext_steady get set (v : value) :
  Invariant.average_member n J get set -> steady Ok (member get set (ASR.addNext v)).
Proof.
  intros [Hget Hset] E.
  eapply hoare_member; [apply addNext_counted|exact Hget| |].
  - intros s t a Hs Ht. apply Hset; assumption.
  - intros s t _ [].
Qed.

Lemma reset_steady get set :
  Invariant.average_member n J get set -> steady Ok (member get set ASR.reset).
Proof.
  intros [Hget Hset] E.
  eapply hoare_member; [apply (reset_counted (fun _ => True))| | |].
  - intros s _. exact Logic.I.
  - intros s t a Hs Ht. apply Hset; assumption.
  - intros s t _ [].
Qed.

Lemma report_steady get set (b : bool) :
  Invariant.average_member n J get set -> steady Ok (member get set (ASR.report b)).
Proof.
  intros [Hget Hset]. apply steady_intro; intros s Hs.
  - exists tt. reflexivity.
  - simpl. apply Hset; [exact Hs|apply Hget; exact Hs].
Qed.

Lemma calculateAvgVideoFps_keeps parseInt10 env frameRate isLocal :
  keeps Ok (Reporter._calculateAvgVideoFps parseInt10 env frameRate isLocal).
Proof.
  apply keeps_intro. intros s Hs. unfold Reporter._calculateAvgVideoFps.
  destruct (Reporter.fps_loop parseInt10 frameRate (myUserId env) isLocal
              (JS.keys frameRate) 0 Num.zero) as [[c f]|e]; exact Hs.
Qed.

End ReporterInvariant.

Create HintDb members.

#[local] Hint Resolve member_BitrateUp member_BitrateDown member_BandwidthUp
  member_BandwidthDown member_PacketLossTotal member_PacketLossUp
  member_PacketLossDown member_RemoteFPS member_LocalFPS member_CQ : members.

Ltac steady_step :=
  first
    [ apply steady_ret
    | apply steady_if
    | apply addNext_steady; solve [auto with members]
    | apply report_steady; solve [auto with members]
    | apply reset_steady; solve [auto with members]
    | apply steady_bind; [|intro] ].

Ltac keeps_step :=
  lazymatch goal with
  | |- keeps _ (bind this _) => fail
  | |- keeps _ (bind _ _) => apply keeps_bind; [|intro]
  | |- keeps _ (if _ then _ else _) => apply keeps_if
  | |- keeps _ (ret _) => apply keeps_ret
  | |- keeps _ (logger_error _ _) => apply keeps_logger_error
  | |- keeps _ (Reporter._calculateAvgVideoFps _ _ _ _) =>
      apply calculateAvgVideoFps_keeps
  | |- keeps _ (member _ _ (ASR.addNext _)) =>
      apply steady_keeps; apply addNext_steady; solve [auto with members]
  end.

Section ReporterHandlers.

Variable n : Z.

Lemma resetAvgStats_body_ok (J : Z -> Prop) (E : Reporter.fields -> Prop) :
  0 < n ->
  hoare (Invariant.indexed J n) Reporter.resetAvgStats_body
        (fun _ => Invariant.members_ok n) E.
Proof.
  intro Hn. unfold Reporter.resetAvgStats_body.
  repeat (eapply hoare_bind;
          [apply reset_steady; solve [auto with members]|intros ?; cbv beta]).
  apply hoare_bind_this. intros s0 Hs0. apply assign_from.
  destruct Hs0 as [_ Hparts]. split; [simpl; lia|].
  unfold Invariant.parts_ok in *. simpl. tauto.
Qed.

Lemma keeps_initialized {A} (first : string) (body : M Reporter.fields A) :
  keeps (Invariant.members_ok n) body ->
  keeps (Invariant.reporter_ok n) (Reporter.initialized first body).
Proof.
  intros Hbody. apply keeps_intro. intros r (Hn & o & Hm & Ho).
  unfold Reporter.initialized. rewrite Hm. simpl.
  split; [exact Hn|]. eexists. split; [reflexivity|].
  apply keeps_final; assumption.
Qed.

Lemma calculateAvgStats_keeps parseInt10 env data :
  keeps (Invariant.reporter_ok n)
        (Reporter._calculateAvgStats parseInt10 env data).
Proof.
  unfold Reporter._calculateAvgStats.
  apply keeps_bind_this. intros self Hself. apply keeps_from; [|exact Hself].
  destruct Hself as (Hn & _). apply keeps_initialized.
  cbv zeta. repeat keeps_step.
  apply hoare_bind_this. intros s0 Hs0.
  apply hoare_bind_assign. apply hoare_bind_this. intros s1 ->.
  assert (Hb : Invariant.bumped n (Reporter.set_sampleIdx (Reporter._sampleIdx s0 + 1) s0)).
  { destruct Hs0 as [Hidx Hparts]. split; [simpl; lia|].
    unfold Invariant.parts_ok in *. simpl. tauto. }
  rewrite Hn.
  destruct (Z.leb_spec n (Reporter._sampleIdx
                            (Reporter.set_sampleIdx (Reporter._sampleIdx s0 + 1) s0)))
    as [Hle|Hlt].
  - eapply hoare_conseq with (P' := Invariant.bumped n);
      [|intros s ->; exact Hb|intros ? s H; exact H|intros s H; exact H].
    unfold Invariant.bumped.
    repeat lazymatch goal with
           | |- hoare _ (bind _ _) _ _ =>
               eapply hoare_bind;
               [apply steady_hoare; repeat steady_step|intros ?; cbv beta]
           end.
    apply resetAvgStats_body_ok. destruct Hb as [Hidx _]. lia.
  - apply hoare_ret. intros s ->. destruct Hb as [Hidx Hparts].
    split; [|exact Hparts]. simpl in *. lia.
Qed.

Lemma onP2PStatusChanged_keeps :
  keeps (Invariant.reporter_ok n) Reporter._onP2PStatusChanged.
Proof.
  apply keeps_intro. intros [n' members] (Hn & o & Hm & Hidx & Hparts).
  simpl in Hn, Hm. subst n' members. rewrite onP2PStatusChanged_run. simpl.
  split; [reflexivity|]. eexists. split; [reflexivity|].
  assert (0 < n) by lia.
  unfold Invariant.parts_ok in Hparts.
  destruct Hparts as (? & ? & ? & ? & ? & ? & ? & ? & ? & ? & Hjvb & Hp2p).
  split; [simpl; lia|].
  unfold Invariant.parts_ok, Invariant.counted in *. simpl.
  repeat (split; [lia|]). split.
  - apply (keeps_final CAS._resetAvgStats _ _ (monitor_resetAvgStats_keeps n) Hjvb).
  - apply (keeps_final CAS._resetAvgStats _ _ (monitor_resetAvgStats_keeps n) Hp2p).
Qed.

Lemma jvb_member_keeps {A} (m : M CAS.t A) :
  keeps (Invariant.monitor_ok n) m ->
  keeps (Invariant.members_ok n)
        (member Reporter.jvbStatsMonitor Reporter.set_jvbStatsMonitor m).
Proof.
  intro Hm. eapply hoare_member; [exact Hm| | |].
  - intros s Hs. apply Hs.
  - intros s t a (Hidx & Hparts) Ht. split; [exact Hidx|].
    unfold Invariant.parts_ok in *. simpl. tauto.
  - intros s t (Hidx & Hparts) Ht. split; [exact Hidx|].
    unfold Invariant.parts_ok in *. simpl. tauto.
Qed.

Lemma p2p_member_keeps {A} (m : M CAS.t A) :
  keeps (Invariant.monitor_ok n) m ->
  keeps (Invariant.members_ok n)
        (member Reporter.p2pStatsMonitor Reporter.set_p2pStatsMonitor m).
Proof.
  intro Hm. eapply hoare_member; [exact Hm| | |].
  - intros s Hs. apply Hs.
  - intros s t a (Hidx & Hparts) Ht. split; [exact Hidx|].
    unfold Invariant.parts_ok in *. simpl. tauto.
  - intros s t (Hidx & Hparts) Ht. split; [exact Hidx|].
    unfold Invariant.parts_ok in *. simpl. tauto.
Qed.

Lemma handler_keeps parseInt10 env (d : Conference.delivery) :
  keeps (Invariant.reporter_ok n) (Conference.handler parseInt10 env d).
Proof.
  destruct d as [data| |[|] tpc stats|id|id data]; simpl.
  - apply calculateAvgStats_keeps.
  - apply onP2PStatusChanged_keeps.
  - apply keeps_initialized, p2p_member_keeps, monitor_onConnectionStats_keeps.
  - apply keeps_initialized, jvb_member_keeps, monitor_onConnectionStats_keeps.
  - apply keeps_initialized, jvb_member_keeps, monitor_onUserLeft_keeps.
  - apply keeps_initialized, jvb_member_keeps, monitor_processRemoteStats_keeps.
Qed.

Lemma deliver_keeps parseInt10 env (d : Conference.delivery) (c : Conference.t) :
  Invariant.conference_ok n c ->
  Invariant.conference_ok n (final (Conference.deliver parseInt10 env d c)).
Proof.
  intro Hc. unfold Conference.deliver.
  destruct (Conference.registered (Conference.target d) (Conference.listeners c)).
  - unfold Conference.call, Invariant.conference_ok. simpl.
    apply keeps_final; [apply handler_keeps|exact Hc].
  - exact Hc.
Qed.

Lemma deliver_all_keeps parseInt10 (ds : list (Env * Conference.delivery))
      (c : Conference.t) :
  Invariant.conference_ok n c ->
  Invariant.conference_ok n (Conference.deliver_all parseInt10 ds c).
Proof.
  revert c. induction ds as [|[env d] ds IH]; intros c Hc.
  - exact Hc.
  - apply IH. apply deliver_keeps. exact Hc.
Qed.

Lemma create_ok : 0 < n -> Invariant.conference_ok n (final (Conference.create n)).
Proof.
  intro Hn. unfold Conference.create, Reporter.constructor.
  replace (0 <? n) with true by (symmetry; apply Z.ltb_lt; exact Hn).
  split; [reflexivity|]. eexists. split; [reflexivity|].
  split; [simpl; lia|].
  unfold Invariant.parts_ok, Invariant.counted. simpl.
  repeat (split; [lia|]).
  split; apply monitor_constructor_ok; exact Hn.
Qed.

End ReporterHandlers.

Lemma forall_values (P : ASR.t -> Prop) (m : JSMap.t ASR.t) :
  Forall (fun e => P (snd e)) m -> Forall P (JSMap.values m).
Proof.
  intro H. unfold JSMap.values. apply Forall_map. exact H.
Qed.

(** C10: an enabled reporter ([n > 0]), after any sequence of deliveries
    (each listener having returned or thrown), has its own sample index
    and the sample index of each monitor in [0, n), and every average it
    holds has a count of at least 0. *)
Theorem sample_index_stays_in_window
        (parseInt10 : value -> number) (n : Z)
        (ds : list (Env * Conference.delivery)) :
  0 < n ->
  let c := Conference.deliver_all parseInt10 ds (final (Conference.create n)) in
  exists o,
    Conference.reporter c = Reporter.Make n (Some o)
    /\ 0 <= Reporter._sampleIdx o < n
    /\ 0 <= CAS._sampleIdx (Reporter.jvbStatsMonitor o) < n
    /\ 0 <= CAS._sampleIdx (Reporter.p2pStatsMonitor o) < n
    /\ Forall (fun a => 0 <= ASR.count a) (Invariant.all_averages o).
Proof.
  intros Hn c.
  assert (Hc : Invariant.conference_ok n c).
  { apply deliver_all_keeps. apply create_ok. exact Hn. }
  destruct Hc as (Hrn & o & Hm & Hidx & Hparts).
  exists o. split.
  { destruct (Conference.reporter c) as [n' members]. simpl in *. congruence. }
  split; [exact Hidx|].
  destruct Hparts as (? & ? & ? & ? & ? & ? & ? & ? & ? & ? & Hjvb & Hp2p).
  destruct Hjvb as (_ & Hj & Hjr & Hjm). destruct Hp2p as (_ & Hp & Hpr & Hpm).
  split; [exact Hj|]. split; [exact Hp|].
  unfold Invariant.all_averages. apply Forall_app. split.
  - repeat (constructor; [assumption|]). constructor.
  - apply Forall_app. split; apply forall_values; assumption.
Qed.

Lemma sample_index_stays_in_window_witness :
  exists o,
    Conference.reporter
      (Conference.deliver_all Fixtures.no_parse
         [(Fixtures.env false 1, Conference.LocalStatsUpdated (Fixtures.sample 100 5));
          (Fixtures.env false 1, Conference.LocalStatsUpdated (Fixtures.sample 200 5));
          (Fixtures.env false 1, Conference.LocalStatsUpdated (Fixtures.sample 300 5))]
         (final (Conference.create 3)))
    = Reporter.Make 3 (Some o)
    /\ 0 <= Reporter._sampleIdx o < 3.
Proof.
  destruct (sample_index_stays_in_window Fixtures.no_parse 3
              [(Fixtures.env false 1, Conference.LocalStatsUpdated (Fixtures.sample 100 5));
               (Fixtures.env false 1, Conference.LocalStatsUpdated (Fixtures.sample 200 5));
               (Fixtures.env false 1, Conference.LocalStatsUpdated (Fixtures.sample 300 5))]
              ltac:(lia))
    as (o & Hr & Hidx & _).
  exists o. split; [exact Hr|exact Hidx].
Defined.

(** ** No handler adds or removes a listener *)

Section ListenerRules.

Context {S : Type}.

Lemma kl_ret {A} (a : A) : keeps_listeners (@ret S A a).
Proof. intros s e []. Qed.

Lemma kl_this : keeps_listeners (@this S).
Proof. intros s e []. Qed.

Lemma kl_assign (s1 : S) : keeps_listeners (assign s1).
Proof. intros s e []. Qed.

Lemma kl_throw {A} (x : exn) : keeps_listeners (@throw S A x).
Proof. intros s e []. Qed.

Lemma kl_bind {A B} (m : M S A) (k : A -> M S B) :
  keeps_listeners m -> (forall a, keeps_listeners (k a)) ->
  keeps_listeners (bind m k).
Proof.
  intros Hm Hk s e. unfold bind.
  destruct (outcome (m s)) as [a|x] eqn:E; simpl.
  - intro He. apply in_app_or in He. destruct He as [He|He].
    + exact (Hm s e He).
    + exact (Hk a _ e He).
  - apply Hm.
Qed.

Lemma kl_if {A} (b : bool) (m1 m2 : M S A) :
  keeps_listeners m1 -> keeps_listeners m2 ->
  keeps_listeners (if b then m1 else m2).
Proof. destruct b; auto. Qed.

Lemma kl_member {T A} (get : S -> T) (set : T -> S -> S) (m : M T A) :
  keeps_listeners m -> keeps_listeners (member get set m).
Proof. intros H s e He. exact (H (get s) e He). Qed.

Lemma kl_logger_error (msg : string) (args : list value) :
  keeps_listeners (@logger_error S msg args).
Proof. intros s e [<-|[]]. exact Logic.I. Qed.

Lemma kl_logger_debug (msg : string) : keeps_listeners (@logger_debug S msg).
Proof. intros s e [<-|[]]. exact Logic.I. Qed.

Lemma kl_sendEvent (name : string) (p : payload) :
  keeps_listeners (@sendEvent S name p).
Proof. intros s e [<-|[]]. exact Logic.I. Qed.

Lemma kl_get_member (v : value) (k : string) : keeps_listeners (@get_member S v k).
Proof. unfold get_member. apply kl_if; [apply kl_throw|apply kl_ret]. Qed.

End ListenerRules.

Lemma kl_addNext (v : value) : keeps_listeners (ASR.addNext v).
Proof.
  intros a e He. destruct (addNext_only_logs v a e He) as (msg & args & ->).
  exact Logic.I.
Qed.

Lemma kl_report (b : bool) : keeps_listeners (ASR.report b).
Proof. intros a e [<-|[]]. exact Logic.I. Qed.

Lemma kl_reset : keeps_listeners ASR.reset.
Proof. intros a e []. Qed.

Lemma kl_remoteRTT : keeps_listeners CAS._calculateAvgRemoteRTT.
Proof. intros s e. rewrite calculateAvgRemoteRTT_run. intros []. Qed.

Lemma kl_fps parseInt10 env frameRate isLocal :
  keeps_listeners (Reporter._calculateAvgVideoFps parseInt10 env frameRate isLocal).
Proof.
  intros s e. unfold Reporter._calculateAvgVideoFps.
  destruct (Reporter.fps_loop parseInt10 frameRate (myUserId env) isLocal
              (JS.keys frameRate) 0 Num.zero) as [[k f]|x]; intros [].
Qed.

Lemma kl_initialized {A} (first : string) (body : M Reporter.fields A) :
  keeps_listeners body -> keeps_listeners (Reporter.initialized first body).
Proof.
  intros H r e. unfold Reporter.initialized.
  destruct (Reporter.members r) as [o|]; simpl; [apply H|intros []].
Qed.

Ltac kl_step :=
  lazymatch goal with
  | |- keeps_listeners (bind _ _) => apply kl_bind; [|intro]
  | |- keeps_listeners (if _ then _ else _) => apply kl_if
  | |- keeps_listeners (match ?x with Some _ => _ | None => _ end) => destruct x
  | |- keeps_listeners (ret _) => apply kl_ret
  | |- keeps_listeners this => apply kl_this
  | |- keeps_listeners (assign _) => apply kl_assign
  | |- keeps_listeners (throw _) => apply kl_throw
  | |- keeps_listeners (logger_error _ _) => apply kl_logger_error
  | |- keeps_listeners (logger_debug _) => apply kl_logger_debug
  | |- keeps_listeners (sendEvent _ _) => apply kl_sendEvent
  | |- keeps_listeners (get_member _ _) => apply kl_get_member
  | |- keeps_listeners (member _ _ _) => apply kl_member
  | |- keeps_listeners (Reporter.initialized _ _) => apply kl_initialized
  | |- keeps_listeners (ASR.addNext _) => apply kl_addNext
  | |- keeps_listeners (ASR.report _) => apply kl_report
  | |- keeps_listeners ASR.reset => apply kl_reset
  | |- keeps_listeners CAS._calculateAvgRemoteRTT => apply kl_remoteRTT
  | |- keeps_listeners (Reporter._calculateAvgVideoFps _ _ _ _) => apply kl_fps
  end.

Lemma kl_handler parseInt10 env (d : Conference.delivery) :
  keeps_listeners (Conference.handler parseInt10 env d).
Proof.
  destruct d as [data| |[|] tpc stats|id|id data]; simpl;
    unfold Reporter._onLocalStatsUpdated, Reporter._calculateAvgStats,
      Reporter._onP2PStatusChanged, Reporter._resetAvgStats,
      Reporter.resetAvgStats_body,
      CAS._onConnectionStats, CAS._calculateAvgStats, CAS._resetAvgStats,
      CAS._onUserLeft, CAS._onRemoteStatsUpdated, CAS._processRemoteStats,
      CAS.on_entry;
    cbv zeta; repeat kl_step.
Qed.

Lemma register_other (ls : list listener) (tr : list effect) :
  (forall e, In e tr ->
     match e with Subscribe _ | Unsubscribe _ => False | _ => True end) ->
  fold_left Conference.register tr ls = ls.
Proof.
  induction tr as [|e tr IH]; intro H; [reflexivity|].
  simpl. pose proof (H e (or_introl eq_refl)) as He.
  destruct e; try contradiction; apply IH; intros e' He'; apply H; right; exact He'.
Qed.

Lemma deliver_listeners parseInt10 env (d : Conference.delivery) (c : Conference.t) :
  Conference.listeners (final (Conference.deliver parseInt10 env d c))
  = Conference.listeners c.
Proof.
  unfold Conference.deliver.
  destruct (Conference.registered (Conference.target d) (Conference.listeners c));
    [|reflexivity].
  unfold Conference.call. simpl. apply register_other.
  apply kl_handler.
Qed.

Lemma deliver_all_listeners parseInt10 (ds : list (Env * Conference.delivery))
      (c : Conference.t) :
  Conference.listeners (Conference.deliver_all parseInt10 ds c)
  = Conference.listeners c.
Proof.
  revert c. induction ds as [|[env d] ds IH]; intro c; [reflexivity|].
  simpl. rewrite IH. apply deliver_listeners.
Qed.

(** ** The listeners of an enabled reporter *)

Lemma create_listeners (n : Z) :
  0 < n -> Conference.listeners (final (Conference.create n)) = all_listeners.
Proof.
  intro Hn. unfold Conference.create, Reporter.constructor.
  replace (0 <? n) with true by (symmetry; apply Z.ltb_lt; exact Hn).
  reflexivity.
Qed.

(** [USER_LEFT] fired on a conference whose reporter is enabled and has
    its listeners: the listener of the JVB monitor runs. *)
Lemma user_left_delivered_run
      (parseInt10 : value -> number) (env : Env) (p : string)
      (c : Conference.t) (n : Z) (o : Reporter.fields) :
  Conference.listeners c = all_listeners ->
  Conference.reporter c = Reporter.Make n (Some o) ->
  Conference.deliver parseInt10 env (Conference.UserLeft p) c
  = Run (Conference.Make
           (Reporter.Make n
              (Some (Reporter.set_jvbStatsMonitor
                       (final (CAS._onUserLeft p (Reporter.jvbStatsMonitor o))) o)))
           all_listeners)
        [] (Normal tt).
Proof.
  intros Hl Hr. unfold Conference.deliver. rewrite Hl. simpl.
  unfold Conference.call. rewrite Hl, Hr. reflexivity.
Qed.

(** C8: when a participant leaves, the entry of that participant is gone
    from the round trip map, the entry of every other participant is as it
    was, and the next cross-participant average is made of averages of
    other participants only, whatever the one who left had reported.  The
    last part is the same through the conference: on an enabled reporter,
    after any deliveries, firing [USER_LEFT] for [p] reaches the listener
    of the JVB monitor, which returns without logging and removes the
    entry of [p] and nothing else. *)
Theorem user_left_removes_only_that_entry (st : CAS.t) (p : string) :
  let st' := final (CAS._onUserLeft p st) in
  JSMap.get p (CAS._avgRemoteRTTMap st') = None
  /\ (forall q, q <> p ->
        JSMap.get q (CAS._avgRemoteRTTMap st')
        = JSMap.get q (CAS._avgRemoteRTTMap st))
  /\ outcome (CAS._calculateAvgRemoteRTT st')
     = Normal (Num.mean (CAS.contributing (CAS._avgRemoteRTTMap st')))
  /\ (forall x, In x (CAS.contributing (CAS._avgRemoteRTTMap st')) ->
        exists q a, q <> p /\ In (q, a) (CAS._avgRemoteRTTMap st)
                    /\ x = ASR.calculate a)
  /\ (forall a,
        outcome (CAS._calculateAvgRemoteRTT
                   (final (CAS._onUserLeft p
                      (CAS.set_avgRemoteRTTMap
                         (JSMap.set p a (CAS._avgRemoteRTTMap st)) st))))
        = outcome (CAS._calculateAvgRemoteRTT st'))
  /\ (forall (parseInt10 : value -> number) (n : Z)
             (ds : list (Env * Conference.delivery)) (env : Env),
        0 < n ->
        let c := Conference.deliver_all parseInt10 ds
                   (final (Conference.create n)) in
        let r := Conference.deliver parseInt10 env (Conference.UserLeft p) c in
        exists o o',
          Conference.reporter c = Reporter.Make n (Some o)
          /\ outcome r = Normal tt
          /\ trace r = []
          /\ Conference.reporter (final r) = Reporter.Make n (Some o')
          /\ o' = Reporter.set_jvbStatsMonitor
                    (CAS.set_avgRemoteRTTMap
                       (JSMap.delete p
                          (CAS._avgRemoteRTTMap (Reporter.jvbStatsMonitor o)))
                       (Reporter.jvbStatsMonitor o)) o
          /\ JSMap.get p (CAS._avgRemoteRTTMap (Reporter.jvbStatsMonitor o'))
             = None
          /\ (forall q, q <> p ->
                JSMap.get q (CAS._avgRemoteRTTMap (Reporter.jvbStatsMonitor o'))
                = JSMap.get q (CAS._avgRemoteRTTMap (Reporter.jvbStatsMonitor o)))
          /\ (forall x,
                In x (CAS.contributing
                        (CAS._avgRemoteRTTMap (Reporter.jvbStatsMonitor o'))) ->
                exists q a,
                  q <> p
                  /\ In (q, a) (CAS._avgRemoteRTTMap (Reporter.jvbStatsMonitor o))
                  /\ x = ASR.calculate a)).
Proof.
  cbn zeta. repeat apply conj.
  - apply get_delete_same.
  - intros q Hq. apply get_delete_other. exact Hq.
  - rewrite calculateAvgRemoteRTT_run. reflexivity.
  - intros x Hx. apply in_contributing in Hx.
    destruct Hx as (q & a & Hin & Hx & _).
    simpl in Hin. apply in_delete in Hin. destruct Hin as [Hin Hq].
    exists q, a. auto.
  - intro a. rewrite !calculateAvgRemoteRTT_run. simpl.
    rewrite delete_set_same. reflexivity.
  - intros parseInt10 n ds env Hn.
    assert (Hc : Invariant.conference_ok n
                   (Conference.deliver_all parseInt10 ds
                      (final (Conference.create n)))).
    { apply deliver_all_keeps. apply create_ok. exact Hn. }
    assert (Hl : Conference.listeners
                   (Conference.deliver_all parseInt10 ds
                      (final (Conference.create n)))
                 = all_listeners).
    { rewrite deliver_all_listeners. apply create_listeners. exact Hn. }
    destruct Hc as (Hrn & o & Hm & _).
    assert (Hr : Conference.reporter
                   (Conference.deliver_all parseInt10 ds
                      (final (Conference.create n)))
                 = Reporter.Make n (Some o)).
    { destruct (Conference.reporter _) as [n' members]. simpl in *. congruence. }
    rewrite (user_left_delivered_run parseInt10 env p _ n o Hl Hr).
    eexists o, _. simpl.
    split; [exact Hr|]. split; [reflexivity|]. split; [reflexivity|].
    split; [reflexivity|]. split; [reflexivity|].
    split; [apply get_delete_same|].
    split; [intros q Hq; apply get_delete_other; exact Hq|].
    intros x Hx. apply in_contributing in Hx.
    destruct Hx as (q & a & Hin & Hx & _).
    apply in_delete in Hin. destruct Hin as [Hin Hq].
    exists q, a. auto.
Qed.

Lemma user_left_removes_only_that_entry_witness :
  let st := CAS.Make false 3 1 (ASR.constructor "stat.avg.rtt")
              [("a", ASR.Make "a.stat.rtt" 1 (Num.of_Z 40));
               ("b", ASR.Make "b.stat.rtt" 2 (Num.of_Z 120))] in
  JSMap.get "b" (CAS._avgRemoteRTTMap (final (CAS._onUserLeft "a" st)))
  = JSMap.get "b" (CAS._avgRemoteRTTMap st)
  /\ exists o',
       Conference.reporter
         (final (Conference.deliver Fixtures.no_parse (Fixtures.env false 1)
                   (Conference.UserLeft "a")
                   (Conference.deliver_all Fixtures.no_parse
                      Fixtures.before_boundary
                      (final (Conference.create 2)))))
       = Reporter.Make 2 (Some o')
       /\ JSMap.get "a" (CAS._avgRemoteRTTMap (Reporter.jvbStatsMonitor o'))
          = None.
Proof.
  intro st.
  destruct (user_left_removes_only_that_entry st "a") as (_ & H & _ & _ & _ & H').
  split.
  - apply H. discriminate.
  - destruct (H' Fixtures.no_parse 2 Fixtures.before_boundary
                (Fixtures.env false 1) ltac:(lia))
      as (o & o' & _ & _ & _ & Hr & _ & Hget & _).
    exists o'. split; [exact Hr|exact Hget].
Defined.

(** ** Scenarios *)

Example upload_bitrate_100_200_300 :
  ASR.calculate
    (ASR.feed [Fixtures.num 100; Fixtures.num 200; Fixtures.num 300]
              (ASR.constructor "stat.avg.bitrate.upload"))
  = Num.of_Z 200.
Proof. vm_compute. reflexivity. Qed.

(** A window of three local samples with upload bit rates 100, 200 and
    300: the third one reports an average of 200 and the sample index is
    back at 0. *)
Example third_sample_reports :
  let c2 := Conference.deliver_all Fixtures.no_parse
              [(Fixtures.env false 1, Conference.LocalStatsUpdated (Fixtures.sample 100 5));
               (Fixtures.env false 1, Conference.LocalStatsUpdated (Fixtures.sample 200 5))]
              (final (Conference.create 3)) in
  let r := Conference.deliver Fixtures.no_parse (Fixtures.env false 1)
             (Conference.LocalStatsUpdated (Fixtures.sample 300 5)) c2 in
  Reporter.read Reporter._sampleIdx (Conference.reporter c2) = Some 2
  /\ hd_error (trace r)
     = Some (SendEvent "stat.avg.bitrate.upload" (ValueField (Num.of_Z 200)))
  /\ Reporter.read Reporter._sampleIdx (Conference.reporter (final r)) = Some 0.
Proof. vm_compute. repeat split. Qed.

(** The total packet loss of a second window is averaged together with
    that of the first. *)
Example packet_loss_total_spans_windows :
  let c := Conference.deliver_all Fixtures.no_parse
             [(Fixtures.env false 1, Conference.LocalStatsUpdated (Fixtures.sample 100 5))]
             (final (Conference.create 1)) in
  Reporter.read Reporter._avgPacketLossTotal (Conference.reporter c)
  = Some (ASR.Make "stat.avg.packetloss.total" 1 (Num.of_Z 5))
  /\ Reporter.read Reporter._avgPacketLossUp (Conference.reporter c)
     = Some (ASR.Make "stat.avg.packetloss.upload" 0 Num.zero).
Proof. vm_compute. repeat split. Qed.

(** * Further properties *)

(** ** Running a method step by step *)

Lemma run_eta {S A} (r : run S A) : Run (final r) (trace r) (outcome r) = r.
Proof. destruct r; reflexivity. Qed.

Lemma bind_normal {S A B} (m : M S A) (k : A -> M S B)
      (s s1 : S) (t1 : list effect) (a : A) :
  m s = Run s1 t1 (Normal a) ->
  bind m k s = Run (final (k a s1)) (t1 ++ trace (k a s1)) (outcome (k a s1)).
Proof. intro H. unfold bind. rewrite H. reflexivity. Qed.

Lemma bind_throw {S A B} (m : M S A) (k : A -> M S B)
      (s s1 : S) (t1 : list effect) (e : exn) :
  m s = Run s1 t1 (Throw e) ->
  bind m k s = Run s1 t1 (Throw e).
Proof. intro H. unfold bind. rewrite H. reflexivity. Qed.

Lemma bind_assoc_run {S A B C} (m : M S A) (k : A -> M S B) (h : B -> M S C) (s : S) :
  bind (bind m k) h s = bind m (fun a => bind (k a) h) s.
Proof.
  unfold bind. destruct (m s) as [s1 t1 [a|e]]; simpl; [|reflexivity].
  destruct (k a s1) as [s2 t2 [b|e]]; simpl; [|reflexivity].
  rewrite app_assoc. reflexivity.
Qed.

Lemma member_report_run {S} (get : S -> ASR.t) (set : ASR.t -> S -> S)
      (isP2P : bool) (s : S) :
  member get set (ASR.report isP2P) s
  = Run (set (get s) s)
        [SendEvent ((if isP2P then "p2p." else EmptyString) ++ ASR.name (get s))
                   (ValueField (ASR.calculate (get s)))]
        (Normal tt).
Proof. reflexivity. Qed.

Lemma bind_this_run {S B} (k : S -> M S B) (s : S) :
  bind this k s = k s s.
Proof. unfold bind, this. simpl. apply run_eta. Qed.

Lemma bind_ret_run {S A B} (a : A) (k : A -> M S B) (s : S) :
  bind (ret a) k s = k a s.
Proof. unfold bind, ret. simpl. apply run_eta. Qed.

Lemma bind_assign_run {S B} (s1 : S) (k : unit -> M S B) (s : S) :
  bind (assign s1) k s = k tt s1.
Proof. unfold bind, assign. simpl. apply run_eta. Qed.

Lemma member_run {S T A} (get : S -> T) (set : T -> S -> S) (m : M T A) (s : S) :
  member get set m s
  = Run (set (final (m (get s))) s) (trace (m (get s))) (outcome (m (get s))).
Proof. reflexivity. Qed.

Lemma member_addNext_run {S} (get : S -> ASR.t) (set : ASR.t -> S -> S)
      (v : value) (s : S) :
  member get set (ASR.addNext v) s
  = Run (set (final (ASR.addNext v (get s))) s)
        (trace (ASR.addNext v (get s))) (Normal tt).
Proof. unfold member. rewrite addNext_returns. reflexivity. Qed.

Lemma fed_returns (env : Env) (data : value) (a : ASR.t) :
  outcome (Monitor.fed env data a) = Normal tt.
Proof.
  unfold Monitor.fed.
  destruct (supportsRTTStatistics env); [|reflexivity].
  destruct (Monitor.has_transport data); [apply addNext_returns|reflexivity].
Qed.

Lemma fed_name (env : Env) (data : value) (a : ASR.t) :
  ASR.name (final (Monitor.fed env data a)) = ASR.name a.
Proof.
  unfold Monitor.fed.
  destruct (supportsRTTStatistics env); [|reflexivity].
  destruct (Monitor.has_transport data); [apply addNext_name|reflexivity].
Qed.


(** The first block of [_calculateAvgStats] on a readable sample. *)
Lemma monitor_first_block (env : Env) (data : value) (st : CAS.t) :
  Monitor.readable env data = true ->
  (if supportsRTTStatistics env then
     let transport := JS.prop data "transport" in
     if JS.truthy transport && JS.truthy (JS.prop transport "length") then
       rtt <- get_member (JS.prop transport "0") "rtt" ;;
       member CAS._avgRTT CAS.set_avgRTT (ASR.addNext rtt)
     else
       member CAS._avgRTT CAS.set_avgRTT ASR.reset
   else ret tt) st
  = Run (CAS.set_avgRTT (final (Monitor.fed env data (CAS._avgRTT st))) st)
        (trace (Monitor.fed env data (CAS._avgRTT st)))
        (Normal tt).
Proof.
  unfold Monitor.readable, Monitor.fed, Monitor.has_transport, Monitor.rtt_of.
  intro Hr. cbv zeta.
  destruct (supportsRTTStatistics env).
  - destruct (JS.truthy (JS.prop data "transport")
              && JS.truthy (JS.prop (JS.prop data "transport") "length")).
    + unfold get_member.
      destruct (JS.nullish (JS.prop (JS.prop data "transport") "0"));
        [discriminate Hr|].
      rewrite bind_ret_run. apply member_addNext_run.
    + reflexivity.
  - destruct st; reflexivity.
Qed.

(** A readable, truthy sample: what [_calculateAvgStats] returns. *)
Lemma monitor_sample_run (env : Env) (data : value) (st : CAS.t) :
  JS.truthy data = true ->
  Monitor.readable env data = true ->
  let a := final (Monitor.fed env data (CAS._avgRTT st)) in
  CAS._calculateAvgStats env data st
  = if CAS._n st <=? CAS._sampleIdx st + 1 then
      Run (CAS.Make (CAS.isP2P st) (CAS._n st) 0
                    (ASR.Make (ASR.name (CAS._avgRTT st)) 0 Num.zero) [])
          (trace (Monitor.fed env data (CAS._avgRTT st))
           ++ Monitor.boundary_events env st a)
          (Normal tt)
    else
      Run (CAS.set_sampleIdx (CAS._sampleIdx st + 1) (CAS.set_avgRTT a st))
          (trace (Monitor.fed env data (CAS._avgRTT st)))
          (Normal tt).
Proof.
  intros Hdata Hread a.
  unfold CAS._calculateAvgStats. rewrite Hdata. cbn [negb].
  rewrite (bind_normal _ _ _ _ _ _ (monitor_first_block env data st Hread)).
  fold a. rewrite bind_this_run, bind_assign_run, bind_this_run.
  cbn [CAS._n CAS._sampleIdx CAS.set_sampleIdx CAS.set_avgRTT CAS.isP2P].
  assert (Hname := fed_name env data (CAS._avgRTT st)). fold a in Hname.
  destruct (CAS._n st <=? CAS._sampleIdx st + 1).
  - unfold Monitor.boundary_events.
    destruct (supportsRTTStatistics env).
    + destruct (CAS.isP2P st) eqn:Hp; cbn [negb andb].
      * cbn. unfold CAS.set_sampleIdx, CAS.set_avgRemoteRTTMap, CAS.set_avgRTT.
        cbn. rewrite Hname, Hp. reflexivity.
      * rewrite !bind_assoc_run.
        rewrite (bind_normal _ _ _ _ _ _ (member_report_run _ _ _ _)).
        cbv beta. cbn [CAS.isP2P CAS.set_avgRTT CAS.set_sampleIdx negb].
        cbn [negb]. rewrite ?bind_assoc_run.
        rewrite (bind_normal _ _ _ _ _ _ (calculateAvgRemoteRTT_run _)).
        cbv beta. rewrite ?bind_assoc_run, bind_this_run.
        cbn [CAS._avgRTT CAS.set_avgRTT CAS.set_avgRemoteRTTMap
             CAS.set_sampleIdx CAS._avgRemoteRTTMap].
        destruct (negb (Num.isNaN (ASR.calculate a))
                  && negb (Num.isNaN (CAS.cross_participant_average
                                        (CAS._avgRemoteRTTMap st))));
          cbn; unfold CAS.set_sampleIdx, CAS.set_avgRemoteRTTMap, CAS.set_avgRTT;
          cbn; rewrite ?Hname, ?Hp, ?app_nil_r; reflexivity.
    + cbn. unfold CAS.set_sampleIdx, CAS.set_avgRemoteRTTMap, CAS.set_avgRTT.
      cbn. rewrite Hname, !app_nil_r. reflexivity.
  - cbn. rewrite app_nil_r. reflexivity.
Qed.

Lemma sent_app (t1 t2 : list effect) :
  sent (t1 ++ t2) = (sent t1 ++ sent t2)%list.
Proof. apply filter_app. Qed.

Lemma sent_only_log_errors (tr : list effect) :
  only_log_errors tr -> sent tr = [].
Proof.
  intro H. induction tr as [|e tr IH]; [reflexivity|].
  destruct (H e (or_introl eq_refl)) as (msg & args & ->). simpl.
  apply IH. intros e He. apply H. right. exact He.
Qed.


(** ** ConnectionAvgStats: samples that are not counted *)



(** ** ConnectionAvgStats: counting up to the window *)

(** A readable, truthy sample moves the sample index by one inside the
    window. *)
Lemma monitor_step_index (st : CAS.t) (env : Env) (data : value) :
  JS.truthy data = true ->
  Monitor.readable env data = true ->
  0 <= CAS._sampleIdx st < CAS._n st ->
  CAS._sampleIdx (final (CAS._calculateAvgStats env data st))
  = (CAS._sampleIdx st + 1) mod CAS._n st
  /\ CAS._n (final (CAS._calculateAvgStats env data st)) = CAS._n st.
Proof.
  intros Hdata Hread Hidx.
  rewrite (monitor_sample_run env data st Hdata Hread).
  destruct (Z.leb_spec (CAS._n st) (CAS._sampleIdx st + 1)) as [Hle|Hlt].
  - assert (He : CAS._sampleIdx st + 1 = CAS._n st) by lia.
    cbn [final CAS._sampleIdx CAS._n]. rewrite He, Z_mod_same_full.
    split; reflexivity.
  - cbn [final]. rewrite Z.mod_small by lia. split; reflexivity.
Qed.



Lemma monitor_after_cons (d : Env * value) (ds : list (Env * value)) (st : CAS.t) :
  Monitor.after (d :: ds) st
  = Monitor.after ds (final (CAS._calculateAvgStats (fst d) (snd d) st)).
Proof. reflexivity. Qed.

(** X3: after [k] truthy samples that can be read the sample index of a
    monitor is [(_sampleIdx + k) mod _n]: every [_n]-th sample completes a
    window. *)
Theorem monitor_counts_modulo_window (ds : list (Env * value)) (st : CAS.t) :
  Forall (fun d => JS.truthy (snd d) = true
                   /\ Monitor.readable (fst d) (snd d) = true) ds ->
  0 <= CAS._sampleIdx st < CAS._n st ->
  CAS._n (Monitor.after ds st) = CAS._n st
  /\ CAS._sampleIdx (Monitor.after ds st)
     = (CAS._sampleIdx st + Z.of_nat (List.length ds)) mod CAS._n st.
Proof.
  intro H. revert st. induction H as [|[env data] ds [Hd Hr] _ IH]; intros st Hidx.
  - simpl. rewrite Z.add_0_r, Z.mod_small by lia. split; reflexivity.
  - rewrite monitor_after_cons. simpl fst. simpl snd.
    destruct (monitor_step_index st env data Hd Hr Hidx) as [Hi Hn].
    assert (Hidx' : 0 <= CAS._sampleIdx (final (CAS._calculateAvgStats env data st))
                    < CAS._n (final (CAS._calculateAvgStats env data st))).
    { rewrite Hi, Hn. apply Z.mod_pos_bound. lia. }
    destruct (IH _ Hidx') as [IHn IHi].
    rewrite IHn, IHi, Hn, Hi. split; [reflexivity|].
    change (List.length ((env, data) :: ds)) with (S (List.length ds)).
    rewrite Nat2Z.inj_succ, Zplus_mod_idemp_l. f_equal. lia.
Qed.

Lemma monitor_counts_modulo_window_witness :
  CAS._sampleIdx
    (Monitor.after
       [(Fixtures.env false 1, Fixtures.stats 40);
        (Fixtures.env false 1, Fixtures.stats 60);
        (Fixtures.env false 1, VObject []);
        (Fixtures.env false 1, Fixtures.stats 50)]
       (final (CAS.constructor false 3)))
  = (0 + 4) mod 3.
Proof.
  apply (monitor_counts_modulo_window
           [(Fixtures.env false 1, Fixtures.stats 40);
            (Fixtures.env false 1, Fixtures.stats 60);
            (Fixtures.env false 1, VObject []);
            (Fixtures.env false 1, Fixtures.stats 50)]
           (final (CAS.constructor false 3))).
  - repeat constructor.
  - simpl. lia.
Defined.



(** ** ConnectionAvgStats: whose sample it is *)

Lemma onConnectionStats_run (st : CAS.t) (env : Env) (tpc stats : value) :
  JS.nullish tpc = false ->
  CAS._onConnectionStats env tpc stats st
  = if JS.strict_eq (VBool (CAS.isP2P st)) (JS.prop tpc "isP2P")
    then CAS._calculateAvgStats env stats st
    else Run st [] (Normal tt).
Proof.
  intro Hn. unfold CAS._onConnectionStats, get_member. rewrite Hn.
  rewrite bind_this_run, bind_ret_run.
  destruct (JS.strict_eq (VBool (CAS.isP2P st)) (JS.prop tpc "isP2P"));
    reflexivity.
Qed.

(** X5: of the two monitors, only the one whose [isP2P] is strictly equal
    to [tpc.isP2P] processes connection stats, the other one is left as
    it was; when [tpc.isP2P] is not a boolean neither does; when [tpc] is
    [undefined] or [null] the listener throws. *)
Theorem connection_stats_go_to_one_monitor
        (jvb p2p : CAS.t) (env : Env) (tpc stats : value) :
  CAS.isP2P jvb = false ->
  CAS.isP2P p2p = true ->
  (forall b, JS.prop tpc "isP2P" = VBool b ->
     CAS._onConnectionStats env tpc stats (if b then jvb else p2p)
     = Run (if b then jvb else p2p) [] (Normal tt)
     /\ CAS._onConnectionStats env tpc stats (if b then p2p else jvb)
        = CAS._calculateAvgStats env stats (if b then p2p else jvb))
  /\ (JS.nullish tpc = false ->
      JS.typeof (JS.prop tpc "isP2P") <> "boolean" ->
      CAS._onConnectionStats env tpc stats jvb = Run jvb [] (Normal tt)
      /\ CAS._onConnectionStats env tpc stats p2p = Run p2p [] (Normal tt))
  /\ (JS.nullish tpc = true ->
      forall st,
        CAS._onConnectionStats env tpc stats st
        = Run st []
              (Throw (TypeError ("Cannot read property 'isP2P' of "
                                 ++ JS.show_nullish tpc)))).
Proof.
  intros Hj Hp. split; [|split].
  - intros b Hb.
    assert (Hn : JS.nullish tpc = false).
    { destruct tpc; try reflexivity; discriminate Hb. }
    rewrite !(onConnectionStats_run _ _ _ _ Hn), Hb.
    destruct b; cbn; rewrite ?Hj, ?Hp; split; reflexivity.
  - intros Hn Hty. rewrite !(onConnectionStats_run _ _ _ _ Hn).
    destruct (JS.prop tpc "isP2P"); try (split; reflexivity).
    exfalso. apply Hty. reflexivity.
  - intros Hn st. unfold CAS._onConnectionStats, get_member. rewrite Hn.
    rewrite bind_this_run. reflexivity.
Qed.

Lemma connection_stats_go_to_one_monitor_witness :
  CAS._onConnectionStats (Fixtures.env true 1) (Fixtures.tpc true)
    (Fixtures.stats 40) (final (CAS.constructor false 3))
  = Run (final (CAS.constructor false 3)) [] (Normal tt).
Proof.
  destruct (connection_stats_go_to_one_monitor
              (final (CAS.constructor false 3)) (final (CAS.constructor true 3))
              (Fixtures.env true 1) (Fixtures.tpc true) (Fixtures.stats 40)
              eq_refl eq_refl) as (H & _ & _).
  destruct (H true eq_refl) as [H1 _]. exact H1.
Defined.

(** ** ConnectionAvgStats: the reports of the remote participants *)

Lemma get_set_same {V} (k : string) (v : V) (m : JSMap.t V) :
  JSMap.get k (JSMap.set k v m) = Some v.
Proof.
  induction m as [|[k' v'] m IH]; simpl.
  - rewrite String.eqb_refl. reflexivity.
  - destruct (String.eqb k k') eqn:E; simpl; rewrite E; [reflexivity|exact IH].
Qed.

Lemma get_set_other {V} (k q : string) (v : V) (m : JSMap.t V) :
  q <> k -> JSMap.get q (JSMap.set k v m) = JSMap.get q m.
Proof.
  intro Hq. induction m as [|[k' v'] m IH]; simpl.
  - apply String.eqb_neq in Hq. rewrite Hq. reflexivity.
  - destruct (String.eqb k k') eqn:E; simpl.
    + apply String.eqb_eq in E. subst k'.
      apply String.eqb_neq in Hq. rewrite Hq. reflexivity.
    + rewrite IH. reflexivity.
Qed.

Lemma set_set {V} (k : string) (v w : V) (m : JSMap.t V) :
  JSMap.set k v (JSMap.set k w m) = JSMap.set k v m.
Proof.
  induction m as [|[k' v'] m IH]; simpl.
  - rewrite String.eqb_refl. reflexivity.
  - destruct (String.eqb k k') eqn:E; simpl; rewrite E; [reflexivity|].
    rewrite IH. reflexivity.
Qed.

Lemma delete_absent {V} (k : string) (m : JSMap.t V) :
  JSMap.get k m = None -> JSMap.delete k m = m.
Proof.
  induction m as [|[k' v'] m IH]; simpl; [reflexivity|].
  destruct (String.eqb k k'); [discriminate|].
  intro H. simpl. rewrite (IH H). reflexivity.
Qed.

(** A report with a number: what [_processRemoteStats] returns. *)
Lemma processRemoteStats_number_run (id : string) (data : value) (x : number)
      (st : CAS.t) :
  JS.prop data "jvbRTT" = VNumber x ->
  CAS._processRemoteStats id data st
  = Run (CAS.set_avgRemoteRTTMap
           (JSMap.set id
              (final (ASR.addNext (VNumber x)
                        (Monitor.entry_for id (CAS._avgRemoteRTTMap st))))
              (CAS._avgRemoteRTTMap st))
           st)
        [] (Normal tt).
Proof.
  intro Hx.
  assert (Hn : JS.nullish data = false).
  { destruct data; try reflexivity; discriminate Hx. }
  unfold CAS._processRemoteStats, get_member. rewrite Hn, bind_ret_run, Hx.
  rewrite bind_this_run. cbn [JS.typeof String.eqb Ascii.eqb Bool.eqb].
  unfold Monitor.entry_for, JSMap.has, CAS.on_entry.
  destruct (JSMap.get id (CAS._avgRemoteRTTMap st)) as [a|] eqn:Hget.
  - cbn [negb andb]. rewrite bind_ret_run, bind_this_run, Hget.
    destruct st; reflexivity.
  - cbn [negb andb]. rewrite bind_assign_run, bind_this_run.
    cbn [CAS._avgRemoteRTTMap CAS.set_avgRemoteRTTMap].
    rewrite get_set_same. unfold member. cbn.
    rewrite set_set. reflexivity.
Qed.

(** A report without a number: what [_processRemoteStats] returns. *)
Lemma processRemoteStats_other_run (id : string) (data : value) (st : CAS.t) :
  JS.nullish data = false ->
  JS.typeof (JS.prop data "jvbRTT") <> "number" ->
  CAS._processRemoteStats id data st
  = Run (CAS.set_avgRemoteRTTMap (JSMap.delete id (CAS._avgRemoteRTTMap st)) st)
        [] (Normal tt).
Proof.
  intros Hn Hty.
  unfold CAS._processRemoteStats, get_member. rewrite Hn, bind_ret_run.
  rewrite bind_this_run.
  replace (JS.typeof (JS.prop data "jvbRTT") =? "number")%string with false
    by (symmetry; apply String.eqb_neq; exact Hty).
  rewrite andb_false_r, bind_ret_run. unfold JSMap.has.
  destruct (JSMap.get id (CAS._avgRemoteRTTMap st)) eqn:Hget.
  - rewrite bind_this_run. reflexivity.
  - rewrite (delete_absent _ _ Hget). destruct st; reflexivity.
Qed.

(** X6: remote stats with a numeric [jvbRTT] are added to the average of
    that participant, which is created under the name [<id>.stat.rtt] if
    the map has none; the entries of the other participants, the sample
    index and the local average stay, and nothing is logged or sent. *)
Theorem remote_report_is_added (id : string) (data : value) (x : number)
        (st : CAS.t) :
  JS.prop data "jvbRTT" = VNumber x ->
  let r := CAS._processRemoteStats id data st in
  let old := Monitor.entry_for id (CAS._avgRemoteRTTMap st) in
  outcome r = Normal tt
  /\ trace r = []
  /\ JSMap.get id (CAS._avgRemoteRTTMap (final r))
     = Some (ASR.Make (ASR.name old) (ASR.count old + 1) (Num.add (ASR.sum old) x))
  /\ (JSMap.get id (CAS._avgRemoteRTTMap st) = None ->
      JSMap.get id (CAS._avgRemoteRTTMap (final r))
      = Some (ASR.Make (id ++ ".stat.rtt") 1 (Num.add Num.zero x)))
  /\ (forall q, q <> id ->
        JSMap.get q (CAS._avgRemoteRTTMap (final r))
        = JSMap.get q (CAS._avgRemoteRTTMap st))
  /\ CAS._sampleIdx (final r) = CAS._sampleIdx st
  /\ CAS._avgRTT (final r) = CAS._avgRTT st.
Proof.
  intros Hx r old. subst r old.
  rewrite (processRemoteStats_number_run id data x st Hx).
  cbn [outcome trace final CAS._avgRemoteRTTMap CAS.set_avgRemoteRTTMap
       CAS._sampleIdx CAS._avgRTT].
  rewrite get_set_same. repeat split.
  - intro Hnone. unfold Monitor.entry_for. rewrite Hnone. reflexivity.
  - intros q Hq. apply get_set_other. exact Hq.
Qed.

Lemma remote_report_is_added_witness :
  JSMap.get "a"
    (CAS._avgRemoteRTTMap
       (final (CAS._processRemoteStats "a" (Fixtures.remote 40)
                 (final (CAS.constructor false 3)))))
  = Some (ASR.Make "a.stat.rtt" 1 (Num.add Num.zero (Num.of_Z 40))).
Proof.
  destruct (remote_report_is_added "a" (Fixtures.remote 40) (Num.of_Z 40)
              (final (CAS.constructor false 3)) eq_refl)
    as (_ & _ & _ & H & _).
  apply H. reflexivity.
Defined.

(** X7: remote stats whose [jvbRTT] is not a number remove the entry of
    that participant (and create none), leaving the other entries, the
    sample index and the local average as they were, without a log line;
    remote stats that are [undefined] or [null] make the handler throw. *)
Theorem remote_report_without_number (id : string) (data : value) (st : CAS.t) :
  (JS.nullish data = false ->
   JS.typeof (JS.prop data "jvbRTT") <> "number" ->
   let r := CAS._processRemoteStats id data st in
   outcome r = Normal tt
   /\ trace r = []
   /\ JSMap.get id (CAS._avgRemoteRTTMap (final r)) = None
   /\ (forall q, q <> id ->
         JSMap.get q (CAS._avgRemoteRTTMap (final r))
         = JSMap.get q (CAS._avgRemoteRTTMap st))
   /\ CAS._sampleIdx (final r) = CAS._sampleIdx st
   /\ CAS._avgRTT (final r) = CAS._avgRTT st)
  /\ (JS.nullish data = true ->
      CAS._processRemoteStats id data st
      = Run st []
            (Throw (TypeError ("Cannot read property 'jvbRTT' of "
                               ++ JS.show_nullish data)))).
Proof.
  split.
  - intros Hn Hty r. subst r.
    rewrite (processRemoteStats_other_run id data st Hn Hty).
    cbn [outcome trace final CAS._avgRemoteRTTMap CAS.set_avgRemoteRTTMap
         CAS._sampleIdx CAS._avgRTT].
    repeat split.
    + apply get_delete_same.
    + intros q Hq. apply get_delete_other. exact Hq.
  - intro Hn. unfold CAS._processRemoteStats, get_member. rewrite Hn.
    reflexivity.
Qed.

Lemma remote_report_without_number_witness :
  JSMap.get "a"
    (CAS._avgRemoteRTTMap
       (final (CAS._processRemoteStats "a" (VObject [("jvbRTT", VString "40")])
                 (CAS.Make false 3 0 (ASR.constructor "stat.avg.rtt")
                    [("a", ASR.Make "a.stat.rtt" 1 (Num.of_Z 40))]))))
  = None.
Proof.
  destruct (remote_report_without_number "a" (VObject [("jvbRTT", VString "40")])
              (CAS.Make false 3 0 (ASR.constructor "stat.avg.rtt")
                 [("a", ASR.Make "a.stat.rtt" 1 (Num.of_Z 40))])) as [H _].
  apply H; [reflexivity|]. simpl. discriminate.
Defined.

Lemma reported_cons (id : string) (d : value) (ds : list value) (st : CAS.t) :
  Monitor.reported id (d :: ds) st
  = Monitor.reported id ds (final (CAS._processRemoteStats id d st)).
Proof. reflexivity. Qed.

Lemma reported_entry (id : string) (ds : list value) (xs : list number) (st : CAS.t) :
  Forall2 (fun d x => JS.prop d "jvbRTT" = VNumber x) ds xs ->
  Monitor.entry_for id (CAS._avgRemoteRTTMap (Monitor.reported id ds st))
  = ASR.feed (map VNumber xs) (Monitor.entry_for id (CAS._avgRemoteRTTMap st)).
Proof.
  intro H. revert st. induction H as [|d x ds xs Hd _ IH]; intro st.
  - reflexivity.
  - rewrite reported_cons, IH. simpl map. rewrite feed_cons. f_equal.
    rewrite (processRemoteStats_number_run id d x st Hd).
    cbn [final CAS._avgRemoteRTTMap CAS.set_avgRemoteRTTMap].
    unfold Monitor.entry_for at 1. rewrite get_set_same. reflexivity.
Qed.

(** X8: after a participant without an entry has sent one or more
    numeric reports, the map holds for it an average named
    [<id>.stat.rtt] that counts the reports and whose [calculate()] is
    their mean. *)
Theorem remote_reports_average (id : string) (ds : list value) (xs : list number)
        (st : CAS.t) :
  Forall2 (fun d x => JS.prop d "jvbRTT" = VNumber x) ds xs ->
  xs <> [] ->
  JSMap.get id (CAS._avgRemoteRTTMap st) = None ->
  exists a,
    JSMap.get id (CAS._avgRemoteRTTMap (Monitor.reported id ds st)) = Some a
    /\ ASR.name a = id ++ ".stat.rtt"
    /\ ASR.count a = Z.of_nat (List.length xs)
    /\ ASR.calculate a = Num.mean xs.
Proof.
  intros H Hne Hnone.
  pose proof (reported_entry id ds xs st H) as He.
  assert (Hsome : exists a,
             JSMap.get id (CAS._avgRemoteRTTMap (Monitor.reported id ds st)) = Some a).
  { destruct H as [|d x ds xs Hd H]; [contradiction|].
    rewrite reported_cons. clear He Hne.
    assert (Hfirst : exists a,
               JSMap.get id (CAS._avgRemoteRTTMap
                               (final (CAS._processRemoteStats id d st))) = Some a).
    { rewrite (processRemoteStats_number_run id d x st Hd).
      cbn [final CAS._avgRemoteRTTMap CAS.set_avgRemoteRTTMap].
      rewrite get_set_same. eauto. }
    generalize dependent (final (CAS._processRemoteStats id d st)).
    induction H as [|d' x' ds xs Hd' _ IH]; intros s Hs; [exact Hs|].
    rewrite reported_cons. apply IH.
    rewrite (processRemoteStats_number_run id d' x' s Hd').
    cbn [final CAS._avgRemoteRTTMap CAS.set_avgRemoteRTTMap].
    rewrite get_set_same. eauto. }
  destruct Hsome as [a Ha]. exists a. split; [exact Ha|].
  unfold Monitor.entry_for in He. rewrite Ha, Hnone in He. subst a.
  rewrite feed_numbers. cbn [ASR.name ASR.count ASR.calculate ASR.sum ASR.constructor].
  repeat split. 
Qed.

Lemma remote_reports_average_witness :
  exists a,
    JSMap.get "a"
      (CAS._avgRemoteRTTMap
         (Monitor.reported "a" [Fixtures.remote 40; Fixtures.remote 60]
            (final (CAS.constructor false 3)))) = Some a
    /\ ASR.calculate a = Num.mean [Num.of_Z 40; Num.of_Z 60].
Proof.
  destruct (remote_reports_average "a" [Fixtures.remote 40; Fixtures.remote 60]
              [Num.of_Z 40; Num.of_Z 60] (final (CAS.constructor false 3)))
    as (a & Ha & _ & _ & Hc).
  - repeat constructor.
  - discriminate.
  - reflexivity.
  - exists a. split; [exact Ha|exact Hc].
Defined.

(** ** ConnectionAvgStats: reading the cross-participant average *)

Lemma calculate_reset (a : ASR.t) : ASR.calculate (final (ASR.reset a)) = Num.NaN.
Proof. reflexivity. Qed.




(** ** AvgRTPStatsReporter: the average frame rate *)

Section FrameRate.

Variable parseInt10 : value -> number.

Lemma sum_ssrcs_fold (videos : value) (ssrcs : list string) (acc : number) :
  Reporter.sum_ssrcs parseInt10 videos ssrcs acc
  = fold_left Num.add (map (fun ssrc => parseInt10 (JS.prop videos ssrc)) ssrcs) acc.
Proof.
  revert acc. induction ssrcs as [|ssrc rest IH]; intro acc; [reflexivity|].
  simpl. apply IH.
Qed.

Lemma fps_loop_cons (frameRate myID : value) (isLocal : bool)
      (p : string) (rest : list string) (peerCount : Z) (subFrameAvg : number) :
  Reporter.fps_loop parseInt10 frameRate myID isLocal (p :: rest) peerCount subFrameAvg
  = if Frames.selected myID isLocal p then
      if JS.nullish (JS.prop frameRate p) then
        Throw (TypeError "Cannot convert undefined or null to object")
      else
        match JS.keys (JS.prop frameRate p) with
        | [] => Reporter.fps_loop parseInt10 frameRate myID isLocal rest
                                  peerCount subFrameAvg
        | ssrcs =>
            Reporter.fps_loop parseInt10 frameRate myID isLocal rest
              (peerCount + 1)
              (Num.add subFrameAvg
                 (Num.div (Reporter.sum_ssrcs parseInt10 (JS.prop frameRate p)
                                              ssrcs Num.zero)
                          (Num.of_Z (Z.of_nat (List.length ssrcs)))))
        end
    else Reporter.fps_loop parseInt10 frameRate myID isLocal rest
                           peerCount subFrameAvg.
Proof.
  simpl. unfold Frames.selected.
  destruct (JS.keys (JS.prop frameRate p)); reflexivity.
Qed.

Lemma fps_loop_normal (frameRate myID : value) (isLocal : bool)
      (peerIDs : list string) (peerCount : Z) (subFrameAvg : number) :
  Forall (fun p => JS.nullish (JS.prop frameRate p) = false)
         (filter (Frames.selected myID isLocal) peerIDs) ->
  let counted := filter (fun p => Frames.has_streams (JS.prop frameRate p))
                        (filter (Frames.selected myID isLocal) peerIDs) in
  Reporter.fps_loop parseInt10 frameRate myID isLocal peerIDs peerCount subFrameAvg
  = Normal (peerCount + Z.of_nat (List.length counted),
            fold_left Num.add
              (map (fun p => Frames.peer_average parseInt10 (JS.prop frameRate p))
                   counted)
              subFrameAvg).
Proof.
  revert peerCount subFrameAvg.
  induction peerIDs as [|p rest IH]; intros peerCount subFrameAvg H; cbv zeta.
  - simpl. rewrite Z.add_0_r. reflexivity.
  - rewrite fps_loop_cons. cbn [filter] in *.
    destruct (Frames.selected myID isLocal p) eqn:Hsel.
    + inversion H as [|? ? Hp Hrest]; subst. rewrite Hp.
      cbn [filter].
      destruct (JS.keys (JS.prop frameRate p)) as [|k ks] eqn:Hk.
      * replace (Frames.has_streams (JS.prop frameRate p)) with false
          by (unfold Frames.has_streams; rewrite Hk; reflexivity).
        apply IH. exact Hrest.
      * replace (Frames.has_streams (JS.prop frameRate p)) with true
          by (unfold Frames.has_streams; rewrite Hk; reflexivity).
        rewrite (IH _ _ Hrest). cbv zeta. f_equal. f_equal.
        -- cbn [List.length]. rewrite Nat2Z.inj_succ. lia.
        -- cbn [map fold_left]. f_equal. f_equal.
           unfold Frames.peer_average, Num.mean, Num.total.
           rewrite Hk, sum_ssrcs_fold, length_map. reflexivity.
    + apply IH. exact H.
Qed.

Lemma fps_loop_throw (frameRate myID : value) (isLocal : bool)
      (peerIDs : list string) (peerCount : Z) (subFrameAvg : number) :
  Exists (fun p => JS.nullish (JS.prop frameRate p) = true)
         (filter (Frames.selected myID isLocal) peerIDs) ->
  Reporter.fps_loop parseInt10 frameRate myID isLocal peerIDs peerCount subFrameAvg
  = Throw (TypeError "Cannot convert undefined or null to object").
Proof.
  revert peerCount subFrameAvg.
  induction peerIDs as [|p rest IH]; intros peerCount subFrameAvg H.
  - inversion H.
  - rewrite fps_loop_cons. cbn [filter] in H.
    destruct (Frames.selected myID isLocal p) eqn:Hsel.
    + destruct (JS.nullish (JS.prop frameRate p)) eqn:Hp; [reflexivity|].
      inversion H as [? ? Hp'|? ? Hrest]; subst; [congruence|].
      destruct (JS.keys (JS.prop frameRate p)); apply IH; exact Hrest.
    + apply IH. exact H.
Qed.

(** X10: [_calculateAvgVideoFps] returns the mean, over the selected
    participants that have a stream, of the mean of the parsed frame rates
    of their streams, leaving the instance as it was; it is NaN when no
    participant is selected, and it throws a TypeError when the entry of a
    selected participant is [undefined] or [null]. *)
Theorem average_fps_of_averages (env : Env) (frameRate : value) (isLocal : bool)
        (o : Reporter.fields) :
  let selected := Frames.peers frameRate (myUserId env) isLocal in
  (Forall (fun p => JS.nullish (JS.prop frameRate p) = false) selected ->
   Reporter._calculateAvgVideoFps parseInt10 env frameRate isLocal o
   = Run o [] (Normal (Frames.average_fps parseInt10 frameRate (myUserId env) isLocal)))
  /\ (Exists (fun p => JS.nullish (JS.prop frameRate p) = true) selected ->
      Reporter._calculateAvgVideoFps parseInt10 env frameRate isLocal o
      = Run o [] (Throw (TypeError "Cannot convert undefined or null to object")))
  /\ (selected = [] ->
      Reporter._calculateAvgVideoFps parseInt10 env frameRate isLocal o
      = Run o [] (Normal Num.NaN)).
Proof.
  cbv zeta. unfold Reporter._calculateAvgVideoFps, Frames.peers.
  split; [|split].
  - intro H. rewrite (fps_loop_normal _ _ _ _ _ _ H). cbv zeta.
    unfold Frames.average_fps, Frames.peers, Num.mean, Num.total, ret.
    rewrite length_map. reflexivity.
  - intro H. rewrite (fps_loop_throw _ _ _ _ _ _ H). reflexivity.
  - intro H. rewrite fps_loop_normal by (rewrite H; constructor).
    cbv zeta. rewrite H. reflexivity.
Qed.

End FrameRate.


(** ** AvgRTPStatsReporter: a local sample that is accepted *)

Section AcceptedSample.

Variable parseInt10 : value -> number.

Lemma calculateAvgVideoFps_run (env : Env) (frameRate : value) (isLocal : bool)
      (o : Reporter.fields) :
  Forall (fun p => JS.nullish (JS.prop frameRate p) = false)
         (Frames.peers frameRate (myUserId env) isLocal) ->
  Reporter._calculateAvgVideoFps parseInt10 env frameRate isLocal o
  = Run o [] (Normal (Frames.average_fps parseInt10 frameRate (myUserId env) isLocal)).
Proof.
  intro H. unfold Reporter._calculateAvgVideoFps, Frames.peers in *.
  rewrite (fps_loop_normal parseInt10 _ _ _ _ _ _ H). cbv zeta.
  unfold Frames.average_fps, Frames.peers, Num.mean, Num.total, ret.
  rewrite length_map. reflexivity.
Qed.

Lemma accepted_fields (env : Env) (data : value) :
  Session.accepted env data = true ->
  negb (isP2PActive env) && (participantCount env <? 1)%nat = false
  /\ JS.truthy data = true
  /\ JS.truthy (JS.prop data "bitrate") = true
  /\ JS.truthy (JS.prop data "bandwidth") = true
  /\ JS.truthy (JS.prop data "packetLoss") = true
  /\ JS.truthy (JS.prop data "framerate") = true.
Proof.
  unfold Session.accepted. intro H.
  repeat (apply andb_prop in H; destruct H as [H ?]).
  apply negb_true_iff in H. tauto.
Qed.

Ltac fields_simpl :=
  cbn [final trace outcome
       Reporter._sampleIdx Reporter._avgBitrateUp Reporter._avgBitrateDown
       Reporter._avgBandwidthUp Reporter._avgBandwidthDown
       Reporter._avgPacketLossTotal Reporter._avgPacketLossUp
       Reporter._avgPacketLossDown Reporter._avgRemoteFPS Reporter._avgLocalFPS
       Reporter._avgCQ Reporter.jvbStatsMonitor Reporter.p2pStatsMonitor
       Reporter.set_sampleIdx Reporter.set_avgBitrateUp Reporter.set_avgBitrateDown
       Reporter.set_avgBandwidthUp Reporter.set_avgBandwidthDown
       Reporter.set_avgPacketLossTotal Reporter.set_avgPacketLossUp
       Reporter.set_avgPacketLossDown Reporter.set_avgRemoteFPS
       Reporter.set_avgLocalFPS Reporter.set_avgCQ
       Reporter.set_jvbStatsMonitor Reporter.set_p2pStatsMonitor].

Ltac feed_step :=
  rewrite (bind_normal _ _ _ _ _ _ (member_addNext_run _ _ _ _));
  cbv beta; fields_simpl.

Lemma member_addNext_number_run {S} (get : S -> ASR.t) (set : ASR.t -> S -> S)
      (x : number) (s : S) :
  member get set (ASR.addNext (VNumber x)) s
  = Run (set (final (ASR.addNext (VNumber x) (get s))) s) [] (Normal tt).
Proof. reflexivity. Qed.

Ltac feed_number_step :=
  rewrite (bind_normal _ _ _ _ _ _ (member_addNext_number_run _ _ _ _));
  cbv beta; fields_simpl.

(** The eight [addNext] calls on payload fields, before any continuation. *)
Lemma payload_fields_run {A} (env : Env) (data : value) (o : Reporter.fields)
      (k : M Reporter.fields A) :
  (member Reporter._avgBitrateUp Reporter.set_avgBitrateUp
          (ASR.addNext (JS.prop (JS.prop data "bitrate") "upload")) ;;
   member Reporter._avgBitrateDown Reporter.set_avgBitrateDown
          (ASR.addNext (JS.prop (JS.prop data "bitrate") "download")) ;;
   (if supportsBandwidthStatistics env then
      member Reporter._avgBandwidthUp Reporter.set_avgBandwidthUp
             (ASR.addNext (JS.prop (JS.prop data "bandwidth") "upload")) ;;
      member Reporter._avgBandwidthDown Reporter.set_avgBandwidthDown
             (ASR.addNext (JS.prop (JS.prop data "bandwidth") "download"))
    else ret tt) ;;
   member Reporter._avgPacketLossUp Reporter.set_avgPacketLossUp
          (ASR.addNext (JS.prop (JS.prop data "packetLoss") "upload")) ;;
   member Reporter._avgPacketLossDown Reporter.set_avgPacketLossDown
          (ASR.addNext (JS.prop (JS.prop data "packetLoss") "download")) ;;
   member Reporter._avgPacketLossTotal Reporter.set_avgPacketLossTotal
          (ASR.addNext (JS.prop (JS.prop data "packetLoss") "total")) ;;
   member Reporter._avgCQ Reporter.set_avgCQ
          (ASR.addNext (JS.prop data "connectionQuality")) ;;
   k) o
  = Run (final (k (Session.fed_fields env data o)))
        (Session.logged env data o ++ trace (k (Session.fed_fields env data o)))
        (outcome (k (Session.fed_fields env data o))).
Proof.
  unfold Session.logged, Session.fed_fields,
    Session.fedBandwidthUp, Session.fedBandwidthDown, Session.when_supported,
    Session.fedBitrateUp, Session.fedBitrateDown, Session.fedPacketLossUp,
    Session.fedPacketLossDown, Session.fedPacketLossTotal, Session.fedCQ.
  do 2 feed_step.
  destruct (supportsBandwidthStatistics env).
  - rewrite bind_assoc_run. do 6 feed_step.
    rewrite <- ?app_assoc. reflexivity.
  - rewrite bind_ret_run. do 4 feed_step.
    rewrite <- ?app_assoc. reflexivity.
Qed.

Lemma resetAvgStats_body_run (s : Reporter.fields) :
  Reporter.resetAvgStats_body s
  = Run {| Reporter._sampleIdx := 0;
           Reporter._avgBitrateUp := final (ASR.reset (Reporter._avgBitrateUp s));
           Reporter._avgBitrateDown := final (ASR.reset (Reporter._avgBitrateDown s));
           Reporter._avgBandwidthUp := final (ASR.reset (Reporter._avgBandwidthUp s));
           Reporter._avgBandwidthDown := final (ASR.reset (Reporter._avgBandwidthDown s));
           Reporter._avgPacketLossTotal := Reporter._avgPacketLossTotal s;
           Reporter._avgPacketLossUp := final (ASR.reset (Reporter._avgPacketLossUp s));
           Reporter._avgPacketLossDown := final (ASR.reset (Reporter._avgPacketLossDown s));
           Reporter._avgRemoteFPS := final (ASR.reset (Reporter._avgRemoteFPS s));
           Reporter._avgLocalFPS := final (ASR.reset (Reporter._avgLocalFPS s));
           Reporter._avgCQ := final (ASR.reset (Reporter._avgCQ s));
           Reporter.jvbStatsMonitor := Reporter.jvbStatsMonitor s;
           Reporter.p2pStatsMonitor := Reporter.p2pStatsMonitor s |}
        [] (Normal tt).
Proof. reflexivity. Qed.

(** One statement after the other, the first one returning. *)
Lemma bind_run {S A B} (m : M S A) (k : A -> M S B)
      (s s1 s2 : S) (t1 t2 : list effect) (a : A) (o : completion B) :
  m s = Run s1 t1 (Normal a) ->
  k a s1 = Run s2 t2 o ->
  bind m k s = Run s2 (t1 ++ t2) o.
Proof. intros H1 H2. unfold bind. rewrite H1. cbn. rewrite H2. reflexivity. Qed.

Lemma run_conv {S A} (x : run S A) (s s' : S) (t t' : list effect)
      (o o' : completion A) :
  x = Run s t o -> s = s' -> t = t' -> o = o' -> x = Run s' t' o'.
Proof. intros -> -> -> ->. reflexivity. Qed.

Lemma run_of_parts {S A} (x : run S A) (l : list effect) (s : S)
      (t : list effect) (o : completion A) :
  x = Run s t o ->
  Run (final x) (l ++ trace x) (outcome x) = Run s (l ++ t) o.
Proof. intros ->. reflexivity. Qed.

Lemma initialized_run {A} (first : string) (body : M Reporter.fields A)
      (n : Z) (o o' : Reporter.fields) (t : list effect) (oc : completion A) :
  body o = Run o' t oc ->
  Reporter.initialized first body (Reporter.Make n (Some o))
  = Run (Reporter.Make n (Some o')) t oc.
Proof. intro H. unfold Reporter.initialized. cbn. rewrite H. reflexivity. Qed.

(** [report] on a member leaves the members as they are. *)
Lemma report_member_run (get : Reporter.fields -> ASR.t)
      (set : ASR.t -> Reporter.fields -> Reporter.fields)
      (isP2P : bool) (s : Reporter.fields) :
  (forall o, set (get o) o = o) ->
  member get set (ASR.report isP2P) s
  = Run s [Session.report_of isP2P (get s)] (Normal tt).
Proof. intro H. rewrite member_report_run, H. reflexivity. Qed.

Ltac report_step :=
  eapply bind_run; [apply report_member_run; intros []; reflexivity|cbv beta].

Lemma bandwidth_reports_run (env : Env) (s : Reporter.fields) :
  (if supportsBandwidthStatistics env then
     member Reporter._avgBandwidthUp Reporter.set_avgBandwidthUp
            (ASR.report (isP2PActive env)) ;;
     member Reporter._avgBandwidthDown Reporter.set_avgBandwidthDown
            (ASR.report (isP2PActive env))
   else ret tt) s
  = Run s (if supportsBandwidthStatistics env
           then [Session.report_of (isP2PActive env) (Reporter._avgBandwidthUp s);
                 Session.report_of (isP2PActive env) (Reporter._avgBandwidthDown s)]
           else [])
        (Normal tt).
Proof.
  destruct (supportsBandwidthStatistics env); [|reflexivity].
  eapply run_conv;
    [report_step; apply report_member_run; intros []; reflexivity
    |reflexivity..].
Qed.

(** The statements run at a window boundary. *)
Lemma boundary_run (env : Env) (s : Reporter.fields) :
  (member Reporter._avgBitrateUp Reporter.set_avgBitrateUp
          (ASR.report (isP2PActive env)) ;;
   member Reporter._avgBitrateDown Reporter.set_avgBitrateDown
          (ASR.report (isP2PActive env)) ;;
   (if supportsBandwidthStatistics env then
      member Reporter._avgBandwidthUp Reporter.set_avgBandwidthUp
             (ASR.report (isP2PActive env)) ;;
      member Reporter._avgBandwidthDown Reporter.set_avgBandwidthDown
             (ASR.report (isP2PActive env))
    else ret tt) ;;
   member Reporter._avgPacketLossUp Reporter.set_avgPacketLossUp
          (ASR.report (isP2PActive env)) ;;
   member Reporter._avgPacketLossDown Reporter.set_avgPacketLossDown
          (ASR.report (isP2PActive env)) ;;
   member Reporter._avgPacketLossTotal Reporter.set_avgPacketLossTotal
          (ASR.report (isP2PActive env)) ;;
   member Reporter._avgRemoteFPS Reporter.set_avgRemoteFPS
          (ASR.report (isP2PActive env)) ;;
   member Reporter._avgLocalFPS Reporter.set_avgLocalFPS
          (ASR.report (isP2PActive env)) ;;
   member Reporter._avgCQ Reporter.set_avgCQ (ASR.report (isP2PActive env)) ;;
   Reporter.resetAvgStats_body) s
  = Run (final (Reporter.resetAvgStats_body s))
        (Session.boundary_events env s) (Normal tt).
Proof.
  eapply run_conv.
  - do 2 report_step.
    eapply bind_run; [apply bandwidth_reports_run|cbv beta].
    do 6 report_step.
    apply resetAvgStats_body_run.
  - rewrite resetAvgStats_body_run. reflexivity.
  - unfold Session.boundary_events. cbv zeta.
    destruct (supportsBandwidthStatistics env); reflexivity.
  - reflexivity.
Qed.

Lemma fps_number_run (env : Env) (frameRate : value) (isLocal : bool)
      (get : Reporter.fields -> ASR.t)
      (set : ASR.t -> Reporter.fields -> Reporter.fields)
      {A} (k : M Reporter.fields A) (s s2 : Reporter.fields)
      (t2 : list effect) (oc : completion A) :
  Forall (fun p => JS.nullish (JS.prop frameRate p) = false)
         (Frames.peers frameRate (myUserId env) isLocal) ->
  k (set (final (ASR.addNext
                   (VNumber (Frames.average_fps parseInt10 frameRate
                                                (myUserId env) isLocal))
                   (get s))) s)
  = Run s2 t2 oc ->
  (x <- Reporter._calculateAvgVideoFps parseInt10 env frameRate isLocal ;;
   member get set (ASR.addNext (VNumber x)) ;;
   k) s
  = Run s2 t2 oc.
Proof.
  intros H Hk.
  eapply run_conv;
    [eapply bind_run; [apply calculateAvgVideoFps_run; exact H|cbv beta];
     eapply bind_run; [apply member_addNext_number_run|cbv beta];
     exact Hk
    |reflexivity..].
Qed.

Lemma fps_throw_run (env : Env) (frameRate : value) (isLocal : bool)
      {A} (k : number -> M Reporter.fields A) (s : Reporter.fields) :
  Exists (fun p => JS.nullish (JS.prop frameRate p) = true)
         (Frames.peers frameRate (myUserId env) isLocal) ->
  bind (Reporter._calculateAvgVideoFps parseInt10 env frameRate isLocal) k s
  = Run s [] (Throw (TypeError "Cannot convert undefined or null to object")).
Proof.
  intro H. apply bind_throw.
  unfold Reporter._calculateAvgVideoFps, Frames.peers in *.
  rewrite (fps_loop_throw parseInt10 _ _ _ _ _ _ H). reflexivity.
Qed.

Lemma accepted_sample_run (env : Env) (data : value) (n : Z) (o : Reporter.fields) :
  Session.accepted env data = true ->
  Forall (fun p => JS.nullish (JS.prop (JS.prop data "framerate") p) = false)
         (Frames.peers (JS.prop data "framerate") (myUserId env) false) ->
  Forall (fun p => JS.nullish (JS.prop (JS.prop data "framerate") p) = false)
         (Frames.peers (JS.prop data "framerate") (myUserId env) true) ->
  let fed := Session.fed env data
               (Frames.average_fps parseInt10 (JS.prop data "framerate")
                                   (myUserId env) false)
               (Frames.average_fps parseInt10 (JS.prop data "framerate")
                                   (myUserId env) true) o in
  Reporter._calculateAvgStats parseInt10 env data (Reporter.Make n (Some o))
  = if n <=? Reporter._sampleIdx o + 1 then
      Run (Reporter.Make n (Some (final (Reporter.resetAvgStats_body fed))))
          (Session.logged env data o ++ Session.boundary_events env fed)
          (Normal tt)
    else
      Run (Reporter.Make n (Some (Reporter.set_sampleIdx
                                    (Reporter._sampleIdx o + 1) fed)))
          (Session.logged env data o)
          (Normal tt).
Proof.
  intros Hacc Hremote Hlocal fed. subst fed.
  destruct (accepted_fields env data Hacc) as (H0 & H1 & H2 & H3 & H4 & H5).
  unfold Reporter._calculateAvgStats. rewrite bind_this_run.
  destruct (n <=? Reporter._sampleIdx o + 1) eqn:Hn.
  - eapply run_conv; [|reflexivity| |reflexivity].
    + apply initialized_run.
      rewrite H0, H1, H2, H3, H4, H5. cbn [negb]. cbv zeta.
      rewrite payload_fields_run. apply run_of_parts.
      apply fps_number_run; [exact Hremote|].
      apply fps_number_run; [exact Hlocal|].
      rewrite bind_this_run, bind_assign_run, bind_this_run.
      cbn [Reporter._n Reporter._sampleIdx Reporter.set_sampleIdx
           Reporter.set_avgLocalFPS Reporter.set_avgRemoteFPS Session.fed_fields].
      rewrite Hn. rewrite boundary_run, resetAvgStats_body_run.
      unfold Session.boundary_events.
      cbn [final Reporter._sampleIdx Reporter._avgBitrateUp Reporter._avgBitrateDown
           Reporter._avgBandwidthUp Reporter._avgBandwidthDown
           Reporter._avgPacketLossTotal Reporter._avgPacketLossUp
           Reporter._avgPacketLossDown Reporter._avgRemoteFPS Reporter._avgLocalFPS
           Reporter._avgCQ Reporter.jvbStatsMonitor Reporter.p2pStatsMonitor
           Reporter.set_sampleIdx Reporter.set_avgRemoteFPS Reporter.set_avgLocalFPS].
      rewrite resetAvgStats_body_run. unfold Session.fed.
      cbn [final Reporter._sampleIdx Reporter._avgBitrateUp Reporter._avgBitrateDown
           Reporter._avgBandwidthUp Reporter._avgBandwidthDown
           Reporter._avgPacketLossTotal Reporter._avgPacketLossUp
           Reporter._avgPacketLossDown Reporter._avgRemoteFPS Reporter._avgLocalFPS
           Reporter._avgCQ Reporter.jvbStatsMonitor Reporter.p2pStatsMonitor].
      reflexivity.
    + unfold Session.boundary_events, Session.fed.
      cbn [Reporter._sampleIdx Reporter._avgBitrateUp Reporter._avgBitrateDown
           Reporter._avgBandwidthUp Reporter._avgBandwidthDown
           Reporter._avgPacketLossTotal Reporter._avgPacketLossUp
           Reporter._avgPacketLossDown Reporter._avgRemoteFPS Reporter._avgLocalFPS
           Reporter._avgCQ Reporter.jvbStatsMonitor Reporter.p2pStatsMonitor].
      reflexivity.
  - eapply run_conv; [|reflexivity|apply app_nil_r|reflexivity].
    apply initialized_run.
    rewrite H0, H1, H2, H3, H4, H5. cbn [negb]. cbv zeta.
    rewrite payload_fields_run. apply run_of_parts.
    apply fps_number_run; [exact Hremote|].
    apply fps_number_run; [exact Hlocal|].
    rewrite bind_this_run, bind_assign_run, bind_this_run.
    cbn [Reporter._n Reporter._sampleIdx Reporter.set_sampleIdx
         Reporter.set_avgLocalFPS Reporter.set_avgRemoteFPS Session.fed_fields].
    rewrite Hn. reflexivity.
Qed.

(** The same sample when a frame rate entry cannot be read. *)
Lemma unreadable_frame_rate_run (env : Env) (data : value) (n : Z)
      (o : Reporter.fields) :
  Session.accepted env data = true ->
  let frameRate := JS.prop data "framerate" in
  let unreadable isLocal :=
    Exists (fun p => JS.nullish (JS.prop frameRate p) = true)
           (Frames.peers frameRate (myUserId env) isLocal) in
  let e := TypeError "Cannot convert undefined or null to object" in
  (unreadable false ->
   Reporter._calculateAvgStats parseInt10 env data (Reporter.Make n (Some o))
   = Run (Reporter.Make n (Some (Session.fed_fields env data o)))
         (Session.logged env data o) (Throw e))
  /\ (Forall (fun p => JS.nullish (JS.prop frameRate p) = false)
             (Frames.peers frameRate (myUserId env) false) ->
      unreadable true ->
      Reporter._calculateAvgStats parseInt10 env data (Reporter.Make n (Some o))
      = Run (Reporter.Make n
               (Some (Reporter.set_avgRemoteFPS
                        (final (Session.fedRemoteFPS
                                  (Frames.average_fps parseInt10 frameRate
                                                      (myUserId env) false) o))
                        (Session.fed_fields env data o))))
            (Session.logged env data o) (Throw e)).
Proof.
  intros Hacc frameRate unreadable e. subst frameRate unreadable e. cbv beta.
  destruct (accepted_fields env data Hacc) as (H0 & H1 & H2 & H3 & H4 & H5).
  split.
  - intro Hex.
    unfold Reporter._calculateAvgStats. rewrite bind_this_run.
    eapply run_conv; [|reflexivity|apply app_nil_r|reflexivity].
    apply initialized_run.
    rewrite H0, H1, H2, H3, H4, H5. cbn [negb]. cbv zeta.
    rewrite payload_fields_run. apply run_of_parts.
    apply fps_throw_run. exact Hex.
  - intros Hremote Hex.
    unfold Reporter._calculateAvgStats. rewrite bind_this_run.
    eapply run_conv; [|reflexivity|apply app_nil_r|reflexivity].
    apply initialized_run.
    rewrite H0, H1, H2, H3, H4, H5. cbn [negb]. cbv zeta.
    rewrite payload_fields_run. apply run_of_parts.
    apply fps_number_run; [exact Hremote|].
    apply fps_throw_run. exact Hex.
Qed.

Lemma when_supported_only_logs (b : bool) (v : value) (a : ASR.t) :
  only_log_errors (trace (Session.when_supported b v a)).
Proof.
  unfold Session.when_supported.
  destruct b; [apply addNext_only_logs|intros e []].
Qed.

Lemma only_log_errors_app (t1 t2 : list effect) :
  only_log_errors t1 -> only_log_errors t2 -> only_log_errors (t1 ++ t2).
Proof.
  intros H1 H2 e He. apply in_app_or in He. destruct He; auto.
Qed.

Lemma logged_only_logs (env : Env) (data : value) (o : Reporter.fields) :
  only_log_errors (Session.logged env data o).
Proof.
  unfold Session.logged.
  repeat (apply only_log_errors_app;
          [first [apply addNext_only_logs|apply when_supported_only_logs]|]).
  apply addNext_only_logs.
Qed.

(** X11: a local sample that is accepted (no early return, the four
    fields present, frame rates readable) below the window is added to
    each average from the payload field that belongs to it, the bandwidth
    averages only where bandwidth statistics are supported; the sample
    index grows by one, the monitors stay, and nothing is sent. *)
Theorem accepted_sample_feeds_each_average
        (env : Env) (data : value) (n : Z) (o : Reporter.fields) :
  let frameRate := JS.prop data "framerate" in
  Session.accepted env data = true ->
  Forall (fun p => JS.nullish (JS.prop frameRate p) = false)
         (Frames.peers frameRate (myUserId env) false) ->
  Forall (fun p => JS.nullish (JS.prop frameRate p) = false)
         (Frames.peers frameRate (myUserId env) true) ->
  Reporter._sampleIdx o + 1 < n ->
  let r := Reporter._calculateAvgStats parseInt10 env data (Reporter.Make n (Some o)) in
  let fed v a := final (ASR.addNext v a) in
  outcome r = Normal tt
  /\ sent (trace r) = []
  /\ exists o',
      final r = Reporter.Make n (Some o')
      /\ Reporter._sampleIdx o' = Reporter._sampleIdx o + 1
      /\ Reporter._avgBitrateUp o'
         = fed (JS.prop (JS.prop data "bitrate") "upload") (Reporter._avgBitrateUp o)
      /\ Reporter._avgBitrateDown o'
         = fed (JS.prop (JS.prop data "bitrate") "download") (Reporter._avgBitrateDown o)
      /\ Reporter._avgBandwidthUp o'
         = (if supportsBandwidthStatistics env
            then fed (JS.prop (JS.prop data "bandwidth") "upload")
                     (Reporter._avgBandwidthUp o)
            else Reporter._avgBandwidthUp o)
      /\ Reporter._avgBandwidthDown o'
         = (if supportsBandwidthStatistics env
            then fed (JS.prop (JS.prop data "bandwidth") "download")
                     (Reporter._avgBandwidthDown o)
            else Reporter._avgBandwidthDown o)
      /\ Reporter._avgPacketLossUp o'
         = fed (JS.prop (JS.prop data "packetLoss") "upload") (Reporter._avgPacketLossUp o)
      /\ Reporter._avgPacketLossDown o'
         = fed (JS.prop (JS.prop data "packetLoss") "download")
               (Reporter._avgPacketLossDown o)
      /\ Reporter._avgPacketLossTotal o'
         = fed (JS.prop (JS.prop data "packetLoss") "total")
               (Reporter._avgPacketLossTotal o)
      /\ Reporter._avgCQ o'
         = fed (JS.prop data "connectionQuality") (Reporter._avgCQ o)
      /\ Reporter._avgRemoteFPS o'
         = fed (VNumber (Frames.average_fps parseInt10 frameRate (myUserId env) false))
               (Reporter._avgRemoteFPS o)
      /\ Reporter._avgLocalFPS o'
         = fed (VNumber (Frames.average_fps parseInt10 frameRate (myUserId env) true))
               (Reporter._avgLocalFPS o)
      /\ Reporter.jvbStatsMonitor o' = Reporter.jvbStatsMonitor o
      /\ Reporter.p2pStatsMonitor o' = Reporter.p2pStatsMonitor o.
Proof.
  intros frameRate Hacc Hremote Hlocal Hidx r fed. subst frameRate r fed.
  rewrite (accepted_sample_run env data n o Hacc Hremote Hlocal).
  replace (n <=? Reporter._sampleIdx o + 1) with false
    by (symmetry; apply Z.leb_gt; exact Hidx).
  cbn [outcome trace final].
  split; [reflexivity|].
  split; [apply sent_only_log_errors, logged_only_logs|].
  eexists. split; [reflexivity|].
  unfold Session.fed, Session.fedBandwidthUp, Session.fedBandwidthDown,
    Session.when_supported.
  fields_simpl. destruct (supportsBandwidthStatistics env); repeat split.
Qed.

(** X12: the accepted local sample that completes the window sends the
    reports of the boundary in the order of the handler, ten of them or
    eight where bandwidth statistics are not supported, every name
    prefixed by the current mode; afterwards the sample index is 0, nine
    averages are cleared and [_avgPacketLossTotal] holds what it held
    when it was reported. *)
Theorem window_boundary_reports
        (env : Env) (data : value) (n : Z) (o : Reporter.fields) :
  let frameRate := JS.prop data "framerate" in
  Session.accepted env data = true ->
  Forall (fun p => JS.nullish (JS.prop frameRate p) = false)
         (Frames.peers frameRate (myUserId env) false) ->
  Forall (fun p => JS.nullish (JS.prop frameRate p) = false)
         (Frames.peers frameRate (myUserId env) true) ->
  n <= Reporter._sampleIdx o + 1 ->
  let r := Reporter._calculateAvgStats parseInt10 env data (Reporter.Make n (Some o)) in
  let fed := Session.fed env data
               (Frames.average_fps parseInt10 frameRate (myUserId env) false)
               (Frames.average_fps parseInt10 frameRate (myUserId env) true) o in
  outcome r = Normal tt
  /\ sent (trace r) = Session.boundary_events env fed
  /\ List.length (sent (trace r))
     = (if supportsBandwidthStatistics env then 10 else 8)%nat
  /\ exists o',
      final r = Reporter.Make n (Some o')
      /\ Reporter._sampleIdx o' = 0
      /\ Forall ASR.cleared
           [Reporter._avgBitrateUp o'; Reporter._avgBitrateDown o';
            Reporter._avgBandwidthUp o'; Reporter._avgBandwidthDown o';
            Reporter._avgPacketLossUp o'; Reporter._avgPacketLossDown o';
            Reporter._avgRemoteFPS o'; Reporter._avgLocalFPS o';
            Reporter._avgCQ o']
      /\ Reporter._avgPacketLossTotal o' = Reporter._avgPacketLossTotal fed
      /\ Reporter.jvbStatsMonitor o' = Reporter.jvbStatsMonitor o
      /\ Reporter.p2pStatsMonitor o' = Reporter.p2pStatsMonitor o.
Proof.
  intros frameRate Hacc Hremote Hlocal Hidx r fed. subst frameRate r.
  rewrite (accepted_sample_run env data n o Hacc Hremote Hlocal).
  replace (n <=? Reporter._sampleIdx o + 1) with true
    by (symmetry; apply Z.leb_le; exact Hidx).
  cbn [outcome trace final]. fold fed.
  assert (Hsent : sent (Session.logged env data o ++ Session.boundary_events env fed)
                  = Session.boundary_events env fed).
  { rewrite sent_app, (sent_only_log_errors _ (logged_only_logs env data o)).
    unfold Session.boundary_events.
    destruct (supportsBandwidthStatistics env); reflexivity. }
  split; [reflexivity|].
  split; [exact Hsent|].
  split.
  { rewrite Hsent. unfold Session.boundary_events.
    destruct (supportsBandwidthStatistics env); reflexivity. }
  eexists. split; [reflexivity|].
  split; [reflexivity|].
  split; [|repeat split].
  repeat (constructor; [split; reflexivity|]). constructor.
Qed.

(** X13: when a local sample passes the field checks but the frame rate
    entry of a participant is [undefined] or [null], the handler throws
    after it has added the bit rates, packet losses and connection quality
    to their averages: these were fed although the sample index did not
    move and nothing was sent. *)
Theorem unreadable_frame_rate_is_partial
        (env : Env) (data : value) (n : Z) (o : Reporter.fields) :
  let frameRate := JS.prop data "framerate" in
  let fed v a := final (ASR.addNext v a) in
  let unreadable isLocal :=
    Exists (fun p => JS.nullish (JS.prop frameRate p) = true)
           (Frames.peers frameRate (myUserId env) isLocal) in
  let r := Reporter._calculateAvgStats parseInt10 env data (Reporter.Make n (Some o)) in
  Session.accepted env data = true ->
  unreadable false \/ unreadable true ->
  outcome r = Throw (TypeError "Cannot convert undefined or null to object")
  /\ sent (trace r) = []
  /\ exists o',
      final r = Reporter.Make n (Some o')
      /\ Reporter._sampleIdx o' = Reporter._sampleIdx o
      /\ Reporter._avgBitrateUp o'
         = fed (JS.prop (JS.prop data "bitrate") "upload") (Reporter._avgBitrateUp o)
      /\ Reporter._avgBitrateDown o'
         = fed (JS.prop (JS.prop data "bitrate") "download") (Reporter._avgBitrateDown o)
      /\ Reporter._avgPacketLossUp o'
         = fed (JS.prop (JS.prop data "packetLoss") "upload") (Reporter._avgPacketLossUp o)
      /\ Reporter._avgPacketLossDown o'
         = fed (JS.prop (JS.prop data "packetLoss") "download")
               (Reporter._avgPacketLossDown o)
      /\ Reporter._avgPacketLossTotal o'
         = fed (JS.prop (JS.prop data "packetLoss") "total")
               (Reporter._avgPacketLossTotal o)
      /\ Reporter._avgCQ o'
         = fed (JS.prop data "connectionQuality") (Reporter._avgCQ o)
      /\ Reporter._avgLocalFPS o' = Reporter._avgLocalFPS o
      /\ (unreadable false -> Reporter._avgRemoteFPS o' = Reporter._avgRemoteFPS o).
Proof.
  intros frameRate fed unreadable r Hacc Hex. subst frameRate fed unreadable r.
  cbv beta in *.
  destruct (unreadable_frame_rate_run env data n o Hacc) as [Hremote Hlocal].
  cbv beta zeta in Hremote, Hlocal.
  destruct (Exists_dec (fun p => JS.nullish (JS.prop (JS.prop data "framerate") p) = true)
              (Frames.peers (JS.prop data "framerate") (myUserId env) false)
              (fun p => bool_dec _ true)) as [Hr|Hr].
  - rewrite (Hremote Hr). cbn [outcome trace final].
    split; [reflexivity|].
    split; [apply sent_only_log_errors, logged_only_logs|].
    eexists. split; [reflexivity|]. repeat split.
  - destruct Hex as [Hex|Hex]; [contradiction|].
    assert (Hall : Forall (fun p => JS.nullish (JS.prop (JS.prop data "framerate") p)
                                    = false)
                          (Frames.peers (JS.prop data "framerate") (myUserId env) false)).
    { apply Forall_forall. intros p Hp.
      destruct (JS.nullish (JS.prop (JS.prop data "framerate") p)) eqn:E;
        [|reflexivity].
      exfalso. apply Hr. apply Exists_exists. eauto. }
    rewrite (Hlocal Hall Hex). cbn [outcome trace final].
    split; [reflexivity|].
    split; [apply sent_only_log_errors, logged_only_logs|].
    eexists. split; [reflexivity|]. repeat split. intro. contradiction.
Qed.

Lemma session_after_cons (d : Env * value) (ds : list (Env * value)) (r : Reporter.t) :
  Session.after parseInt10 (d :: ds) r
  = Session.after parseInt10 ds
      (final (Reporter._calculateAvgStats parseInt10 (fst d) (snd d) r)).
Proof. reflexivity. Qed.

(** X14: after [k] accepted local samples the sample index of the
    reporter is [(_sampleIdx + k) mod _n]. *)
Theorem session_counts_modulo_window
        (ds : list (Env * value)) (n : Z) (o : Reporter.fields) :
  Forall (fun d =>
            Session.accepted (fst d) (snd d) = true
            /\ forall isLocal,
                Forall (fun p => JS.nullish (JS.prop (JS.prop (snd d) "framerate") p)
                                 = false)
                       (Frames.peers (JS.prop (snd d) "framerate")
                                     (myUserId (fst d)) isLocal)) ds ->
  0 <= Reporter._sampleIdx o < n ->
  exists o',
    Session.after parseInt10 ds (Reporter.Make n (Some o)) = Reporter.Make n (Some o')
    /\ Reporter._sampleIdx o'
       = (Reporter._sampleIdx o + Z.of_nat (List.length ds)) mod n.
Proof.
  intro H. revert o. induction H as [|[env data] ds [Hacc Hfr] _ IH]; intros o Hidx.
  - exists o. split; [reflexivity|].
    simpl. rewrite Z.add_0_r, Z.mod_small by lia. reflexivity.
  - rewrite session_after_cons. cbn [fst snd] in *.
    rewrite (accepted_sample_run env data n o Hacc (Hfr false) (Hfr true)).
    change (List.length ((env, data) :: ds)) with (S (List.length ds)).
    rewrite Nat2Z.inj_succ.
    destruct (Z.leb_spec n (Reporter._sampleIdx o + 1)) as [Hle|Hlt];
      cbn [final].
    + match goal with
      | |- context [Reporter.Make n (Some ?s)] =>
          destruct (IH s) as (o' & Ho' & Hi)
      end.
      { cbn. lia. }
      exists o'. split; [exact Ho'|]. rewrite Hi.
      change (Reporter._sampleIdx (final (Reporter.resetAvgStats_body _))) with 0.
      replace (Reporter._sampleIdx o + Z.succ (Z.of_nat (List.length ds)))
        with (Z.of_nat (List.length ds) + 1 * n) by lia.
      rewrite Z_mod_plus_full. reflexivity.
    + match goal with
      | |- context [Reporter.Make n (Some ?s)] =>
          destruct (IH s) as (o' & Ho' & Hi)
      end.
      { cbn. lia. }
      exists o'. split; [exact Ho'|]. rewrite Hi. cbn [Reporter._sampleIdx
        Reporter.set_sampleIdx]. f_equal. lia.
Qed.

End AcceptedSample.

Lemma average_fps_of_averages_witness :
  Reporter._calculateAvgVideoFps Inputs.parse (Fixtures.env false 1)
    Inputs.video false (Reporter.new_members 3)
  = Run (Reporter.new_members 3) []
        (Normal (Frames.average_fps Inputs.parse Inputs.video
                                    (VString "me") false)).
Proof.
  destruct (average_fps_of_averages Inputs.parse (Fixtures.env false 1)
              Inputs.video false (Reporter.new_members 3)) as (H & _ & _).
  apply H. repeat constructor.
Defined.

Example average_fps_values :
  Frames.average_fps Inputs.parse Inputs.video (VString "me") false
  = Num.of_Z 20
  /\ Frames.average_fps Inputs.parse Inputs.video (VString "me") true
     = Num.of_Z 30.
Proof. vm_compute. split; reflexivity. Qed.

Lemma accepted_sample_feeds_each_average_witness :
  sent (trace (Reporter._calculateAvgStats Inputs.parse (Fixtures.env false 1)
                 (Inputs.sample_with_video 100)
                 (Reporter.Make 3 (Some (Reporter.new_members 3)))))
  = [].
Proof.
  apply (accepted_sample_feeds_each_average Inputs.parse (Fixtures.env false 1)
           (Inputs.sample_with_video 100) 3 (Reporter.new_members 3));
    [reflexivity|repeat constructor|repeat constructor|simpl; lia].
Defined.

Lemma window_boundary_reports_witness :
  List.length
    (sent (trace (Reporter._calculateAvgStats Inputs.parse (Fixtures.env false 1)
                    (Inputs.sample_with_video 100)
                    (Reporter.Make 1 (Some (Reporter.new_members 1))))))
  = 10%nat.
Proof.
  destruct (window_boundary_reports Inputs.parse (Fixtures.env false 1)
              (Inputs.sample_with_video 100) 1 (Reporter.new_members 1))
    as (_ & _ & H & _);
    [reflexivity|repeat constructor|repeat constructor|simpl; lia|exact H].
Defined.

Lemma unreadable_frame_rate_is_partial_witness :
  outcome (Reporter._calculateAvgStats Inputs.parse (Fixtures.env false 1)
             Inputs.sample_with_broken_video
             (Reporter.Make 3 (Some (Reporter.new_members 3))))
  = Throw (TypeError "Cannot convert undefined or null to object").
Proof.
  apply (unreadable_frame_rate_is_partial Inputs.parse (Fixtures.env false 1)
           Inputs.sample_with_broken_video 3 (Reporter.new_members 3));
    [reflexivity|].
  left. apply Exists_cons_hd. reflexivity.
Defined.

Lemma session_counts_modulo_window_witness :
  exists o',
    Session.after Inputs.parse
      [(Fixtures.env false 1, Inputs.sample_with_video 100);
       (Fixtures.env true 0, Fixtures.sample 200 5);
       (Fixtures.env false 1, Inputs.sample_with_video 300);
       (Fixtures.env false 1, Inputs.sample_with_video 400)]
      (Reporter.Make 3 (Some (Reporter.new_members 3)))
    = Reporter.Make 3 (Some o')
    /\ Reporter._sampleIdx o' = (0 + 4) mod 3.
Proof.
  apply (session_counts_modulo_window Inputs.parse
           [(Fixtures.env false 1, Inputs.sample_with_video 100);
            (Fixtures.env true 0, Fixtures.sample 200 5);
            (Fixtures.env false 1, Inputs.sample_with_video 300);
            (Fixtures.env false 1, Inputs.sample_with_video 400)]
           3 (Reporter.new_members 3)).
  - repeat (constructor;
            [split; [reflexivity|intros [|]; repeat constructor]|]).
    constructor.
  - simpl. lia.
Defined.


(** ** What no delivery changes *)

Section FrameRules.

Context {S : Type}.

Lemma keeps_this (I : S -> Prop) : keeps I (@this S).
Proof. apply keeps_intro. auto. Qed.

(** A call on a member keeps what does not depend on that member. *)
Lemma member_frame {T A} (get : S -> T) (set : T -> S -> S) (m : M T A)
      (I : S -> Prop) :
  (forall s t, I s -> I (set t s)) -> keeps I (member get set m).
Proof. intro H. apply keeps_intro. intros s Hs. simpl. apply H. exact Hs. Qed.


End FrameRules.

Lemma keeps_initialized_on {A} (n : Z) (P : Reporter.fields -> Prop)
      (first : string) (body : M Reporter.fields A) :
  keeps P body ->
  keeps (on_members n P) (Reporter.initialized first body).
Proof.
  intros Hbody. apply keeps_intro. intros r (Hn & o & Hm & Ho).
  unfold Reporter.initialized. rewrite Hm. simpl.
  split; [exact Hn|]. eexists. split; [reflexivity|].
  apply keeps_final; assumption.
Qed.

Section PacketLossTotal.

Variable c : Z.

Local Abbreviation Held := (fun o => c <= ASR.count (Reporter._avgPacketLossTotal o)).








End PacketLossTotal.

Lemma deliver_all_on_members parseInt10 (n : Z) (P : Reporter.fields -> Prop)
      (ds : list (Env * Conference.delivery)) (c : Conference.t) :
  (forall env d, keeps (on_members n P) (Conference.handler parseInt10 env d)) ->
  on_members n P (Conference.reporter c) ->
  on_members n P (Conference.reporter (Conference.deliver_all parseInt10 ds c)).
Proof.
  intro Hh. revert c. induction ds as [|[env d] ds IH]; intros c Hc; [exact Hc|].
  apply IH. simpl. unfold Conference.deliver.
  destruct (Conference.registered (Conference.target d) (Conference.listeners c)).
  - unfold Conference.call. simpl. apply keeps_final; [apply Hh|exact Hc].
  - exact Hc.
Qed.



(** ** Listeners *)

Lemma keeps_assign_ok {S} (s1 : S) (I : S -> Prop) : I s1 -> keeps I (assign s1).
Proof. intro H. apply keeps_intro. intros s _. exact H. Qed.

Ltac flag_step :=
  lazymatch goal with
  | |- keeps _ (bind this _) =>
      apply keeps_bind_this;
      let s := fresh "s" in let H := fresh "Hs" in
      intros s H; apply keeps_from; [|exact H]
  | |- keeps _ (bind _ _) => apply keeps_bind; [|intro]
  | |- keeps _ (if _ then _ else _) => apply keeps_if
  | |- keeps _ (match ?x with Some _ => _ | None => _ end) => destruct x
  | |- keeps _ (ret _) => apply keeps_ret
  | |- keeps _ (throw _) => apply keeps_throw
  | |- keeps _ (assign _) => apply keeps_assign_ok; solve [simpl; assumption]
  | |- keeps _ (logger_error _ _) => apply keeps_logger_error
  | |- keeps _ (logger_debug _) => apply keeps_emit
  | |- keeps _ (sendEvent _ _) => apply keeps_sendEvent
  | |- keeps _ (get_member _ _) => apply keeps_get_member
  | |- keeps _ (member _ _ _) =>
      apply member_frame; let H := fresh in intros ? ? H; exact H
  end.

Lemma flag_remoteRTT (b : bool) :
  keeps (fun m => CAS.isP2P m = b) CAS._calculateAvgRemoteRTT.
Proof.
  apply keeps_intro. intros s Hs. rewrite calculateAvgRemoteRTT_run. exact Hs.
Qed.

Lemma flag_resetAvgStats (b : bool) :
  keeps (fun m => CAS.isP2P m = b) CAS._resetAvgStats.
Proof. apply keeps_intro. intros s Hs. exact Hs. Qed.

Lemma flag_calculateAvgStats (b : bool) env data :
  keeps (fun m => CAS.isP2P m = b) (CAS._calculateAvgStats env data).
Proof.
  unfold CAS._calculateAvgStats. cbv zeta.
  repeat first [apply flag_remoteRTT | apply flag_resetAvgStats | flag_step].
Qed.

Lemma flag_monitor_handlers (b : bool) :
  (forall env tpc stats,
      keeps (fun m => CAS.isP2P m = b) (CAS._onConnectionStats env tpc stats))
  /\ (forall id, keeps (fun m => CAS.isP2P m = b) (CAS._onUserLeft id))
  /\ (forall id data,
         keeps (fun m => CAS.isP2P m = b) (CAS._onRemoteStatsUpdated id data)).
Proof.
  split; [|split].
  - intros env tpc stats. unfold CAS._onConnectionStats.
    repeat first [apply flag_calculateAvgStats | flag_step].
  - intro id. apply keeps_intro. intros s Hs. exact Hs.
  - intros id data.
    unfold CAS._onRemoteStatsUpdated, CAS._processRemoteStats, CAS.on_entry.
    repeat flag_step.
Qed.

Lemma in_place_jvb {A} (m : M CAS.t A) :
  keeps (fun s => CAS.isP2P s = false) m ->
  keeps monitors_in_place
        (member Reporter.jvbStatsMonitor Reporter.set_jvbStatsMonitor m).
Proof.
  intro Hm. eapply hoare_member; [exact Hm| | |].
  - intros s Hs. apply Hs.
  - intros s t a [_ Hp] Ht. split; [exact Ht|exact Hp].
  - intros s t [_ Hp] Ht. split; [exact Ht|exact Hp].
Qed.

Lemma in_place_p2p {A} (m : M CAS.t A) :
  keeps (fun s => CAS.isP2P s = true) m ->
  keeps monitors_in_place
        (member Reporter.p2pStatsMonitor Reporter.set_p2pStatsMonitor m).
Proof.
  intro Hm. eapply hoare_member; [exact Hm| | |].
  - intros s Hs. apply Hs.
  - intros s t a [Hj _] Ht. split; [exact Hj|exact Ht].
  - intros s t [Hj _] Ht. split; [exact Hj|exact Ht].
Qed.

Lemma in_place_fps parseInt10 env frameRate isLocal :
  keeps monitors_in_place
        (Reporter._calculateAvgVideoFps parseInt10 env frameRate isLocal).
Proof.
  apply keeps_intro. intros s Hs. unfold Reporter._calculateAvgVideoFps.
  destruct (Reporter.fps_loop parseInt10 frameRate (myUserId env) isLocal
              (JS.keys frameRate) 0 Num.zero) as [[k f]|e]; exact Hs.
Qed.

Lemma in_place_handler (n : Z) parseInt10 env (d : Conference.delivery) :
  keeps (on_members n monitors_in_place) (Conference.handler parseInt10 env d).
Proof.
  destruct (flag_monitor_handlers false) as (Hc & Hu & Hr).
  destruct (flag_monitor_handlers true) as (Hc' & _ & _).
  destruct d as [data| |[|] tpc stats|id|id data]; simpl.
  - unfold Reporter._onLocalStatsUpdated, Reporter._calculateAvgStats.
    apply keeps_bind_this. intros self Hself. apply keeps_from; [|exact Hself].
    apply keeps_initialized_on. unfold Reporter.resetAvgStats_body. cbv zeta.
    repeat first [apply in_place_fps | flag_step].
  - unfold Reporter._onP2PStatusChanged, Reporter._resetAvgStats,
      Reporter.resetAvgStats_body.
    apply keeps_bind; [apply keeps_emit|]. intros _.
    apply keeps_bind; [apply keeps_initialized_on; repeat flag_step|].
    intros _. apply keeps_initialized_on.
    apply keeps_bind; [apply in_place_jvb, flag_resetAvgStats|].
    intros _. apply in_place_p2p, flag_resetAvgStats.
  - apply keeps_initialized_on, in_place_p2p, Hc'.
  - apply keeps_initialized_on, in_place_jvb, Hc.
  - apply keeps_initialized_on, in_place_jvb, Hu.
  - apply keeps_initialized_on, in_place_jvb, Hr.
Qed.

Lemma dispose_run (n : Z) (o : Reporter.fields) :
  monitors_in_place o ->
  Reporter.dispose (Reporter.Make n (Some o))
  = Run (Reporter.Make n (Some o))
        [Unsubscribe OnP2PStatusChanged; Unsubscribe OnLocalStatsUpdated;
         Unsubscribe (OnConnectionStats false);
         Unsubscribe OnRemoteStatsUpdated; Unsubscribe OnUserLeft;
         Unsubscribe (OnConnectionStats true)]
        (Normal tt).
Proof.
  intros [Hj Hp]. destruct o as [? ? ? ? ? ? ? ? ? ? ? jvb p2p].
  destruct jvb, p2p. simpl in Hj, Hp. subst. reflexivity.
Qed.

(** X16: an enabled reporter always has the six listeners its constructors
    added, whatever was delivered; [dispose()] returns after removing
    exactly these, leaves every average as it was, and no delivery
    reaches the reporter afterwards. *)
Theorem dispose_removes_every_listener
        (parseInt10 : value -> number) (n : Z)
        (ds : list (Env * Conference.delivery)) :
  0 < n ->
  let c := Conference.deliver_all parseInt10 ds (final (Conference.create n)) in
  Conference.listeners c = all_listeners
  /\ Conference.dispose c
     = Run (Conference.Make (Conference.reporter c) [])
           [Unsubscribe OnP2PStatusChanged; Unsubscribe OnLocalStatsUpdated;
            Unsubscribe (OnConnectionStats false);
            Unsubscribe OnRemoteStatsUpdated; Unsubscribe OnUserLeft;
            Unsubscribe (OnConnectionStats true)]
           (Normal tt)
  /\ forall env d,
      Conference.deliver parseInt10 env d (final (Conference.dispose c))
      = Run (final (Conference.dispose c)) [] (Normal tt).
Proof.
  intros Hn c.
  assert (Hcreate : final (Conference.create n)
                    = Conference.Make (Reporter.Make n (Some (Reporter.new_members n)))
                                      all_listeners).
  { unfold Conference.create, Reporter.constructor.
    replace (0 <? n) with true by (symmetry; apply Z.ltb_lt; exact Hn).
    reflexivity. }
  assert (Hl : Conference.listeners c = all_listeners).
  { subst c. rewrite deliver_all_listeners, Hcreate. reflexivity. }
  assert (Hr : on_members n monitors_in_place (Conference.reporter c)).
  { subst c. apply deliver_all_on_members.
    - intros env d. apply in_place_handler.
    - rewrite Hcreate. split; [reflexivity|]. eexists. split; [reflexivity|].
      split; reflexivity. }
  destruct Hr as (Hrn & o & Hm & Ho).
  assert (Hrep : Conference.reporter c = Reporter.Make n (Some o)).
  { destruct (Conference.reporter c) as [n' members]. simpl in *. congruence. }
  assert (Hd : Conference.dispose c
               = Run (Conference.Make (Conference.reporter c) [])
                     [Unsubscribe OnP2PStatusChanged; Unsubscribe OnLocalStatsUpdated;
                      Unsubscribe (OnConnectionStats false);
                      Unsubscribe OnRemoteStatsUpdated; Unsubscribe OnUserLeft;
                      Unsubscribe (OnConnectionStats true)]
                     (Normal tt)).
  { unfold Conference.dispose, Conference.call.
    rewrite Hrep, (dispose_run n o Ho), Hl. reflexivity. }
  split; [exact Hl|]. split; [exact Hd|].
  intros env d. rewrite Hd. reflexivity.
Qed.

Lemma dispose_removes_every_listener_witness :
  Conference.listeners
    (final (Conference.dispose
              (Conference.deliver_all Inputs.parse
                 [(Fixtures.env false 1,
                   Conference.LocalStatsUpdated (Inputs.sample_with_video 100))]
                 (final (Conference.create 3)))))
  = [].
Proof.
  destruct (dispose_removes_every_listener Inputs.parse 3
              [(Fixtures.env false 1,
                Conference.LocalStatsUpdated (Inputs.sample_with_video 100))]
              ltac:(lia)) as (_ & H & _).
  rewrite H. reflexivity.
Defined.
